(** * sudio audio cache: header codec, binary writer, synchronizer, resolver

    A shallow embedding of [sudio/audioutils/cacheutil.py] and
    [sudio/audioutils/sync.py].  Python values are modelled as follows.

    - [bytes] objects are [list byte]; Python integers are [Z].
    - numpy arrays are lists of raw little-endian elements tagged with a
      dtype ([ndarray]).
    - the file system, the table of open file objects and the path service
      counter form the [world]; the functions that touch them live in a
      state-and-exception monad [M].
    - Python exceptions are the constructors of [exn]; loops that Python
      does not bound take a fuel argument and yield [OutOfFuel] when it is
      exhausted. *)

From Stdlib Require Import ZArith List String Ascii Strings.Byte Lia Bool.
From stdpp Require Import base option list gmap strings fin_maps.

Open Scope Z_scope.

(** ** Bytes and little-endian integers *)

Definition byte_of_Z (z : Z) : byte :=
  match Byte.of_N (Z.to_N (z mod 256)) with
  | Some b => b
  | None => Byte.x00
  end.

Definition Z_of_byte (b : byte) : Z := Z.of_N (Byte.to_N b).

(** The [w] low-order bytes of [z], least significant first. *)
Fixpoint le_bytes (w : nat) (z : Z) : list byte :=
  match w with
  | O => []
  | S w' => byte_of_Z z :: le_bytes w' (z / 256)
  end.

(** The unsigned integer a little-endian byte string denotes. *)
Fixpoint le_value (bs : list byte) : Z :=
  match bs with
  | [] => 0
  | b :: t => Z_of_byte b + 256 * le_value t
  end.

(** Cut a byte string into consecutive pieces of [w] bytes. *)
Fixpoint chunks_aux (fuel w : nat) (bs : list byte) : list (list byte) :=
  match fuel with
  | O => []
  | S fuel' =>
      match bs with
      | [] => []
      | _ :: _ => take w bs :: chunks_aux fuel' w (drop w bs)
      end
  end.

Definition chunks (w : nat) (bs : list byte) : list (list byte) :=
  chunks_aux (length bs) w bs.

(** ** Exceptions and outcomes *)

Inductive exn : Type :=
| ValueError
| TypeError
| OSError
| OverflowError
| ZeroDivisionError
| IndexError
| DecodeError
| UnsupportedFormatError.

Definition exn_eqb (a b : exn) : bool :=
  match a, b with
  | ValueError, ValueError | TypeError, TypeError | OSError, OSError
  | OverflowError, OverflowError | ZeroDivisionError, ZeroDivisionError
  | IndexError, IndexError | DecodeError, DecodeError
  | UnsupportedFormatError, UnsupportedFormatError => true
  | _, _ => false
  end.

Inductive outcome (A : Type) : Type :=
| Ret (a : A)
| Raise (e : exn)
| OutOfFuel.

Arguments Ret {A} a.
Arguments Raise {A} e.
Arguments OutOfFuel {A}.

Definition obind {A B} (m : outcome A) (k : A -> outcome B) : outcome B :=
  match m with
  | Ret a => k a
  | Raise e => Raise e
  | OutOfFuel => OutOfFuel
  end.

(** ** Cache header codec

    The header is written by [np.asarray(head, dtype='u8')] and read back by
    [np.frombuffer(cache_info, dtype='u8').tolist()], unpacked into four
    names. *)

Definition u8_width : nat := 8.
Definition two64 : Z := 2 ^ 64.

Definition in_u8 (v : Z) : bool := (0 <=? v) && (v <? two64).

(** [np.asarray(head, dtype='u8')] followed by taking the array's bytes:
    every value must fit an unsigned 64-bit integer, or numpy raises
    OverflowError. *)
Fixpoint np_asarray_u8 (head : list Z) : outcome (list byte) :=
  match head with
  | [] => Ret []
  | v :: t =>
      if in_u8 v
      then obind (np_asarray_u8 t) (fun r => Ret (le_bytes u8_width v ++ r))
      else Raise OverflowError
  end.

(** [np.frombuffer(buf, dtype='u8').tolist()]: the buffer length must be a
    multiple of the element size. *)
Definition np_frombuffer_u8 (buf : list byte) : outcome (list Z) :=
  if (Z.of_nat (length buf) mod Z.of_nat u8_width =? 0)
  then Ret (map le_value (chunks u8_width buf))
  else Raise ValueError.

Record header : Type := mk_header {
  byteSize : Z;
  hframeRate : Z;
  sampleFormatId : Z;
  channelCount : Z
}.

Definition header_fields (h : header) : list Z :=
  [byteSize h; hframeRate h; sampleFormatId h; channelCount h].

Definition encode_header (h : header) : outcome (list byte) :=
  np_asarray_u8 (header_fields h).

(** [csize, cframe_rate, csample_format, cnchannels = ...tolist()]: a list
    of any other length than four fails to unpack, also with ValueError. *)
Definition decode_header (buf : list byte) : outcome header :=
  obind (np_frombuffer_u8 buf) (fun vs =>
    match vs with
    | [a; b; c; d] => Ret (mk_header a b c d)
    | _ => Raise ValueError
    end).

Declare Scope outcome_scope.
Delimit Scope outcome_scope with out.
Notation "'let*' x := m 'in' k" := (obind m (fun x => k))
  (at level 10, x pattern, m at level 100, k at level 200, only parsing)
  : outcome_scope.

(** ** numpy arrays

    An element is kept as its raw little-endian bytes, so that reading a
    buffer and writing it back is exact for integers and floats alike. *)

Record dtype : Type := mk_dtype { dt_float : bool; dt_width : Z }.

Definition dtype_eqb (a b : dtype) : bool :=
  Bool.eqb (dt_float a) (dt_float b) && (dt_width a =? dt_width b).

(** The dtype strings ['<i{w}'] and ['<f{w}'] numpy understands. *)
Definition dtype_valid (d : dtype) : bool :=
  if dt_float d
  then existsb (Z.eqb (dt_width d)) [2; 4; 8]
  else existsb (Z.eqb (dt_width d)) [1; 2; 4; 8].

Definition sample : Type := list byte.

Inductive ndarray : Type :=
| Arr1 (dt : dtype) (xs : list sample)
| Arr2 (dt : dtype) (rows : list (list sample)).

Definition arr_dtype (a : ndarray) : dtype :=
  match a with Arr1 dt _ | Arr2 dt _ => dt end.

(** [a.tobytes()]: row-major. *)
Definition tobytes (a : ndarray) : list byte :=
  match a with
  | Arr1 _ xs => concat xs
  | Arr2 _ rows => concat (concat rows)
  end.

(** [len(a)]: the extent of the first axis. *)
Definition arr_len (a : ndarray) : Z :=
  match a with
  | Arr1 _ xs => Z.of_nat (length xs)
  | Arr2 _ rows => Z.of_nat (length rows)
  end.

(** [np.frombuffer(buf, form)] *)
Definition np_frombuffer (buf : list byte) (dt : dtype) : outcome ndarray :=
  if dtype_valid dt
  then if Z.of_nat (length buf) mod dt_width dt =? 0
       then Ret (Arr1 dt (chunks (Z.to_nat (dt_width dt)) buf))
       else Raise ValueError
  else Raise TypeError.

(** Elements [0, n, 2n, ...] of a list. *)
Fixpoint every_aux {A} (fuel n : nat) (l : list A) : list A :=
  match fuel with
  | O => []
  | S fuel' =>
      match l with
      | [] => []
      | x :: _ => x :: every_aux fuel' n (drop n l)
      end
  end.

Definition every {A} (n : nat) (l : list A) : list A :=
  every_aux (length l) n l.

(** The slice [xs[i::step]] for [i >= 0]. *)
Definition py_slice_from {A} (i : nat) (step : Z) (xs : list A) : outcome (list A) :=
  if step =? 0 then Raise ValueError
  else if 0 <? step then Ret (every (Z.to_nat step) (drop i xs))
  else Ret (every (Z.to_nat (- step)) (rev (take (S i) xs))).

(** [range(n)] *)
Definition py_range (n : Z) : list nat := seq 0 (Z.to_nat n).

Fixpoint omapM {A B} (f : A -> outcome B) (l : list A) : outcome (list B) :=
  match l with
  | [] => Ret []
  | x :: t => (let* y := f x in let* ys := omapM f t in Ret (y :: ys))%out
  end.

(** [[[data[i::step]] for i in range(n)]], line 60 of sync.py *)
Definition deinterleave (xs : list sample) (step n : Z) : outcome (list (list sample)) :=
  omapM (fun i => py_slice_from i step xs) (py_range n).

(** The de-interleave step in the words of the spec (4.4, step 2): the
    target channel count is the number of streams and also the stride. *)
Definition deinterleave_by_target (xs : list sample) (n : Z) : list (list sample) :=
  map (fun i : nat => every (Z.to_nat n) (drop i xs)) (py_range n).

(** [np.append] applied to the unpacked list [data] with [axis=0], line 61
    of sync.py: [np.append] takes two
    arrays, here each of shape (1, len), and joins them along the first
    axis; any other number of positional arguments is a TypeError. *)
Definition np_append_axis0 (dt : dtype) (args : list (list sample)) : outcome ndarray :=
  match args with
  | [a; b] =>
      if (length a =? length b)%nat then Ret (Arr2 dt [a; b]) else Raise ValueError
  | _ => Raise TypeError
  end.

(** [np.vstack([data for i in range(n)])] on a one-dimensional [data] *)
Definition np_vstack_copies (dt : dtype) (xs : list sample) (n : Z) : ndarray :=
  Arr2 dt (replicate (Z.to_nat n) xs).

(** Sample [j] of every row, in row order. *)
Definition column {A} (rows : list (list A)) (j : nat) : list A :=
  omap (fun r : list A => r !! j) rows.

(** The rows of a rectangular array read column by column: sample [j] of
    row [c] lands at position [j * rows + c]. *)
Definition interleave {A} (rows : list (list A)) : list A :=
  match rows with
  | [] => []
  | r0 :: _ => concat (map (column rows) (seq 0 (length r0)))
  end.

(** Modelled from the spec: [shuffle2d_channels] of
    [sudio/audioutils/channel.py] is imported by sync.py and is not among
    the sources at hand.  The spec (4.4, step 4) has it re-interleave the
    per-channel streams into a single sample-major sequence with
    channel-minor ordering. *)
Definition shuffle2d_channels (a : ndarray) : ndarray :=
  match a with
  | Arr1 dt xs => Arr1 dt xs
  | Arr2 dt rows => Arr1 dt (interleave rows)
  end.

(** ** The collaborators of the two modules

    [Audio.get_sample_size], [SampleFormat] and the [samplerate] kernel are
    imported by the sources and are taken as an interface. *)

Class AudioLib : Type := {
  (** [Audio.get_sample_size(fmt)]; [None] when it raises on the tag *)
  get_sample_size : option Z -> option Z;
  (** [SampleFormat.formatFloat32.value] *)
  formatFloat32 : Z;
  (** [samplerate.resample(data, sample_rate / frame_rate,
      converter_type='sinc_fastest')] on one stream; the arguments are the
      dtype of the stream, the stream, [sample_rate] and [frame_rate] *)
  resample : dtype -> list sample -> Z -> Z -> outcome (list sample);
  (** conversion of one element by [ndarray.astype] between two different
      dtypes *)
  cast : dtype -> dtype -> sample -> sample
}.

(** The dtype of the arrays [samplerate.resample] returns. *)
Definition float32 : dtype := mk_dtype true 4.

(** ** Records *)

Inductive payload : Type :=
| PNone
| PBytes (b : list byte)
| PHandle (fd : nat)
| PArray (a : ndarray).

(** The keys of the record dictionary (or Series).  [r_duration] holds the
    true division [size / (frameRate * nchannels * width)] as the pair of
    its operands; [r_name] is the [name] attribute of a Series. *)
Record record : Type := mk_record {
  r_o : payload;
  r_size : Z;
  r_frameRate : Z;
  r_nchannels : Z;
  r_sampleFormat : option Z;
  r_duration : option (Z * Z);
  r_is_series : bool;
  r_name : option string
}.

Definition set_o (v : payload) (r : record) : record :=
  mk_record v (r_size r) (r_frameRate r) (r_nchannels r) (r_sampleFormat r)
            (r_duration r) (r_is_series r) (r_name r).
Definition set_size (v : Z) (r : record) : record :=
  mk_record (r_o r) v (r_frameRate r) (r_nchannels r) (r_sampleFormat r)
            (r_duration r) (r_is_series r) (r_name r).
Definition set_frameRate (v : Z) (r : record) : record :=
  mk_record (r_o r) (r_size r) v (r_nchannels r) (r_sampleFormat r)
            (r_duration r) (r_is_series r) (r_name r).
Definition set_nchannels (v : Z) (r : record) : record :=
  mk_record (r_o r) (r_size r) (r_frameRate r) v (r_sampleFormat r)
            (r_duration r) (r_is_series r) (r_name r).
Definition set_sampleFormat (v : option Z) (r : record) : record :=
  mk_record (r_o r) (r_size r) (r_frameRate r) (r_nchannels r) v
            (r_duration r) (r_is_series r) (r_name r).
Definition set_duration (v : option (Z * Z)) (r : record) : record :=
  mk_record (r_o r) (r_size r) (r_frameRate r) (r_nchannels r) (r_sampleFormat r)
            v (r_is_series r) (r_name r).
Definition set_name (v : option string) (r : record) : record :=
  mk_record (r_o r) (r_size r) (r_frameRate r) (r_nchannels r) (r_sampleFormat r)
            (r_duration r) (r_is_series r) v.

(** ** sync.py *)

Section Sync.
Context {L : AudioLib}.

(** Lines 44-48 and 85-89: the dtype string built from a format tag. *)
Definition sample_form (fmt : option Z) : outcome dtype :=
  match get_sample_size fmt with
  | None => Raise UnsupportedFormatError
  | Some w =>
      Ret (mk_dtype (match fmt with Some v => v =? formatFloat32 | None => false end) w)
  end.

(** The buffer [np.frombuffer] sees in [rec['o']]. *)
Definition payload_buffer (p : payload) : outcome (list byte) :=
  match p with
  | PBytes b => Ret b
  | PArray a => Ret (tobytes a)
  | PNone | PHandle _ => Raise TypeError
  end.

(** Lines 50-61: channel adjustment.  Returns the array and the record,
    whose [nchannels] the mono branch updates. *)
Definition adjust_channels (data : list sample) (dt : dtype) (rec : record)
    (nchannels : Z) : outcome (ndarray * record) :=
  if r_nchannels rec =? 1 then
    if nchannels >? r_nchannels rec
    then Ret (np_vstack_copies dt data nchannels, set_nchannels nchannels rec)
    else Ret (Arr1 dt data, rec)
  else
    (let* streams := deinterleave data (r_nchannels rec) nchannels in
     let* a := np_append_axis0 dt streams in
     Ret (a, rec))%out.

(** Lines 73-77: the streams are resampled one by one and stacked. *)
Fixpoint resample_rest (dt : dtype) (sample_rate frame_rate : Z) (width : nat)
    (acc : list (list sample)) (rest : list (list sample))
    : outcome (list (list sample)) :=
  match rest with
  | [] => Ret acc
  | r :: rest' =>
      (let* x := resample dt r sample_rate frame_rate in
       if (length x =? width)%nat
       then resample_rest dt sample_rate frame_rate width (acc ++ [x]) rest'
       else Raise ValueError)%out
  end.

(** Lines 63-77: rate conversion. *)
Definition convert_rate (data : ndarray) (sample_rate frame_rate : Z) : outcome ndarray :=
  if sample_rate =? frame_rate then Ret data
  else if frame_rate =? 0 then Raise ZeroDivisionError
  else
    match data with
    | Arr1 dt xs =>
        (let* x := resample dt xs sample_rate frame_rate in Ret (Arr1 float32 x))%out
    | Arr2 dt [] => Raise IndexError
    | Arr2 dt (r0 :: rest) =>
        (let* res := resample dt r0 sample_rate frame_rate in
         match rest with
         | [] => Ret (Arr1 float32 res)
         | _ :: _ =>
             let* rows := resample_rest dt sample_rate frame_rate (length res) [res] rest in
             Ret (Arr2 float32 rows)
         end)%out
    end.

(** [data.astype(form)] *)
Definition astype (a : ndarray) (form : dtype) : outcome ndarray :=
  if dtype_valid form then
    if dtype_eqb (arr_dtype a) form then
      Ret (match a with Arr1 _ xs => Arr1 form xs | Arr2 _ rows => Arr2 form rows end)
    else
      Ret (match a with
           | Arr1 dt xs => Arr1 form (map (cast dt form) xs)
           | Arr2 dt rows => Arr2 form (map (map (cast dt form)) rows)
           end)
  else Raise TypeError.

(** [output_data.startswith('b')] *)
Definition startswith_b (output_data : string) : bool := String.prefix "b" output_data.

(** [len(rec['o'])] *)
Definition payload_len (p : payload) : outcome Z :=
  match p with
  | PBytes b => Ret (Z.of_nat (length b))
  | PArray a => Ret (arr_len a)
  | PNone | PHandle _ => Raise TypeError
  end.

(** Lines 99-101 of sync.py and 210-212 of cacheutil.py. *)
Definition compute_duration (rec : record) : outcome record :=
  match get_sample_size (r_sampleFormat rec) with
  | None => Raise UnsupportedFormatError
  | Some w =>
      let den := r_frameRate rec * r_nchannels rec * w in
      if den =? 0 then Raise ZeroDivisionError
      else Ret (set_duration (Some (r_size rec, den)) rec)
  end.

Definition synchronize_audio (rec : record) (nchannels sample_rate : Z)
    (sample_format_id : option Z) (output_data : string) : outcome record :=
  (let* form := sample_form (r_sampleFormat rec) in
   let* buf := payload_buffer (r_o rec) in
   let* arr := np_frombuffer buf form in
   let* (data, rec) :=
     match arr with
     | Arr1 dt xs => adjust_channels xs dt rec nchannels
     | Arr2 _ _ => Raise TypeError
     end in
   let* data := convert_rate data sample_rate (r_frameRate rec) in
   let data :=
     if startswith_b output_data && (r_nchannels rec >? 1)
     then shuffle2d_channels data else data in
   let rec := set_nchannels nchannels rec in
   let rec := set_sampleFormat sample_format_id rec in
   let* form := sample_form sample_format_id in
   let* out := astype data form in
   let rec :=
     if startswith_b output_data
     then set_o (PBytes (tobytes out)) rec
     else set_o (PArray out) rec in
   let* n := payload_len (r_o rec) in
   let rec := set_size n rec in
   let rec := set_frameRate sample_rate rec in
   compute_duration rec)%out.

End Sync.

(** ** The state-and-exception monad *)

Definition M (S A : Type) : Type := S -> outcome A * S.

Definition ret {S A} (a : A) : M S A := fun s => (Ret a, s).
Definition raise {S A} (e : exn) : M S A := fun s => (Raise e, s).
Definition out_of_fuel {S A} : M S A := fun s => (OutOfFuel, s).

Definition bind {S A B} (m : M S A) (k : A -> M S B) : M S B :=
  fun s =>
    match m s with
    | (Ret a, s') => k a s'
    | (Raise e, s') => (Raise e, s')
    | (OutOfFuel, s') => (OutOfFuel, s')
    end.

(** [try: m  except e: h], for the exceptions [catches] selects. *)
Definition try_except {S A} (m : M S A) (catches : exn -> bool) (h : M S A) : M S A :=
  fun s =>
    match m s with
    | (Raise e, s') => if catches e then h s' else (Raise e, s')
    | r => r
    end.

(** [m] followed by [cleanup] on every exit, as a [with] block does. *)
Definition finally {S A} (m : M S A) (cleanup : M S unit) : M S A :=
  fun s =>
    match m s with
    | (r, s') =>
        match cleanup s' with
        | (Ret _, s'') => (r, s'')
        | (Raise e, s'') => (Raise e, s'')
        | (OutOfFuel, s'') => (OutOfFuel, s'')
        end
    end.

Definition lift_outcome {S A} (r : outcome A) : M S A := fun s => (r, s).
Definition modify {S} (f : S -> S) : M S unit := fun s => (Ret tt, f s).

Declare Scope monad_scope.
Delimit Scope monad_scope with M.
Notation "'let!' x := m 'in' k" := (bind m (fun x => k))
  (at level 10, x pattern, m at level 100, k at level 200, only parsing)
  : monad_scope.
Notation "m ;; k" := (bind m (fun _ => k))
  (at level 100, k at level 200, right associativity, only parsing) : monad_scope.

(** ** Files

    [rename_busy] and [open_busy] say for which paths the operating system
    refuses a rename (or removal), respectively an open, because another
    process holds the file. *)

Inductive fmode : Type := RBplus | WBplus.

Record fdesc : Type := mk_fdesc {
  fd_name : string;
  fd_pos : nat;
  fd_closed : bool
}.

Inductive event : Type :=
| EvOpen (name : string) (mode : fmode)
| EvClose (name : string)
| EvRemove (name : string)
| EvDecoder.

Record world : Type := mk_world {
  files : gmap string (list byte);
  fds : list fdesc;
  rename_busy : string -> bool;
  open_busy : string -> bool;
  next_path : nat;
  trace : list event
}.

Definition set_files (v : gmap string (list byte)) (w : world) : world :=
  mk_world v (fds w) (rename_busy w) (open_busy w) (next_path w) (trace w).
Definition set_fds (v : list fdesc) (w : world) : world :=
  mk_world (files w) v (rename_busy w) (open_busy w) (next_path w) (trace w).
Definition set_next_path (v : nat) (w : world) : world :=
  mk_world (files w) (fds w) (rename_busy w) (open_busy w) v (trace w).
Definition log (e : event) (w : world) : world :=
  mk_world (files w) (fds w) (rename_busy w) (open_busy w) (next_path w) (trace w ++ [e]).

Definition take_z {A} : Z -> list A -> list A :=
  fix go (n : Z) (l : list A) : list A :=
    match l with
    | [] => []
    | x :: t => if n <=? 0 then [] else x :: go (n - 1) t
    end.

(** The contents of a file after [bs] is written at offset [pos]. *)
Definition write_at (pos : nat) (bs content : list byte) : list byte :=
  take pos content ++ replicate (pos - length content)%nat Byte.x00
    ++ bs ++ drop (pos + length bs)%nat content.

(** The contents of a file cut (or zero-extended) to [pos] bytes. *)
Definition truncate_to (pos : nat) (content : list byte) : list byte :=
  take pos content ++ replicate (pos - length content)%nat Byte.x00.

Definition os_path_exists (p : string) : M world bool :=
  fun w => (Ret (match files w !! p with Some _ => true | None => false end), w).

(** [os.rename(p, p)] *)
Definition os_rename_self (p : string) : M world unit :=
  fun w =>
    match files w !! p with
    | None => (Raise OSError, w)
    | Some _ => if rename_busy w p then (Raise OSError, w) else (Ret tt, w)
    end.

(** [open(p, mode)] for the two modes the sources use. *)
Definition py_open (p : string) (mode : fmode) : M world nat :=
  fun w =>
    if open_busy w p then (Raise OSError, w)
    else
      let fd := length (fds w) in
      let opened w' := log (EvOpen p mode) (set_fds (fds w ++ [mk_fdesc p 0 false]) w') in
      match mode with
      | RBplus =>
          match files w !! p with
          | None => (Raise OSError, w)
          | Some _ => (Ret fd, opened w)
          end
      | WBplus => (Ret fd, opened (set_files (<[p := []]> (files w)) w))
      end.

(** An open file object, or ValueError for a closed one. *)
Definition the_fd (fd : nat) : M world fdesc :=
  fun w =>
    match fds w !! fd with
    | Some d => if fd_closed d then (Raise ValueError, w) else (Ret d, w)
    | None => (Raise ValueError, w)
    end.

Definition fd_contents (d : fdesc) : M world (list byte) :=
  fun w =>
    match files w !! fd_name d with
    | Some c => (Ret c, w)
    | None => (Raise OSError, w)
    end.

Definition set_pos (fd : nat) (d : fdesc) (pos : nat) : M world unit :=
  modify (fun w => set_fds (<[fd := mk_fdesc (fd_name d) pos (fd_closed d)]> (fds w)) w).

(** [f.name] *)
Definition f_name (fd : nat) : M world string :=
  fun w =>
    match fds w !! fd with
    | Some d => (Ret (fd_name d), w)
    | None => (Raise ValueError, w)
    end.

(** [f.seek(offset, whence)] *)
Definition f_seek (fd : nat) (offset whence : Z) : M world unit :=
  (let! d := the_fd fd in
   let! c := fd_contents d in
   let base :=
     if whence =? 0 then Some 0
     else if whence =? 1 then Some (Z.of_nat (fd_pos d))
     else if whence =? 2 then Some (Z.of_nat (length c))
     else None in
   match base with
   | None => raise ValueError
   | Some b => if b + offset <? 0 then raise OSError
               else set_pos fd d (Z.to_nat (b + offset))
   end)%M.

(** [f.read(n)]; [None] stands for [f.read()]. *)
Definition f_read (fd : nat) (n : option Z) : M world (list byte) :=
  (let! d := the_fd fd in
   let! c := fd_contents d in
   let rest := drop (fd_pos d) c in
   let out := match n with
              | None => rest
              | Some k => if k <? 0 then rest else take_z k rest
              end in
   set_pos fd d (fd_pos d + length out)%nat ;;
   ret out)%M.

(** [f.write(bs)], returning the number of bytes written. *)
Definition f_write (fd : nat) (bs : list byte) : M world Z :=
  (let! d := the_fd fd in
   let! c := fd_contents d in
   modify (fun w => set_files (<[fd_name d := write_at (fd_pos d) bs c]> (files w)) w) ;;
   set_pos fd d (fd_pos d + length bs)%nat ;;
   ret (Z.of_nat (length bs)))%M.

(** [f.truncate()]: the file ends at the current position. *)
Definition f_truncate (fd : nat) : M world unit :=
  (let! d := the_fd fd in
   let! c := fd_contents d in
   modify (fun w => set_files (<[fd_name d := truncate_to (fd_pos d) c]> (files w)) w))%M.

Definition f_flush (fd : nat) : M world unit :=
  (let! _ := the_fd fd in ret tt)%M.

Definition f_close (fd : nat) : M world unit :=
  fun w =>
    match fds w !! fd with
    | Some d =>
        (Ret tt, log (EvClose (fd_name d))
                   (set_fds (<[fd := mk_fdesc (fd_name d) (fd_pos d) true]> (fds w)) w))
    | None => (Raise ValueError, w)
    end.

Definition os_remove (p : string) : M world unit :=
  fun w =>
    match files w !! p with
    | None => (Raise OSError, w)
    | Some _ =>
        if rename_busy w p then (Raise OSError, w)
        else (Ret tt, log (EvRemove p) (set_files (delete p (files w)) w))
    end.

Definition os_path_getsize (p : string) : M world Z :=
  fun w =>
    match files w !! p with
    | None => (Raise OSError, w)
    | Some c => (Ret (Z.of_nat (length c)), w)
    end.

(** ** cacheutil.py: the binary writer *)

(** The keyword arguments of [write_to_cached_file]; [head_dtype] is left
    at its default ['u8'], which is what every call in the sources uses. *)
Record wargs : Type := mk_wargs {
  w_head : list Z;
  w_data : payload;
  w_file_name : option string;
  w_file_mode : fmode;
  w_buffered_random : option nat;
  w_pre_truncate : bool;
  w_pre_seek : option (Z * Z);
  w_after_seek : option (Z * Z);
  w_pre_flush : bool;
  w_after_flush : bool;
  w_size_on_output : bool;
  w_data_chunk : Z
}.

(** Truth value of [file_name]: [None] and the empty string are false. *)
Definition file_name_given (n : option string) : option string :=
  match n with
  | Some EmptyString | None => None
  | Some s => Some s
  end.

Definition when {S} (b : bool) (m : M S unit) : M S unit :=
  if b then m else ret tt.

Definition seek_opt (fd : nat) (a : option (Z * Z)) : M world unit :=
  match a with
  | Some (offset, whence) => f_seek fd offset whence
  | None => ret tt
  end.

(** Lines 71-73: [while buffer: size += file.write(buffer);
    buffer = data.read(data_chunk)]. *)
Fixpoint copy_chunks (fuel : nat) (src dst : nat) (chunk : Z)
    (buffer : list byte) (size : Z) : M world Z :=
  match buffer with
  | [] => ret size
  | _ :: _ =>
      match fuel with
      | O => out_of_fuel
      | S fuel' =>
          (let! n := f_write dst buffer in
           let! buffer' := f_read src (Some chunk) in
           copy_chunks fuel' src dst chunk buffer' (size + n))%M
      end
  end.

(** Lines 48-53: the file object written to. *)
Definition write_target (a : wargs) : M world nat :=
  match w_buffered_random a with
  | Some fd => ret fd
  | None =>
      match file_name_given (w_file_name a) with
      | Some n => py_open n (w_file_mode a)
      | None => raise ValueError
      end
  end.

Definition write_to_cached_file (fuel : nat) (a : wargs) : M world (nat * option Z) :=
  (let! file := write_target a in
   seek_opt file (w_pre_seek a) ;;
   when (w_pre_truncate a) (f_truncate file) ;;
   when (w_pre_flush a) (f_flush file) ;;
   let! size :=
     match w_head a with
     | [] => ret 0
     | _ :: _ =>
         let! bs := lift_outcome (np_asarray_u8 (w_head a)) in
         f_write file bs
     end in
   let! size :=
     match w_data a with
     | PNone | PBytes [] => ret size
     | PBytes ((_ :: _) as bs) =>
         let! n := f_write file bs in ret (size + n)
     | PHandle src =>
         let! buffer := f_read src (Some (w_data_chunk a)) in
         copy_chunks fuel src file (w_data_chunk a) buffer size
     | PArray _ => raise ValueError (* [if data:] on an array is ambiguous *)
     end in
   seek_opt file (w_after_seek a) ;;
   when (w_after_flush a) (f_flush file) ;;
   ret (file, if w_size_on_output a then Some size else None))%M.

(** The defaults of the signature. *)
Definition default_wargs (head : list Z) : wargs :=
  mk_wargs head PNone None WBplus None false None None false false false 1000000.

(** ** cacheutil.py: the cache entry resolver *)

(** What the resolver reads from [master_obj]: the synchronization
    targets, the list [_cache()] returns and the two class constants. *)
Record master : Type := mk_master {
  m_sample_format : option Z;
  m_nchannels : Z;
  m_sample_rate : Z;
  m_cache : list string;
  CACHE_INFO : Z;
  BUFFER_TYPE : string
}.

(** The record dictionary is one shared object that the resolver mutates
    while it works; it is part of the state. *)
Record hstate : Type := mk_hstate { hw : world; hrec : record }.

Definition lift_w {A} (m : M world A) : M hstate A :=
  fun s => match m (hw s) with (r, w') => (r, mk_hstate w' (hrec s)) end.

Definition get_rec : M hstate record := fun s => (Ret (hrec s), s).
Definition put_rec (r : record) : M hstate unit :=
  fun s => (Ret tt, mk_hstate (hw s) r).
Definition upd_rec (f : record -> record) : M hstate unit :=
  fun s => (Ret tt, mk_hstate (hw s) (f (hrec s))).

(** [path_server()]: the next string of the path service. *)
Definition call_path_server (path_server : nat -> string) : M hstate string :=
  fun s =>
    let w := hw s in
    (Ret (path_server (next_path w)),
     mk_hstate (set_next_path (S (next_path w)) w) (hrec s)).

(** [decoder()]: the decoder hands over its payload; it is taken not to
    touch the files. *)
Definition call_decoder (d : payload) : M hstate payload :=
  fun s => (Ret d, mk_hstate (log EvDecoder (hw s)) (hrec s)).

Definition is_OSError (e : exn) : bool := exn_eqb e OSError.
Definition is_ValueError (e : exn) : bool := exn_eqb e ValueError.
Definition is_DecodeError (e : exn) : bool := exn_eqb e DecodeError.

(** Lines 136-138: [while data: f.write(data); data = pre_file.read(...)]. *)
Fixpoint copy_entry (fuel : nat) (pre_file f : nat) (chunk : Z)
    (data : list byte) : M world unit :=
  match data with
  | [] => ret tt
  | _ :: _ =>
      match fuel with
      | O => out_of_fuel
      | S fuel' =>
          (let! _ := f_write f data in
           let! data' := f_read pre_file (Some chunk) in
           copy_entry fuel' pre_file f chunk data')%M
      end
  end.

(** How one pass through the body of the [while True] loop ends. *)
Inductive loop_exit : Type :=
| Break (f : nat)
| NextIteration.

(** Lines 125-139: the body of the retry loop, inside its [try]. *)
Definition relocate_body (fuel : nat) (path new_path : string) : M hstate loop_exit :=
  (let! present := lift_w (os_path_exists new_path) in
   if present : bool then
     lift_w (os_rename_self new_path) ;;
     let! f := lift_w (py_open new_path RBplus) in
     upd_rec (set_o (PHandle f)) ;;
     ret NextIteration
   else
     let data_chunk := 10000000 in
     let! pre_file := lift_w (py_open path RBplus) in
     let! f := finally
       (let! f := lift_w (py_open new_path WBplus) in
        upd_rec (set_o (PHandle f)) ;;
        let! data := lift_w (f_read pre_file (Some data_chunk)) in
        lift_w (copy_entry fuel pre_file f data_chunk data) ;;
        ret f)
       (lift_w (f_close pre_file)) in
     ret (Break f))%M.

(** Lines 124-142: the retry loop. *)
Fixpoint relocate (fuel : nat) (inner : nat) (path_server : nat -> string)
    (path : string) : M hstate nat :=
  match fuel with
  | O => out_of_fuel
  | S fuel' =>
      (let! new_path := call_path_server path_server in
       let! e := try_except (relocate_body inner path new_path)
                            is_OSError (ret NextIteration) in
       match e with
       | Break f => ret f
       | NextIteration => relocate fuel' inner path_server path
       end)%M
  end.

(** Lines 120-142: the probe and, on contention, the relocation. *)
Definition open_entry (fuel : nat) (path_server : nat -> string)
    (path : string) : M hstate nat :=
  try_except
    (lift_w (os_rename_self path) ;;
     let! f := lift_w (py_open path RBplus) in
     upd_rec (set_o (PHandle f)) ;;
     ret f)%M
    is_OSError
    (relocate fuel fuel path_server path).

(** Lines 144-152: read and decode the header of the opened entry. *)
Definition read_header (master_obj : master) (f : nat) : M hstate header :=
  (lift_w (f_seek f 0 0) ;;
   let! cache_info := lift_w (f_read f (Some (CACHE_INFO master_obj))) in
   try_except
     (lift_outcome (decode_header cache_info))
     is_ValueError
     (lift_w (f_close f) ;;
      let! n := lift_w (f_name f) in
      lift_w (os_remove n) ;;
      raise DecodeError))%M.

(** [fmt if fmt else 0], lines 176 and 200 *)
Definition format_or_zero (fmt : option Z) : Z :=
  match fmt with
  | Some v => v
  | None => 0
  end.

(** [v if v else None], line 154 *)
Definition nonzero_or_none (v : Z) : option Z :=
  if v =? 0 then None else Some v.

(** The header and options both calls of [write_to_cached_file] share. *)
Definition entry_wargs (master_obj : master) (rec : record) : wargs :=
  mk_wargs
    [r_size rec; r_frameRate rec; format_or_zero (r_sampleFormat rec); r_nchannels rec]
    (r_o rec) None WBplus None
    true (Some (0, 0)) (Some (CACHE_INFO master_obj, 0)) true true false 1000000.

Definition with_buffered_random (f : nat) (a : wargs) : wargs :=
  mk_wargs (w_head a) (w_data a) (w_file_name a) (w_file_mode a) (Some f)
    (w_pre_truncate a) (w_pre_seek a) (w_after_seek a) (w_pre_flush a)
    (w_after_flush a) (w_size_on_output a) (w_data_chunk a).

Definition with_file_name (n : string) (a : wargs) : wargs :=
  mk_wargs (w_head a) (w_data a) (Some n) (w_file_mode a) (w_buffered_random a)
    (w_pre_truncate a) (w_pre_seek a) (w_after_seek a) (w_pre_flush a)
    (w_after_flush a) (w_size_on_output a) (w_data_chunk a).

Definition option_Z_eqb (a b : option Z) : bool :=
  match a, b with
  | Some x, Some y => x =? y
  | None, None => true
  | _, _ => false
  end.

Definition mem_string (x : string) (l : list string) : bool :=
  existsb (String.eqb x) l.

(** [s.rfind(c)]: the last index of the character, or -1. *)
Fixpoint rfind_from (c : ascii) (s : string) (i : Z) (found : Z) : Z :=
  match s with
  | EmptyString => found
  | String a t => rfind_from c t (i + 1) (if Ascii.eqb a c then i else found)
  end.

Definition rfind (c : ascii) (s : string) : Z := rfind_from c s 0 (-1).

(** Lines 215-218: the record name cut out of the file name. *)
Definition series_name (buffer_type name : string) : outcome string :=
  match String.index 0 buffer_type name with
  | None => Raise ValueError
  | Some post =>
      let pre := Z.max (rfind "\" name) (rfind "/" name) in
      let pre := if pre >? 0 then pre + 1 else 0 in
      Ret (String.substring (Z.to_nat pre) (post - Z.to_nat pre) name)
  end.

Section Resolver.
Context {L : AudioLib}.

(** Lines 119-187: the body of the outer [try]. *)
Definition try_cached (fuel : nat) (path_server : nat -> string) (master_obj : master)
    (path : string) (sync_sample_format_id : option Z)
    (sync_nchannels sync_sample_rate : Z) (safe_load : bool) : M hstate unit :=
  (if mem_string path (m_cache master_obj) then
     let! f := open_entry fuel path_server path in
     let! h := read_header master_obj f in
     let csample_format := nonzero_or_none (sampleFormatId h) in
     upd_rec (set_size (byteSize h)) ;;
     upd_rec (set_frameRate (hframeRate h)) ;;
     upd_rec (set_nchannels (channelCount h)) ;;
     upd_rec (set_sampleFormat csample_format) ;;
     if (channelCount h =? sync_nchannels)
        && option_Z_eqb csample_format sync_sample_format_id
        && (hframeRate h =? sync_sample_rate)
     then ret tt
     else if safe_load then
       let! rest := lift_w (f_read f None) in
       upd_rec (set_o (PBytes rest)) ;;
       let! rec := get_rec in
       let! rec := lift_outcome
         (synchronize_audio rec sync_nchannels sync_sample_rate
                            sync_sample_format_id "byte") in
       put_rec rec ;;
       let! (f, _) := lift_w (write_to_cached_file fuel
                        (with_buffered_random f (entry_wargs master_obj rec))) in
       upd_rec (set_o (PHandle f))
     else ret tt
   else raise DecodeError)%M.

(** Lines 189-208: the handler of [DecodeError]. *)
Definition rebuild (fuel : nat) (master_obj : master) (path : string)
    (decoder : option payload) : M hstate unit :=
  (match decoder with
   | Some d => let! p := call_decoder d in upd_rec (set_o p)
   | None => ret tt
   end ;;
   let! rec := get_rec in
   let! size :=
     match r_o rec with
     | PHandle fd => let! n := lift_w (f_name fd) in lift_w (os_path_getsize n)
     | p => let! n := lift_outcome (payload_len p) in ret (n + CACHE_INFO master_obj)
     end in
   upd_rec (set_size size) ;;
   let! rec := get_rec in
   let! (f, _) := lift_w (write_to_cached_file fuel
                    (with_file_name path (entry_wargs master_obj rec))) in
   upd_rec (set_o (PHandle f)))%M.

(** Lines 210-220. *)
Definition finish (master_obj : master) : M hstate record :=
  (let! rec := get_rec in
   let! rec := lift_outcome (compute_duration rec) in
   put_rec rec ;;
   (if r_is_series rec then
      match r_o rec with
      | PHandle fd =>
          let! n := lift_w (f_name fd) in
          let! nm := lift_outcome (series_name (BUFFER_TYPE master_obj) n) in
          upd_rec (set_name (Some nm))
      | _ => raise TypeError
      end
    else ret tt) ;;
   get_rec)%M.

(** Lines 112-114: a target left at [None] is taken from [master_obj]. *)
Definition target_format (master_obj : master) (sync_sample_format_id : option Z)
    : option Z :=
  match sync_sample_format_id with
  | None => m_sample_format master_obj
  | Some v => Some v
  end.

Definition target_nchannels (master_obj : master) (sync_nchannels : option Z) : Z :=
  default (m_nchannels master_obj) sync_nchannels.

Definition target_rate (master_obj : master) (sync_sample_rate : option Z) : Z :=
  default (m_sample_rate master_obj) sync_sample_rate.

(** Lines 112-208: everything up to the end of the [try] statement. *)
Definition resolve (fuel : nat) (path_server : nat -> string)
    (master_obj : master) (decoder : option payload)
    (sync_sample_format_id sync_nchannels sync_sample_rate : option Z)
    (safe_load : bool) : M hstate unit :=
  let sync_sample_format_id := target_format master_obj sync_sample_format_id in
  let sync_nchannels := target_nchannels master_obj sync_nchannels in
  let sync_sample_rate := target_rate master_obj sync_sample_rate in
  (let! path := call_path_server path_server in
   try_except
     (try_cached fuel path_server master_obj path sync_sample_format_id
                 sync_nchannels sync_sample_rate safe_load)
     is_DecodeError
     (rebuild fuel master_obj path decoder))%M.

Definition handle_cached_record (fuel : nat) (path_server : nat -> string)
    (master_obj : master) (decoder : option payload)
    (sync_sample_format_id sync_nchannels sync_sample_rate : option Z)
    (safe_load : bool) : M hstate record :=
  (resolve fuel path_server master_obj decoder sync_sample_format_id
           sync_nchannels sync_sample_rate safe_load ;;
   finish master_obj)%M.

End Resolver.

(** The header both calls of [write_to_cached_file] are given, and its
    bytes. *)
Definition entry_header (rec : record) : header :=
  mk_header (r_size rec) (r_frameRate rec) (format_or_zero (r_sampleFormat rec))
            (r_nchannels rec).

Definition header_bytes (h : header) : list byte :=
  concat (map (le_bytes u8_width) (header_fields h)).

Definition header_in_range (h : header) : Prop :=
  Forall (fun v => 0 <= v < 2 ^ 64) (header_fields h).

(** The [name] a returned record carries: cut out of the file name for a
    Series, left alone for a dictionary. *)
Definition name_for (master_obj : master) (rec : record) (file : string)
    : outcome (option string) :=
  if r_is_series rec
  then obind (series_name (BUFFER_TYPE master_obj) file) (fun nm => Ret (Some nm))
  else Ret (r_name rec).

(** The comparison of lines 161-163. *)
Definition format_matches (h : header) (sync_sample_format_id : option Z)
    (sync_nchannels sync_sample_rate : Z) : bool :=
  (channelCount h =? sync_nchannels)
  && option_Z_eqb (nonzero_or_none (sampleFormatId h)) sync_sample_format_id
  && (hframeRate h =? sync_sample_rate).

(** The record after lines 155-159 have copied the header into it. *)
Definition with_header (h : header) (rec : record) : record :=
  set_sampleFormat (nonzero_or_none (sampleFormatId h))
    (set_nchannels (channelCount h)
       (set_frameRate (hframeRate h) (set_size (byteSize h) rec))).

(** The state in which the retry loop is left: the candidate [new_path]
    holds the bytes [c] of the entry, the entry has been opened and closed
    again, and the record carries the handle on the candidate. *)
Definition relocated (F : gmap string (list byte)) (rb ob : string -> bool)
    (path new_path : string) (c : list byte) (D : list fdesc) (np : nat)
    (tr : list event) (rec : record) : hstate :=
  mk_hstate
    (mk_world (<[new_path := c]> F)
       (D ++ [mk_fdesc path (length c) true; mk_fdesc new_path (length c) false])
       rb ob np (tr ++ [EvOpen path RBplus; EvOpen new_path WBplus; EvClose path]))
    (set_o (PHandle (S (length D))) rec).

(** Two records that agree on every key except ['o']. *)
Definition same_meta (a b : record) : Prop := set_o PNone a = set_o PNone b.

(** ** Concrete collaborators and inputs for the examples *)

(** An instance for the examples, with the sample widths of the PortAudio
    format tags: Float32 = 1, Int32 = 2, Int24 = 4, Int16 = 8, Int8 = 16,
    UInt8 = 32. *)
Definition pa_sample_size (fmt : option Z) : option Z :=
  match fmt with
  | Some 1 | Some 2 => Some 4
  | Some 4 => Some 3
  | Some 8 => Some 2
  | Some 16 | Some 32 => Some 1
  | _ => None
  end.

(** A zero-order hold stands in for the sinc kernel. *)
Definition hold_resample (dt : dtype) (xs : list sample) (sample_rate frame_rate : Z)
    : outcome (list sample) :=
  Ret (omap (fun j : nat => xs !! Z.to_nat (Z.of_nat j * frame_rate / sample_rate))
            (seq 0 (Z.to_nat (Z.of_nat (length xs) * sample_rate / frame_rate)))).

Definition pa_lib : AudioLib := {|
  get_sample_size := pa_sample_size;
  formatFloat32 := 1;
  resample := hold_resample;
  cast := fun _ dst x => take (Z.to_nat (dt_width dst)) (x ++ replicate 8 Byte.x00)
|}.


Definition never (_ : string) : bool := false.

Definition empty_world : world := mk_world ∅ [] never never 0 [].

Definition blank_record : record :=
  mk_record PNone 0 0 0 None None false None.

(** The bytes 0, 1, ..., n-1. *)
Definition ramp (n : nat) : list byte := map (fun i : nat => byte_of_Z (Z.of_nat i)) (seq 0 n).

(** A world holding one file, and the same with that file open. *)
Definition one_file_world (name : string) (content : list byte) : world :=
  mk_world {[name := content]} [] never never 0 [].

Definition open_file_world (name : string) (content : list byte) : world :=
  mk_world {[name := content]} [mk_fdesc name 0 false] never never 0 [].

(** A path service that names the entry first, then an existing file, then
    fresh paths; a world in which the entry is held by another process. *)
Definition demo_paths (n : nat) : string :=
  match n with
  | O => "a.bin"
  | S O => "b.bin"
  | _ => "c.bin"
  end.

Definition busy_a (p : string) : bool := String.eqb p "a.bin".

Definition demo_master : master :=
  mk_master (Some 8) 1 8000 ["a.bin"] 32 ".bin".

(** One channel of 16-bit samples at 8000 Hz. *)
Definition mono_record : record :=
  mk_record (PBytes (ramp 8)) 8 8000 1 (Some 8) None false None.

(** A cache entry as the resolver leaves it on a miss: the header counts
    its own 32 bytes. *)
Definition mono_entry : list byte :=
  header_bytes (mk_header 40 8000 8 1) ++ ramp 8.

Definition contended_files : gmap string (list byte) :=
  <["a.bin" := mono_entry]> (<["b.bin" := ramp 3]> ∅).

(** The same master with nothing cached, and with no target format. *)
Definition miss_master : master := mk_master (Some 8) 1 8000 [] 32 ".bin".



(** The eight bytes of [mono_record] as two identical channels. *)
Definition interleave_bytes_demo : list byte :=
  concat (interleave [chunks 2 (ramp 8); chunks 2 (ramp 8)]).


(** ** Theorems *)

Lemma Z_of_byte_of_Z z : Z_of_byte (byte_of_Z z) = z mod 256.
Proof.
  unfold Z_of_byte, byte_of_Z.
  assert (Hb : 0 <= z mod 256 < 256) by (apply Z.mod_pos_bound; lia).
  destruct (Byte.of_N (Z.to_N (z mod 256))) as [b|] eqn:E.
  - apply Byte.to_of_N in E. rewrite E. lia.
  - apply Byte.of_N_None_iff in E. lia.
Qed.

Lemma Z_of_byte_range b : 0 <= Z_of_byte b < 256.
Proof.
  unfold Z_of_byte. pose proof (Byte.to_N_bounded b). lia.
Qed.

Lemma length_le_bytes w z : length (le_bytes w z) = w.
Proof. revert z. induction w as [|w IH]; intros z; simpl; [done|]. by rewrite IH. Qed.

Lemma le_value_le_bytes w z :
  0 <= z < 256 ^ Z.of_nat w -> le_value (le_bytes w z) = z.
Proof.
  revert z. induction w as [|w IH]; intros z Hz.
  - simpl in *. lia.
  - cbn [le_bytes le_value]. rewrite Z_of_byte_of_Z.
    rewrite IH.
    + pose proof (Z.div_mod z 256). lia.
    + rewrite Nat2Z.inj_succ, Z.pow_succ_r in Hz by lia.
      split; [apply Z.div_pos; lia|].
      apply Z.div_lt_upper_bound; lia.
Qed.

(** *** Chunking *)

Lemma chunks_aux_app (fuel w : nat) (x rest : list byte) :
  (0 < w)%nat -> length x = w -> (length (x ++ rest) <= S fuel)%nat ->
  chunks_aux (S fuel) w (x ++ rest) = x :: chunks_aux fuel w rest.
Proof.
  intros Hw Hx Hf. destruct x as [|b x']; [simpl in Hx; lia|].
  cbn [chunks_aux app].
  change (b :: x' ++ rest) with ((b :: x') ++ rest).
  rewrite take_app_length' by done. rewrite drop_app_length' by done. done.
Qed.

Lemma chunks_aux_fuel (w : nat) (bs : list byte) (f1 f2 : nat) :
  (0 < w)%nat -> (length bs <= f1)%nat -> (length bs <= f2)%nat ->
  chunks_aux f1 w bs = chunks_aux f2 w bs.
Proof.
  intros Hw. revert bs f2. induction f1 as [|f1 IH]; intros bs f2 H1 H2.
  - destruct bs; [|simpl in H1; lia]. by destruct f2.
  - destruct bs as [|b bs]; [by destruct f2|].
    destruct f2 as [|f2]; [simpl in H2; lia|].
    cbn [chunks_aux]. f_equal.
    assert (length (drop w (b :: bs)) <= length bs)%nat.
    { rewrite length_drop. simpl. lia. }
    simpl in H1, H2. apply IH; lia.
Qed.

Lemma chunks_concat (w : nat) (ys : list (list byte)) :
  (0 < w)%nat -> Forall (fun y => length y = w) ys -> chunks w (concat ys) = ys.
Proof.
  intros Hw Hys. unfold chunks. induction Hys as [|y ys Hy Hys IH]; [done|].
  cbn [concat].
  destruct (length (y ++ concat ys)) as [|n] eqn:E.
  { rewrite length_app in E. lia. }
  rewrite chunks_aux_app by (done || lia). f_equal.
  rewrite <- IH at 2. apply chunks_aux_fuel; [done| |done].
  rewrite length_app in E. lia.
Qed.

Lemma chunks_aux_concat (fuel w : nat) (bs : list byte) :
  (0 < w)%nat -> (length bs <= fuel)%nat -> concat (chunks_aux fuel w bs) = bs.
Proof.
  intros Hw. revert bs. induction fuel as [|fuel IH]; intros bs Hf.
  - destruct bs; [done | simpl in Hf; lia].
  - destruct bs as [|b bs]; [done|]. cbn [chunks_aux concat].
    rewrite IH; [apply take_drop|].
    rewrite length_drop. simpl in *. lia.
Qed.

Lemma concat_chunks (w : nat) (bs : list byte) :
  (0 < w)%nat -> concat (chunks w bs) = bs.
Proof. intros Hw. by apply chunks_aux_concat. Qed.

Lemma chunks_aux_widths (fuel w k : nat) (bs : list byte) :
  (0 < w)%nat -> length bs = (k * w)%nat ->
  Forall (fun y => length y = w) (chunks_aux fuel w bs).
Proof.
  intros Hw. revert k bs. induction fuel as [|fuel IH]; intros k bs Hl; [constructor|].
  destruct bs as [|b bs]; [constructor|]. cbn [chunks_aux].
  destruct k as [|k]; [simpl in Hl; lia|].
  constructor.
  - rewrite length_take. lia.
  - apply (IH k). rewrite length_drop. lia.
Qed.

Lemma chunks_widths (w k : nat) (bs : list byte) :
  (0 < w)%nat -> length bs = (k * w)%nat ->
  Forall (fun y => length y = w) (chunks w bs).
Proof. intros. by eapply chunks_aux_widths. Qed.

(** *** Strided slices *)

Lemma lookup_every_aux {A} (fuel n : nat) (l : list A) (j : nat) :
  (0 < n)%nat -> (length l <= fuel)%nat ->
  every_aux fuel n l !! j = l !! (j * n)%nat.
Proof.
  intros Hn. revert l j. induction fuel as [|fuel IH]; intros l j Hf.
  - destruct l; [|simpl in Hf; lia]. by rewrite !lookup_nil.
  - destruct l as [|x t]; [by rewrite !lookup_nil|].
    cbn [every_aux]. destruct j as [|j]; [done|].
    cbn [lookup list_lookup]. change (every_aux fuel n (drop n (x :: t)) !! j =
      (x :: t) !! (S j * n)%nat).
    rewrite IH by (rewrite length_drop; simpl in *; lia).
    rewrite lookup_drop. f_equal; lia.
Qed.

Lemma lookup_every {A} (n : nat) (l : list A) (j : nat) :
  (0 < n)%nat -> every n l !! j = l !! (j * n)%nat.
Proof. intros. by apply lookup_every_aux. Qed.

Lemma lookup_every_drop {A} (n i : nat) (l : list A) (j : nat) :
  (0 < n)%nat -> every n (drop i l) !! j = l !! (i + j * n)%nat.
Proof. intros. rewrite lookup_every by done. apply lookup_drop. Qed.

Lemma length_every_lt {A} (n : nat) (l : list A) (j : nat) :
  (0 < n)%nat -> (j < length (every n l))%nat <-> (j * n < length l)%nat.
Proof.
  intros Hn. rewrite <- !lookup_lt_is_Some. by rewrite lookup_every.
Qed.

Lemma length_every_exact {A} (n m c : nat) (l : list A) :
  (0 < n)%nat -> (c < n)%nat -> length l = (m * n)%nat ->
  length (every n (drop c l)) = m.
Proof.
  intros Hn Hc Hl.
  pose proof (length_every_lt n (drop c l) m Hn) as H1.
  pose proof (length_every_lt n (drop c l) (length (every n (drop c l))) Hn) as H2.
  rewrite length_drop, Hl in H1, H2.
  destruct (decide (length (every n (drop c l)) < m)%nat) as [Hlt|Hge].
  - exfalso. destruct m as [|m]; [lia|].
    assert (S (length (every n (drop c l))) <= S m)%nat as Hle by lia.
    pose proof (length_every_lt n (drop c l) (length (every n (drop c l))) Hn) as H3.
    rewrite length_drop, Hl in H3.
    assert (length (every n (drop c l)) * n < S m * n - c)%nat; [nia|].
    apply H3 in H. lia.
  - destruct (decide (m < length (every n (drop c l)))%nat) as [Hgt|]; [|lia].
    exfalso. apply H1 in Hgt. nia.
Qed.

(** *** Interleaving *)

Lemma column_uniform {A} (rows : list (list A)) (m j : nat) :
  Forall (fun r => length r = m) rows -> (j < m)%nat ->
  length (column rows j) = length rows /\
  forall c, column rows j !! c = rows !! c ≫= (fun r => r !! j).
Proof.
  intros Hrows Hj. unfold column.
  induction Hrows as [|r rows Hr Hrows [IHl IHc]]; [by split; [|intros []]|].
  destruct (lookup_lt_is_Some_2 r j) as [x Hx]; [lia|].
  cbn [omap list_omap]. rewrite Hx. split.
  - simpl. by rewrite IHl.
  - intros [|c]; simpl; [done|]. apply IHc.
Qed.

Lemma Forall_column {A} (P : A -> Prop) (rows : list (list A)) (j : nat) :
  Forall (Forall P) rows -> Forall P (column rows j).
Proof.
  unfold column. induction 1 as [|r rows Hr Hrows IH]; [constructor|].
  cbn [omap list_omap]. destruct (r !! j) as [x|] eqn:Hx; [|done].
  constructor; [|done]. exact (Forall_lookup_1 P r j x Hr Hx).
Qed.

Lemma Forall_interleave {A} (P : A -> Prop) (rows : list (list A)) :
  Forall (Forall P) rows -> Forall P (interleave rows).
Proof.
  intros H. unfold interleave. destruct rows as [|r0 rows']; [constructor|].
  apply Forall_concat, Forall_fmap, Forall_forall. intros j _.
  by apply Forall_column.
Qed.

Lemma lookup_concat_uniform {A} (bs : list (list A)) (k j c : nat) :
  Forall (fun b => length b = k) bs -> (c < k)%nat ->
  concat bs !! (j * k + c)%nat = bs !! j ≫= (fun b => b !! c).
Proof.
  intros Hbs Hc. revert j. induction Hbs as [|b bs Hb Hbs IH]; intros j; [done|].
  cbn [concat]. destruct j as [|j].
  - simpl. apply lookup_app_l. lia.
  - rewrite lookup_app_r by lia.
    replace (S j * k + c - length b)%nat with (j * k + c)%nat by lia.
    apply IH.
Qed.

Lemma lookup_interleave {A} (rows : list (list A)) (m j c : nat) :
  Forall (fun r => length r = m) rows -> (c < length rows)%nat ->
  interleave rows !! (j * length rows + c)%nat = rows !! c ≫= (fun r => r !! j).
Proof.
  intros Hrows Hc. unfold interleave.
  destruct rows as [|r0 rows'] eqn:E; [simpl in Hc; lia|]. rewrite <- E in *.
  assert (length r0 = m) as ->.
  { subst rows. by apply Forall_cons_1 in Hrows as [? _]. }
  rewrite lookup_concat_uniform with (k := length rows); [|
    apply Forall_fmap, Forall_forall; intros i Hi%elem_of_seq;
    by apply (column_uniform rows m); [|lia] | done].
  rewrite list_lookup_fmap.
  destruct (decide (j < m)%nat) as [Hj|Hj].
  - rewrite lookup_seq_lt by done. simpl.
    by apply (column_uniform rows m).
  - rewrite lookup_seq_ge by lia. simpl.
    destruct (lookup_lt_is_Some_2 rows c Hc) as [r Hr]. rewrite Hr. simpl.
    symmetry. apply lookup_ge_None.
    eapply Forall_lookup_1 in Hrows; eauto. simpl in Hrows. lia.
Qed.

Lemma length_interleave {A} (rows : list (list A)) (m : nat) :
  Forall (fun r => length r = m) rows -> rows <> [] ->
  length (interleave rows) = (m * length rows)%nat.
Proof.
  intros Hrows Hne. unfold interleave.
  destruct rows as [|r0 rows'] eqn:E; [done|]. rewrite <- E in *.
  assert (length r0 = m) as ->.
  { subst rows. by apply Forall_cons_1 in Hrows as [? _]. }
  assert (Hm : forall n, (n <= m)%nat ->
    length (concat (map (column rows) (seq 0 n))) = (n * length rows)%nat).
  { induction n as [|n IH]; intros Hn; [done|].
    rewrite seq_S, map_app, concat_app, length_app, IH by lia.
    simpl. rewrite length_app. simpl.
    destruct (column_uniform rows m n Hrows) as [-> _]; lia. }
  by apply Hm.
Qed.

(** De-interleaving at stride [k] and interleaving again gives the
    sequence back when it holds whole frames. *)
Lemma interleave_streams {A} (k m : nat) (xs : list A) :
  (0 < k)%nat -> length xs = (m * k)%nat ->
  interleave (map (fun c => every k (drop c xs)) (seq 0 k)) = xs.
Proof.
  intros Hk Hl. set (rows := map (fun c => every k (drop c xs)) (seq 0 k)).
  assert (Hlen : length rows = k) by (unfold rows; by rewrite length_map, length_seq).
  assert (Hrows : Forall (fun r => length r = m) rows).
  { unfold rows. apply Forall_fmap, Forall_forall. intros c Hc%elem_of_seq. simpl.
    apply length_every_exact; [done|lia|done]. }
  apply list_eq. intros i.
  rewrite (Nat.div_mod_eq i k) at 1.
  replace (k * (i / k) + i mod k)%nat with (i / k * length rows + i mod k)%nat by lia.
  assert (i mod k < k)%nat by (apply Nat.mod_upper_bound; lia).
  rewrite (lookup_interleave rows m) by (done || lia).
  unfold rows. rewrite list_lookup_fmap, lookup_seq_lt by done. simpl.
  rewrite lookup_every_drop by done. f_equal.
  pose proof (Nat.div_mod_eq i k). lia.
Qed.

(** Every channel of an interleaved stack of copies is the copied stream. *)
Lemma channel_of_copies {A} (k c : nat) (xs : list A) :
  (c < k)%nat -> every k (drop c (interleave (replicate k xs))) = xs.
Proof.
  intros Hc. apply list_eq. intros j.
  rewrite lookup_every_drop by lia.
  replace (c + j * k)%nat with (j * length (replicate k xs) + c)%nat
    by (rewrite length_replicate; lia).
  rewrite (lookup_interleave _ (length xs)).
  - rewrite lookup_replicate_2 by done. done.
  - by apply Forall_replicate.
  - by rewrite length_replicate.
Qed.

(** *** The header codec *)

Lemma in_u8_true v : 0 <= v < 2 ^ 64 -> in_u8 v = true.
Proof. unfold in_u8, two64. intros. apply andb_true_intro. split; lia. Qed.

Lemma le_value_u8 v : 0 <= v < 2 ^ 64 -> le_value (le_bytes u8_width v) = v.
Proof. intros. apply le_value_le_bytes. unfold u8_width. simpl. lia. Qed.

Lemma np_asarray_u8_ok (vs : list Z) :
  Forall (fun v => 0 <= v < 2 ^ 64) vs ->
  np_asarray_u8 vs = Ret (concat (map (le_bytes u8_width) vs)).
Proof.
  induction 1 as [|v vs Hv Hvs IH]; [done|].
  cbn [np_asarray_u8 map concat]. by rewrite in_u8_true, IH.
Qed.

Lemma np_frombuffer_u8_encoded (vs : list Z) :
  Forall (fun v => 0 <= v < 2 ^ 64) vs ->
  np_frombuffer_u8 (concat (map (le_bytes u8_width) vs)) = Ret vs.
Proof.
  intros Hvs. unfold np_frombuffer_u8.
  assert (Hw : Forall (fun y => length y = u8_width) (map (le_bytes u8_width) vs)).
  { apply Forall_fmap, Forall_forall. intros v _. apply length_le_bytes. }
  assert (Hlen : length (concat (map (le_bytes u8_width) vs)) = (length vs * u8_width)%nat).
  { clear Hvs Hw. induction vs as [|v vs IH]; [done|].
    cbn [map concat]. rewrite length_app, length_le_bytes, IH. simpl. lia. }
  rewrite Hlen, Nat2Z.inj_mul, Z.mod_mul by (unfold u8_width; lia).
  rewrite Z.eqb_refl. f_equal.
  rewrite chunks_concat by (done || unfold u8_width; lia).
  rewrite <- list_fmap_compose.
  rewrite <- (list_fmap_id vs) at 2. apply Forall_fmap_ext_1.
  eapply Forall_impl; [exact Hvs|]. intros v Hv. simpl. by apply le_value_u8.
Qed.

(** C4: decoding the 32 little-endian bytes that encode a header with all
    four fields in [0, 2^64) gives the header back; the bytes are the four
    fields as 8-byte unsigned integers in the order byteSize, frameRate,
    sampleFormatId, channelCount. *)
Theorem header_roundtrip (h : header) :
  0 <= byteSize h < 2 ^ 64 ->
  0 <= hframeRate h < 2 ^ 64 ->
  0 <= sampleFormatId h < 2 ^ 64 ->
  0 <= channelCount h < 2 ^ 64 ->
  exists bs,
    encode_header h = Ret bs /\
    bs = le_bytes 8 (byteSize h) ++ le_bytes 8 (hframeRate h)
           ++ le_bytes 8 (sampleFormatId h) ++ le_bytes 8 (channelCount h) /\
    length bs = 32%nat /\
    decode_header bs = Ret h.
Proof.
  intros H1 H2 H3 H4.
  assert (Hall : Forall (fun v => 0 <= v < 2 ^ 64) (header_fields h)).
  { unfold header_fields. repeat constructor; lia. }
  exists (concat (map (le_bytes u8_width) (header_fields h))).
  split; [by apply np_asarray_u8_ok|]. split; [|split].
  - unfold header_fields, u8_width. cbn [map concat]. by rewrite app_nil_r.
  - unfold header_fields. cbn [map concat]. rewrite !length_app, !length_le_bytes. done.
  - unfold decode_header. rewrite np_frombuffer_u8_encoded by done.
    by destruct h.
Qed.

Lemma header_roundtrip_witness :
  exists bs,
    encode_header (mk_header 64000 16000 8 2) = Ret bs /\
    bs = le_bytes 8 64000 ++ le_bytes 8 16000 ++ le_bytes 8 8 ++ le_bytes 8 2 /\
    length bs = 32%nat /\
    decode_header bs = Ret (mk_header 64000 16000 8 2).
Proof.
  apply (header_roundtrip (mk_header 64000 16000 8 2)); simpl; lia.
Defined.

Lemma length_concat_uniform {A} (w : nat) (ys : list (list A)) :
  Forall (fun y => length y = w) ys -> length (concat ys) = (length ys * w)%nat.
Proof.
  induction 1 as [|y ys Hy Hys IH]; [done|].
  cbn [concat]. rewrite length_app, IH, Hy. simpl. lia.
Qed.

Lemma length_chunks (w k : nat) (bs : list byte) :
  (0 < w)%nat -> length bs = (k * w)%nat -> length (chunks w bs) = k.
Proof.
  intros Hw Hl.
  pose proof (length_concat_uniform w _ (chunks_widths w k bs Hw Hl)) as H.
  rewrite concat_chunks in H by done. nia.
Qed.

(** The header decodes exactly when 32 bytes were read; every failure is a
    ValueError. *)
Lemma decode_header_cases (buf : list byte) :
  (length buf = 32%nat /\ exists h, decode_header buf = Ret h) \/
  (length buf <> 32%nat /\ decode_header buf = Raise ValueError).
Proof.
  unfold decode_header, np_frombuffer_u8.
  destruct (Z.of_nat (length buf) mod Z.of_nat u8_width =? 0) eqn:E.
  - apply Z.eqb_eq in E. unfold u8_width in *.
    assert (exists k, length buf = (k * 8)%nat) as [k Hk].
    { exists (length buf / 8)%nat.
      pose proof (Nat.div_mod_eq (length buf) 8).
      assert (length buf mod 8 = 0)%nat; [|lia].
      apply Nat2Z.inj. rewrite Nat2Z.inj_mod. exact E. }
    pose proof (length_chunks 8 k buf ltac:(lia) Hk) as Hc.
    cbn [obind].
    destruct (decide (k = 4%nat)) as [->|Hne].
    + left. split; [lia|].
      destruct (chunks 8 buf) as [|a [|b [|c [|d [|e t]]]]]; simpl in Hc; try lia.
      simpl. eauto.
    + right. split; [lia|].
      destruct (chunks 8 buf) as [|a [|b [|c [|d [|e t]]]]]; simpl in Hc; try done; lia.
  - right. split; [|done]. apply Z.eqb_neq in E. intros Hl. rewrite Hl in E.
    by apply E.
Qed.

(** *** sync.py *)

Lemma omapM_ret {A B} (f : A -> outcome B) (g : A -> B) (l : list A) :
  (forall x, f x = Ret (g x)) -> omapM f l = Ret (map g l).
Proof.
  intros Hf. induction l as [|x l IH]; [done|].
  cbn [omapM map]. by rewrite Hf, IH.
Qed.

Lemma deinterleave_positive (xs : list sample) (src n : Z) :
  0 < src ->
  deinterleave xs src n =
    Ret (map (fun i : nat => every (Z.to_nat src) (drop i xs)) (py_range n)).
Proof.
  intros Hs. unfold deinterleave. apply omapM_ret. intros i.
  unfold py_slice_from.
  destruct (src =? 0) eqn:E0; [lia|].
  destruct (0 <? src) eqn:E1; [done|lia].
Qed.

(** C1 (as the code has it): for a source of more than one channel the
    de-interleave step yields as many streams as the target channel count,
    and stream [i] holds the samples at positions [i], [i + source],
    [i + 2 * source], ... : the stride is the channel count of the source.
    These streams are what [np.append] receives. *)
Theorem deinterleave_source_stride (xs : list sample) (dt : dtype) (rec : record)
    (n : Z) :
  1 < r_nchannels rec ->
  exists streams,
    deinterleave xs (r_nchannels rec) n = Ret streams /\
    adjust_channels xs dt rec n =
      obind (np_append_axis0 dt streams) (fun a => Ret (a, rec)) /\
    length streams = Z.to_nat n /\
    forall i, (i < Z.to_nat n)%nat ->
      exists st, streams !! i = Some st /\
        forall j, st !! j = xs !! (i + j * Z.to_nat (r_nchannels rec))%nat.
Proof.
  intros Hsrc.
  exists (map (fun i : nat => every (Z.to_nat (r_nchannels rec)) (drop i xs)) (py_range n)).
  assert (Hd := deinterleave_positive xs (r_nchannels rec) n ltac:(lia)).
  split; [done|]. split; [|split].
  - unfold adjust_channels.
    destruct (r_nchannels rec =? 1) eqn:E; [lia|]. by rewrite Hd.
  - unfold py_range. by rewrite length_map, length_seq.
  - intros i Hi. eexists. split.
    + unfold py_range. rewrite list_lookup_fmap, lookup_seq_lt by done. done.
    + intros j. simpl. apply lookup_every_drop. lia.
Qed.

Lemma deinterleave_source_stride_witness :
  exists streams,
    deinterleave (chunks 1 (ramp 8)) 4 2 = Ret streams /\
    adjust_channels (chunks 1 (ramp 8)) (mk_dtype false 1)
        (mk_record PNone 0 8000 4 (Some 16) None false None) 2 =
      obind (np_append_axis0 (mk_dtype false 1) streams)
            (fun a => Ret (a, mk_record PNone 0 8000 4 (Some 16) None false None)) /\
    length streams = 2%nat /\
    forall i, (i < 2)%nat ->
      exists st, streams !! i = Some st /\
        forall j, st !! j = chunks 1 (ramp 8) !! (i + j * 4)%nat.
Proof.
  apply (deinterleave_source_stride (chunks 1 (ramp 8)) (mk_dtype false 1)
           (mk_record PNone 0 8000 4 (Some 16) None false None) 2).
  simpl. lia.
Defined.

(** C1 as worded fails: with four source channels and two target channels
    the streams are the samples 0, 4 and 1, 5, not those at stride two. *)
Lemma deinterleave_not_target_stride :
  deinterleave (chunks 1 (ramp 8)) 4 2 =
    Ret [[[Byte.x00]; [Byte.x04]]; [[Byte.x01]; [Byte.x05]]] /\
  deinterleave_by_target (chunks 1 (ramp 8)) 2 =
    [[[Byte.x00]; [Byte.x02]; [Byte.x04]; [Byte.x06]];
     [[Byte.x01]; [Byte.x03]; [Byte.x05]; [Byte.x07]]] /\
  deinterleave (chunks 1 (ramp 8)) 4 2 <> Ret (deinterleave_by_target (chunks 1 (ramp 8)) 2).
Proof.
  split; [|split].
  - vm_compute. reflexivity.
  - vm_compute. reflexivity.
  - vm_compute. discriminate.
Qed.

Section SyncFacts.
Context {L : AudioLib}.

Lemma sample_form_width (fmt : option Z) (dt : dtype) :
  sample_form fmt = Ret dt -> get_sample_size fmt = Some (dt_width dt).
Proof.
  unfold sample_form. destruct (get_sample_size fmt); [|done].
  intros [= <-]. done.
Qed.

Lemma dtype_valid_pos (dt : dtype) : dtype_valid dt = true -> 0 < dt_width dt.
Proof.
  unfold dtype_valid. destruct (dt_float dt); simpl;
    rewrite ?orb_true_iff, ?Z.eqb_eq; lia.
Qed.

Lemma dtype_eqb_refl (dt : dtype) : dtype_eqb dt dt = true.
Proof. unfold dtype_eqb. by rewrite eqb_reflx, Z.eqb_refl. Qed.

Lemma np_frombuffer_whole (p : list byte) (dt : dtype) (k : nat) :
  dtype_valid dt = true ->
  length p = (k * Z.to_nat (dt_width dt))%nat ->
  np_frombuffer p dt = Ret (Arr1 dt (chunks (Z.to_nat (dt_width dt)) p)).
Proof.
  intros Hv Hl. unfold np_frombuffer. rewrite Hv.
  pose proof (dtype_valid_pos dt Hv).
  rewrite Hl, Nat2Z.inj_mul, Z2Nat.id, Z.mod_mul by lia. done.
Qed.

Lemma astype_same (a : ndarray) (dt : dtype) :
  dtype_valid dt = true -> arr_dtype a = dt -> astype a dt = Ret a.
Proof.
  intros Hv <-. unfold astype. rewrite Hv, dtype_eqb_refl. by destruct a.
Qed.

Lemma compute_duration_ok (rec : record) (w : Z) :
  get_sample_size (r_sampleFormat rec) = Some w ->
  r_frameRate rec * r_nchannels rec * w <> 0 ->
  compute_duration rec =
    Ret (set_duration (Some (r_size rec, r_frameRate rec * r_nchannels rec * w)) rec).
Proof.
  intros Hw Hd. unfold compute_duration. rewrite Hw.
  destruct (_ =? 0) eqn:E; [lia|done].
Qed.

Lemma adjust_channels_mono_same (xs : list sample) (dt : dtype) (rec : record) (n : Z) :
  r_nchannels rec = 1 -> n <= 1 ->
  adjust_channels xs dt rec n = Ret (Arr1 dt xs, rec).
Proof.
  intros H1 Hn. unfold adjust_channels. rewrite H1.
  change (1 =? 1) with true. cbv iota.
  destruct (n >? 1) eqn:E; [lia|done].
Qed.

Lemma adjust_channels_upmix (xs : list sample) (dt : dtype) (rec : record) (n : Z) :
  r_nchannels rec = 1 -> 1 < n ->
  adjust_channels xs dt rec n = Ret (np_vstack_copies dt xs n, set_nchannels n rec).
Proof.
  intros H1 Hn. unfold adjust_channels. rewrite H1.
  change (1 =? 1) with true. cbv iota.
  destruct (n >? 1) eqn:E; [done|lia].
Qed.

Lemma adjust_channels_stereo (xs : list sample) (dt : dtype) (rec : record)
    (frames : nat) :
  r_nchannels rec = 2 -> length xs = (frames * 2)%nat ->
  adjust_channels xs dt rec 2 =
    Ret (Arr2 dt [every 2 (drop 0 xs); every 2 (drop 1 xs)], rec).
Proof.
  intros H2 Hl. unfold adjust_channels. rewrite H2.
  change (2 =? 1) with false. cbv iota.
  rewrite deinterleave_positive by lia. cbn [obind].
  change (py_range 2) with [0%nat; 1%nat]. cbn [map].
  change (Z.to_nat 2) with 2%nat.
  unfold np_append_axis0.
  rewrite !(length_every_exact 2 frames) by (done || lia).
  by rewrite Nat.eqb_refl.
Qed.

Lemma convert_rate_same (data : ndarray) (rate : Z) :
  convert_rate data rate rate = Ret data.
Proof. unfold convert_rate. by rewrite Z.eqb_refl. Qed.

(** C5 (as the code has it): for one or two channels, a format whose
    sample width numpy accepts, a non-zero rate and a payload of whole
    frames, synchronizing to the record's own format returns the payload
    and the format unchanged. *)
Theorem synchronize_same_format (rec : record) (p : list byte) (dt : dtype)
    (frames : nat) :
  r_o rec = PBytes p ->
  sample_form (r_sampleFormat rec) = Ret dt ->
  dtype_valid dt = true ->
  r_nchannels rec = 1 \/ r_nchannels rec = 2 ->
  length p = (frames * Z.to_nat (r_nchannels rec) * Z.to_nat (dt_width dt))%nat ->
  r_frameRate rec <> 0 ->
  exists rec',
    synchronize_audio rec (r_nchannels rec) (r_frameRate rec) (r_sampleFormat rec)
                      "byte" = Ret rec' /\
    r_o rec' = PBytes p /\
    r_nchannels rec' = r_nchannels rec /\
    r_frameRate rec' = r_frameRate rec /\
    r_sampleFormat rec' = r_sampleFormat rec /\
    r_size rec' = Z.of_nat (length p).
Proof.
  intros Ho Hform Hv Hch Hl Hrate.
  pose proof (dtype_valid_pos dt Hv) as Hw.
  pose proof (sample_form_width _ _ Hform) as Hsz.
  unfold synchronize_audio. rewrite Hform, Ho. cbn [payload_buffer obind].
  rewrite (np_frombuffer_whole p dt (frames * Z.to_nat (r_nchannels rec)))
    by (done || lia).
  cbn [obind].
  set (xs := chunks (Z.to_nat (dt_width dt)) p).
  change (startswith_b "byte") with true. cbv iota.
  destruct Hch as [H1 | H2].
  - (* mono: the array stays one-dimensional *)
    rewrite adjust_channels_mono_same by (done || lia). cbn [obind].
    rewrite convert_rate_same. cbn [obind]. rewrite H1.
    change (1 >? 1) with false. cbn [andb]. cbv iota.
    destruct rec as [o sz rate nch fmt dur ser nm]. simpl in *. subst.
    rewrite (astype_same (Arr1 dt xs) dt) by done. cbn [obind tobytes].
    unfold xs. rewrite concat_chunks by lia. cbn [obind].
    erewrite compute_duration_ok; [|exact Hsz|simpl; lia].
    eexists. split; [reflexivity|]. simpl. done.
  - (* stereo: split at stride two, joined, interleaved again *)
    assert (Hxs : length xs = (frames * 2)%nat).
    { unfold xs. rewrite H2 in Hl. apply length_chunks; lia. }
    rewrite H2. rewrite (adjust_channels_stereo xs dt rec frames) by done.
    cbn [obind]. rewrite convert_rate_same. cbn [obind]. rewrite H2.
    change (2 >? 1) with true. cbn [andb]. cbv iota.
    cbn [shuffle2d_channels].
    pose proof (interleave_streams 2 frames xs ltac:(lia) Hxs) as Hi.
    change (map (fun c : nat => every 2 (drop c xs)) (seq 0 2))
      with [every 2 (drop 0 xs); every 2 (drop 1 xs)] in Hi.
    unfold sample in *. rewrite Hi.
    destruct rec as [o sz rate nch fmt dur ser nm]. simpl in *. subst.
    rewrite (astype_same (Arr1 dt xs) dt) by done. cbn [obind tobytes].
    unfold xs. rewrite concat_chunks by lia. cbn [obind].
    erewrite compute_duration_ok; [|exact Hsz|simpl; lia].
    eexists. split; [reflexivity|]. simpl. done.
Qed.

(** C7 (as the code has it): a one-channel buffer of [N] whole samples,
    of a format whose sample width is known and is one numpy has a dtype
    for, at a non-zero rate, synchronized to [k > 1] channels at its own
    rate and format comes back as [N * k] interleaved samples, and every
    one of the [k] channel streams of the result is the original stream,
    sample for sample and byte for byte. *)
Theorem mono_upmix (rec : record) (p : list byte) (dt : dtype) (N : nat) (k : Z) :
  r_o rec = PBytes p ->
  r_nchannels rec = 1 ->
  1 < k ->
  sample_form (r_sampleFormat rec) = Ret dt ->
  dtype_valid dt = true ->
  length p = (N * Z.to_nat (dt_width dt))%nat ->
  r_frameRate rec <> 0 ->
  exists out rec',
    synchronize_audio rec k (r_frameRate rec) (r_sampleFormat rec) "byte" = Ret rec' /\
    r_o rec' = PBytes out /\
    r_nchannels rec' = k /\
    r_frameRate rec' = r_frameRate rec /\
    r_sampleFormat rec' = r_sampleFormat rec /\
    r_size rec' = Z.of_nat (length out) /\
    length (chunks (Z.to_nat (dt_width dt)) out) = (N * Z.to_nat k)%nat /\
    forall c, (c < Z.to_nat k)%nat ->
      every (Z.to_nat k) (drop c (chunks (Z.to_nat (dt_width dt)) out)) =
      chunks (Z.to_nat (dt_width dt)) p.
Proof.
  intros Ho H1 Hk Hform Hv Hl Hrate.
  pose proof (dtype_valid_pos dt Hv) as Hw.
  pose proof (sample_form_width _ _ Hform) as Hsz.
  set (w := Z.to_nat (dt_width dt)) in *.
  set (xs := chunks w p).
  assert (Hxw : Forall (fun y : list byte => length y = w) xs).
  { apply (chunks_widths w N); [lia|done]. }
  assert (Hxl : length xs = N) by (apply length_chunks; [lia|done]).
  set (il := interleave (replicate (Z.to_nat k) xs)).
  assert (Hilw : Forall (fun y : list byte => length y = w) il).
  { apply Forall_interleave, Forall_replicate, Hxw. }
  assert (Hch : chunks w (concat il) = il) by (apply chunks_concat; [lia|done]).
  exists (concat il).
  unfold synchronize_audio. rewrite Hform, Ho. cbn [payload_buffer obind].
  rewrite (np_frombuffer_whole p dt N) by done. cbn [obind]. fold w xs.
  change (startswith_b "byte") with true. cbv iota.
  rewrite adjust_channels_upmix by done. cbn [obind].
  rewrite convert_rate_same. cbn [obind].
  destruct rec as [o sz rate nch fmt dur ser nm]. simpl in Ho, H1, Hform, Hsz, Hrate.
  subst o nch.
  cbn [set_nchannels r_nchannels r_o r_size r_frameRate r_sampleFormat r_duration
       r_is_series r_name].
  destruct (k >? 1) eqn:Ek; [|lia]. cbn [andb]. cbv iota.
  cbn [np_vstack_copies shuffle2d_channels set_sampleFormat set_nchannels
       r_nchannels r_o r_size r_frameRate r_sampleFormat r_duration r_is_series
       r_name].
  unfold sample in *.
  change (interleave (replicate (Z.to_nat k) xs)) with il.
  rewrite (astype_same (Arr1 dt il) dt) by done. cbn [obind tobytes].
  cbn [set_o r_o payload_len obind set_size set_frameRate r_nchannels r_size
       r_frameRate r_sampleFormat r_duration r_is_series r_name].
  erewrite compute_duration_ok; [|exact Hsz|simpl; nia].
  eexists. split; [reflexivity|]. simpl.
  repeat split; try done.
  - rewrite Hch. unfold il.
    rewrite (length_interleave _ N).
    + by rewrite length_replicate.
    + apply Forall_replicate. exact Hxl.
    + destruct (Z.to_nat k) eqn:E; [lia|done].
  - intros c Hc. rewrite Hch. by apply channel_of_copies.
Qed.

End SyncFacts.

Lemma synchronize_same_format_witness :
  exists rec',
    synchronize_audio (L := pa_lib)
      (mk_record (PBytes (ramp 8)) 8 8000 2 (Some 8) None false None)
      2 8000 (Some 8) "byte" = Ret rec' /\
    r_o rec' = PBytes (ramp 8) /\
    r_nchannels rec' = 2 /\
    r_frameRate rec' = 8000 /\
    r_sampleFormat rec' = Some 8 /\
    r_size rec' = 8.
Proof.
  apply (synchronize_same_format (L := pa_lib)
           (mk_record (PBytes (ramp 8)) 8 8000 2 (Some 8) None false None)
           (ramp 8) (mk_dtype false 2) 2).
  - reflexivity.
  - reflexivity.
  - reflexivity.
  - right. reflexivity.
  - reflexivity.
  - simpl. lia.
Defined.

(** C5 as worded fails: three bytes are not a whole number of 16-bit
    samples, and [np.frombuffer] refuses them. *)
Lemma synchronize_same_format_partial :
  synchronize_audio (L := pa_lib)
    (mk_record (PBytes (ramp 3)) 3 8000 1 (Some 8) None false None)
    1 8000 (Some 8) "byte" = Raise ValueError.
Proof. vm_compute. reflexivity. Qed.

(** With three channels in and out the call does not return either:
    [np.append] is handed three arrays. *)
Example three_channels_type_error :
  synchronize_audio (L := pa_lib)
    (mk_record (PBytes (ramp 12)) 12 8000 3 (Some 8) None false None)
    3 8000 (Some 8) "byte" = Raise TypeError.
Proof. vm_compute. reflexivity. Qed.

(** C7 as worded fails, for it speaks of every one-channel buffer: 24-bit
    samples have width 3, for which numpy has no dtype, and
    [np.frombuffer] raises TypeError; at rate 0 the samples are stacked and
    interleaved but the duration divides by zero. *)
Lemma mono_upmix_partial :
  synchronize_audio (L := pa_lib)
    (mk_record (PBytes (ramp 6)) 6 8000 1 (Some 4) None false None)
    2 8000 (Some 4) "byte" = Raise TypeError /\
  synchronize_audio (L := pa_lib)
    (mk_record (PBytes (ramp 8)) 8 0 1 (Some 8) None false None)
    2 0 (Some 8) "byte" = Raise ZeroDivisionError.
Proof. split; vm_compute; reflexivity. Qed.

Lemma mono_upmix_witness :
  exists out rec',
    synchronize_audio (L := pa_lib)
      (mk_record (PBytes (ramp 8)) 8 8000 1 (Some 8) None false None)
      2 8000 (Some 8) "byte" = Ret rec' /\
    r_o rec' = PBytes out /\
    r_nchannels rec' = 2 /\
    r_frameRate rec' = 8000 /\
    r_sampleFormat rec' = Some 8 /\
    r_size rec' = Z.of_nat (length out) /\
    length (chunks 2 out) = 8%nat /\
    forall c, (c < 2)%nat -> every 2 (drop c (chunks 2 out)) = chunks 2 (ramp 8).
Proof.
  apply (mono_upmix (L := pa_lib)
           (mk_record (PBytes (ramp 8)) 8 8000 1 (Some 8) None false None)
           (ramp 8) (mk_dtype false 2) 4 2).
  - reflexivity.
  - reflexivity.
  - lia.
  - reflexivity.
  - reflexivity.
  - reflexivity.
  - simpl. lia.
Defined.

(** *** The binary writer *)

Lemma py_open_not_ValueError (n : string) (mode : fmode) (w : world) :
  fst (py_open n mode w) <> Raise ValueError.
Proof.
  unfold py_open. destruct (open_busy w n); [done|].
  destruct mode; [|done]. by destruct (files w !! n).
Qed.

(** *** File operations on an explicit world *)

Section FileFacts.
Variables (F : gmap string (list byte)) (D : list fdesc).
Variables (rb ob : string -> bool) (np : nat) (tr : list event).

Lemma f_seek_start (fd : nat) (n : string) (pos : nat) (c : list byte) (off : Z) :
  D !! fd = Some (mk_fdesc n pos false) -> F !! n = Some c -> 0 <= off ->
  f_seek fd off 0 (mk_world F D rb ob np tr) =
    (Ret tt, mk_world F (<[fd := mk_fdesc n (Z.to_nat off) false]> D) rb ob np tr).
Proof.
  intros Hd Hc Hoff. unfold f_seek, bind, the_fd, fd_contents, set_pos, modify, raise.
  simpl. rewrite Hd. simpl. rewrite Hc. simpl.
  change (0 + off) with off. destruct (off <? 0) eqn:E; [lia|]. done.
Qed.

Lemma f_read_ok (fd : nat) (n : string) (pos : nat) (c : list byte) (k : option Z) :
  D !! fd = Some (mk_fdesc n pos false) -> F !! n = Some c ->
  let out := match k with
             | None => drop pos c
             | Some k => if k <? 0 then drop pos c else take_z k (drop pos c)
             end in
  f_read fd k (mk_world F D rb ob np tr) =
    (Ret out,
     mk_world F (<[fd := mk_fdesc n (pos + length out) false]> D) rb ob np tr).
Proof.
  intros Hd Hc. unfold f_read, bind, the_fd, fd_contents, set_pos, modify, ret.
  simpl. rewrite Hd. simpl. rewrite Hc. simpl. done.
Qed.

Lemma f_write_ok (fd : nat) (n : string) (pos : nat) (c bs : list byte) :
  D !! fd = Some (mk_fdesc n pos false) -> F !! n = Some c ->
  f_write fd bs (mk_world F D rb ob np tr) =
    (Ret (Z.of_nat (length bs)),
     mk_world (<[n := write_at pos bs c]> F)
              (<[fd := mk_fdesc n (pos + length bs) false]> D) rb ob np tr).
Proof.
  intros Hd Hc. unfold f_write, bind, the_fd, fd_contents, set_pos, modify, ret.
  simpl. rewrite Hd. simpl. rewrite Hc. simpl. done.
Qed.

Lemma f_truncate_ok (fd : nat) (n : string) (pos : nat) (c : list byte) :
  D !! fd = Some (mk_fdesc n pos false) -> F !! n = Some c ->
  f_truncate fd (mk_world F D rb ob np tr) =
    (Ret tt, mk_world (<[n := truncate_to pos c]> F) D rb ob np tr).
Proof.
  intros Hd Hc. unfold f_truncate, bind, the_fd, fd_contents, modify.
  simpl. rewrite Hd. simpl. rewrite Hc. simpl. done.
Qed.

Lemma f_flush_ok (fd : nat) (n : string) (pos : nat) :
  D !! fd = Some (mk_fdesc n pos false) ->
  f_flush fd (mk_world F D rb ob np tr) = (Ret tt, mk_world F D rb ob np tr).
Proof.
  intros Hd. unfold f_flush, bind, the_fd, ret. simpl. rewrite Hd. done.
Qed.

Lemma f_close_ok (fd : nat) (d : fdesc) :
  D !! fd = Some d ->
  f_close fd (mk_world F D rb ob np tr) =
    (Ret tt,
     mk_world F (<[fd := mk_fdesc (fd_name d) (fd_pos d) true]> D) rb ob np
              (tr ++ [EvClose (fd_name d)])).
Proof. intros Hd. unfold f_close. simpl. rewrite Hd. done. Qed.

Lemma f_name_ok (fd : nat) (d : fdesc) :
  D !! fd = Some d ->
  f_name fd (mk_world F D rb ob np tr) = (Ret (fd_name d), mk_world F D rb ob np tr).
Proof. intros Hd. unfold f_name. simpl. rewrite Hd. done. Qed.

Lemma os_remove_ok (p : string) (c : list byte) :
  F !! p = Some c -> rb p = false ->
  os_remove p (mk_world F D rb ob np tr) =
    (Ret tt, mk_world (delete p F) D rb ob np (tr ++ [EvRemove p])).
Proof. intros Hc Hb. unfold os_remove. simpl. rewrite Hc, Hb. done. Qed.

Lemma os_rename_self_ok (p : string) (c : list byte) :
  F !! p = Some c -> rb p = false ->
  os_rename_self p (mk_world F D rb ob np tr) = (Ret tt, mk_world F D rb ob np tr).
Proof. intros Hc Hb. unfold os_rename_self. simpl. rewrite Hc, Hb. done. Qed.

Lemma os_rename_self_busy (p : string) :
  rb p = true ->
  os_rename_self p (mk_world F D rb ob np tr) = (Raise OSError, mk_world F D rb ob np tr).
Proof.
  intros Hb. unfold os_rename_self. simpl. rewrite Hb. by destruct (F !! p).
Qed.

Lemma py_open_rb_ok (p : string) (c : list byte) :
  F !! p = Some c -> ob p = false ->
  py_open p RBplus (mk_world F D rb ob np tr) =
    (Ret (length D),
     mk_world F (D ++ [mk_fdesc p 0 false]) rb ob np (tr ++ [EvOpen p RBplus])).
Proof. intros Hc Hb. unfold py_open. simpl. rewrite Hc, Hb. done. Qed.

Lemma py_open_wb_ok (p : string) :
  ob p = false ->
  py_open p WBplus (mk_world F D rb ob np tr) =
    (Ret (length D),
     mk_world (<[p := []]> F) (D ++ [mk_fdesc p 0 false]) rb ob np
              (tr ++ [EvOpen p WBplus])).
Proof. intros Hb. unfold py_open. simpl. rewrite Hb. done. Qed.

Lemma py_open_busy (p : string) (mode : fmode) :
  ob p = true ->
  py_open p mode (mk_world F D rb ob np tr) = (Raise OSError, mk_world F D rb ob np tr).
Proof. intros Hb. unfold py_open. simpl. by rewrite Hb. Qed.

Lemma py_open_rb_missing (p : string) :
  F !! p = None ->
  py_open p RBplus (mk_world F D rb ob np tr) = (Raise OSError, mk_world F D rb ob np tr).
Proof. intros Hc. unfold py_open. simpl. rewrite Hc. by destruct (ob p). Qed.

Lemma os_path_exists_eq (p : string) :
  os_path_exists p (mk_world F D rb ob np tr) =
    (Ret (match F !! p with Some _ => true | None => false end),
     mk_world F D rb ob np tr).
Proof. done. Qed.

End FileFacts.

Lemma write_at_end (bs c : list byte) : write_at (length c) bs c = c ++ bs.
Proof.
  unfold write_at. rewrite take_ge by lia. rewrite Nat.sub_diag.
  rewrite drop_ge by lia. simpl. by rewrite app_nil_r.
Qed.

Lemma take_z_take {A} (n : Z) (l : list A) : take_z n l = take (Z.to_nat n) l.
Proof.
  revert n. induction l as [|x l IH]; intros n; [by destruct (Z.to_nat n)|].
  cbn [take_z]. destruct (n <=? 0) eqn:E.
  - replace (Z.to_nat n) with 0%nat by lia. done.
  - replace (Z.to_nat n) with (S (Z.to_nat (n - 1))) by lia.
    simpl. by rewrite IH.
Qed.

(** *** Writing a cache entry *)

Ltac run_side :=
  first [ eassumption | lia
        | by apply list_lookup_insert_eq
        | by apply lookup_insert_eq ].

Ltac run_with lem :=
  unfold bind at 1; erewrite lem by run_side; cbv beta iota.

Lemma write_entry_handle (fuel : nat) (m : master) (rec : record) (out : list byte)
    (F : gmap string (list byte)) (D : list fdesc) (rb ob : string -> bool)
    (np : nat) (tr : list event) (fd : nat) (n : string) (pos : nat) (c : list byte) :
  r_o rec = PBytes out ->
  header_in_range (entry_header rec) ->
  0 <= CACHE_INFO m ->
  D !! fd = Some (mk_fdesc n pos false) ->
  F !! n = Some c ->
  write_to_cached_file fuel (with_buffered_random fd (entry_wargs m rec))
      (mk_world F D rb ob np tr) =
    (Ret (fd, None),
     mk_world (<[n := header_bytes (entry_header rec) ++ out]> F)
              (<[fd := mk_fdesc n (Z.to_nat (CACHE_INFO m)) false]> D) rb ob np tr).
Proof.
  intros Ho Hr Hci Hd Hc.
  assert (Hfd : (fd < length D)%nat) by (eapply lookup_lt_Some; eauto).
  unfold write_to_cached_file.
  unfold bind at 1. cbn [write_target with_buffered_random w_buffered_random ret].
  cbv beta iota.
  cbn [w_pre_seek w_pre_truncate w_pre_flush w_head w_data w_after_seek
       w_after_flush w_size_on_output w_data_chunk entry_wargs seek_opt when
       with_buffered_random].
  run_with f_seek_start.
  unfold bind at 1. erewrite f_truncate_ok;
    [|by apply list_lookup_insert_eq|eauto]. cbv beta iota.
  unfold bind at 1. erewrite f_flush_ok by (by apply list_lookup_insert_eq).
  cbv beta iota.
  unfold bind at 1. unfold bind at 1. unfold lift_outcome.
  change [r_size rec; r_frameRate rec; format_or_zero (r_sampleFormat rec);
          r_nchannels rec] with (header_fields (entry_header rec)).
  rewrite np_asarray_u8_ok by exact Hr. cbv beta iota.
  fold (header_bytes (entry_header rec)).
  set (hb := header_bytes (entry_header rec)).
  erewrite f_write_ok;
    [|by apply list_lookup_insert_eq|by apply lookup_insert_eq].
  cbv beta iota.
  change (truncate_to (Z.to_nat 0) c) with (@nil byte).
  change (write_at (Z.to_nat 0) hb []) with (hb ++ []).
  rewrite app_nil_r, insert_insert_eq, list_insert_insert_eq.
  rewrite Ho.
  destruct out as [|b out'].
  - unfold bind at 1. unfold ret at 1. cbv beta iota.
    run_with f_seek_start.
    rewrite list_insert_insert_eq.
    unfold bind at 1. erewrite f_flush_ok by (by apply list_lookup_insert_eq).
    cbv beta iota. unfold ret. by rewrite app_nil_r.
  - unfold bind at 1. unfold bind at 1.
    erewrite f_write_ok;
      [|by apply list_lookup_insert_eq|by apply lookup_insert_eq].
    cbv beta iota. unfold ret at 1. cbv beta iota.
    rewrite insert_insert_eq, list_insert_insert_eq.
    change (Z.to_nat 0 + length hb)%nat with (length hb).
    rewrite write_at_end.
    run_with f_seek_start.
    rewrite list_insert_insert_eq.
    unfold bind at 1. erewrite f_flush_ok by (by apply list_lookup_insert_eq).
    cbv beta iota. by unfold ret.
Qed.

Lemma insert_last {A} (l : list A) (d x : A) :
  <[length l := x]> (l ++ [d]) = l ++ [x].
Proof.
  replace (length l) with (length l + 0)%nat at 1 by lia.
  by rewrite insert_app_r.
Qed.

Lemma lookup_last {A} (l : list A) (d : A) : (l ++ [d]) !! length l = Some d.
Proof. by apply list_lookup_middle. Qed.

Lemma write_entry_name (fuel : nat) (m : master) (rec : record) (out : list byte)
    (F : gmap string (list byte)) (D : list fdesc) (rb ob : string -> bool)
    (np : nat) (tr : list event) (path : string) :
  r_o rec = PBytes out ->
  header_in_range (entry_header rec) ->
  0 <= CACHE_INFO m ->
  path <> EmptyString ->
  ob path = false ->
  write_to_cached_file fuel (with_file_name path (entry_wargs m rec))
      (mk_world F D rb ob np tr) =
    (Ret (length D, None),
     mk_world (<[path := header_bytes (entry_header rec) ++ out]> F)
              (D ++ [mk_fdesc path (Z.to_nat (CACHE_INFO m)) false]) rb ob np
              (tr ++ [EvOpen path WBplus])).
Proof.
  intros Ho Hr Hci Hne Hob.
  transitivity
    (write_to_cached_file fuel (with_buffered_random (length D) (entry_wargs m rec))
       (mk_world (<[path := []]> F) (D ++ [mk_fdesc path 0 false]) rb ob np
                 (tr ++ [EvOpen path WBplus]))).
  - unfold write_to_cached_file. unfold bind at 1. symmetry. unfold bind at 1.
    cbn [write_target with_buffered_random with_file_name entry_wargs
         w_buffered_random w_file_name w_file_mode ret file_name_given].
    destruct path as [|a path']; [done|].
    rewrite py_open_wb_ok by done. reflexivity.
  - erewrite write_entry_handle; [|done|done|done|apply lookup_last|apply lookup_insert_eq].
    by rewrite insert_insert_eq, insert_last.
Qed.

(** *** The resolver, step by step *)

Lemma lift_w_eq {A} (m : M world A) (w w' : world) (r : outcome A) (rec : record) :
  m w = (r, w') -> lift_w m (mk_hstate w rec) = (r, mk_hstate w' rec).
Proof. intros H. unfold lift_w. simpl. by rewrite H. Qed.

Section ResolverFacts.
Context {L : AudioLib}.

Lemma finish_ok (m : master) (w : world) (rec rec2 : record) (fd : nat) (d : fdesc)
    (nm : option string) :
  r_o rec = PHandle fd ->
  fds w !! fd = Some d ->
  compute_duration rec = Ret rec2 ->
  name_for m rec (fd_name d) = Ret nm ->
  finish m (mk_hstate w rec) = (Ret (set_name nm rec2), mk_hstate w (set_name nm rec2)).
Proof.
  intros Ho Hfd Hdur Hnm.
  assert (Hsame : r_o rec2 = r_o rec /\ r_is_series rec2 = r_is_series rec
                  /\ r_name rec2 = r_name rec).
  { unfold compute_duration in Hdur.
    destruct (get_sample_size (r_sampleFormat rec)); [|done].
    destruct (_ =? 0); [done|]. injection Hdur as <-. by destruct rec. }
  destruct Hsame as (Ho2 & Hs2 & Hn2).
  unfold finish, bind, get_rec, put_rec, lift_outcome, upd_rec. simpl.
  rewrite Hdur. simpl. rewrite Hs2. unfold name_for in Hnm.
  destruct (r_is_series rec).
  - rewrite Ho2, Ho. unfold lift_w. simpl.
    destruct w as [F D rb ob np tr]. simpl in Hfd.
    rewrite (f_name_ok F D rb ob np tr fd d Hfd).
    destruct (series_name (BUFFER_TYPE m) (fd_name d)) as [x| |]; simpl in Hnm; [|done|done].
    injection Hnm as <-. done.
  - injection Hnm as <-. simpl. rewrite <- Hn2. by destruct rec2.
Qed.

Lemma rebuild_bytes (fuel : nat) (m : master) (path : string) (p : list byte)
    (F : gmap string (list byte)) (D : list fdesc) (rb ob : string -> bool)
    (np : nat) (tr : list event) (rec : record) :
  let rec1 := set_size (Z.of_nat (length p) + CACHE_INFO m) (set_o (PBytes p) rec) in
  header_in_range (entry_header rec1) ->
  0 <= CACHE_INFO m ->
  path <> EmptyString ->
  ob path = false ->
  rebuild fuel m path (Some (PBytes p)) (mk_hstate (mk_world F D rb ob np tr) rec) =
    (Ret tt,
     mk_hstate
       (mk_world (<[path := header_bytes (entry_header rec1) ++ p]> F)
                 (D ++ [mk_fdesc path (Z.to_nat (CACHE_INFO m)) false]) rb ob np
                 (tr ++ [EvDecoder; EvOpen path WBplus]))
       (set_o (PHandle (length D)) rec1)).
Proof.
  intros rec1 Hr Hci Hne Hob.
  unfold rebuild, bind, call_decoder, upd_rec, get_rec, lift_outcome. simpl.
  erewrite lift_w_eq;
    [|apply (write_entry_name fuel m rec1 p); [done|done|done|done|done]].
  simpl. by rewrite <- app_assoc.
Qed.

Lemma open_entry_free (fuel : nat) (ps : nat -> string) (path : string)
    (F : gmap string (list byte)) (D : list fdesc) (rb ob : string -> bool)
    (np : nat) (tr : list event) (rec : record) (c : list byte) :
  F !! path = Some c -> rb path = false -> ob path = false ->
  open_entry fuel ps path (mk_hstate (mk_world F D rb ob np tr) rec) =
    (Ret (length D),
     mk_hstate
       (mk_world F (D ++ [mk_fdesc path 0 false]) rb ob np (tr ++ [EvOpen path RBplus]))
       (set_o (PHandle (length D)) rec)).
Proof.
  intros Hc Hrb Hob. unfold open_entry, try_except, bind.
  erewrite lift_w_eq by (by eapply os_rename_self_ok).
  erewrite lift_w_eq by (by eapply py_open_rb_ok).
  done.
Qed.

Lemma read_header_ok (m : master) (f : nat) (n : string) (pos : nat) (c : list byte)
    (h : header) (F : gmap string (list byte)) (D : list fdesc)
    (rb ob : string -> bool) (np : nat) (tr : list event) (rec : record) :
  D !! f = Some (mk_fdesc n pos false) ->
  F !! n = Some c ->
  decode_header (take_z (CACHE_INFO m) c) = Ret h ->
  read_header m f (mk_hstate (mk_world F D rb ob np tr) rec) =
    (Ret h,
     mk_hstate
       (mk_world F (<[f := mk_fdesc n (length (take_z (CACHE_INFO m) c)) false]> D)
                 rb ob np tr)
       rec).
Proof.
  intros Hd Hc Hdec.
  assert (Hfd : (f < length D)%nat) by (eapply lookup_lt_Some; eauto).
  assert (Hci : 0 <= CACHE_INFO m).
  { destruct (decode_header_cases (take_z (CACHE_INFO m) c)) as [[Hl _]|[_ Hf]];
      [|congruence].
    destruct (Z.le_gt_cases 0 (CACHE_INFO m)); [done|].
    rewrite take_z_take in Hl. replace (Z.to_nat (CACHE_INFO m)) with 0%nat in Hl by lia.
    by rewrite take_0 in Hl. }
  unfold read_header, bind.
  erewrite lift_w_eq by (eapply f_seek_start; [exact Hd|exact Hc|lia]).
  erewrite lift_w_eq;
    [|eapply (f_read_ok _ _ _ _ _ _ f n _ c (Some (CACHE_INFO m)));
      [by apply list_lookup_insert_eq|done]].
  cbv zeta. destruct (CACHE_INFO m <? 0) eqn:E; [lia|].
  rewrite drop_0. unfold try_except, lift_outcome. rewrite Hdec.
  by rewrite list_insert_insert_eq.
Qed.

Lemma read_header_bad (m : master) (f : nat) (n : string) (pos : nat) (c : list byte)
    (F : gmap string (list byte)) (D : list fdesc)
    (rb ob : string -> bool) (np : nat) (tr : list event) (rec : record) :
  D !! f = Some (mk_fdesc n pos false) ->
  F !! n = Some c ->
  0 <= CACHE_INFO m ->
  length (take_z (CACHE_INFO m) c) <> 32%nat ->
  rb n = false ->
  read_header m f (mk_hstate (mk_world F D rb ob np tr) rec) =
    (Raise DecodeError,
     mk_hstate
       (mk_world (delete n F)
                 (<[f := mk_fdesc n (length (take_z (CACHE_INFO m) c)) true]> D)
                 rb ob np (tr ++ [EvClose n; EvRemove n]))
       rec).
Proof.
  intros Hd Hc Hci Hlen Hrb.
  assert (Hfd : (f < length D)%nat) by (eapply lookup_lt_Some; eauto).
  destruct (decode_header_cases (take_z (CACHE_INFO m) c)) as [[Hl _]|[_ Hdec]]; [done|].
  unfold read_header, bind.
  erewrite lift_w_eq by (eapply f_seek_start; [exact Hd|exact Hc|lia]).
  erewrite lift_w_eq;
    [|eapply (f_read_ok _ _ _ _ _ _ f n _ c (Some (CACHE_INFO m)));
      [by apply list_lookup_insert_eq|done]].
  cbv zeta. destruct (CACHE_INFO m <? 0) eqn:E; [lia|].
  rewrite drop_0. unfold try_except, lift_outcome. rewrite Hdec.
  change (is_ValueError ValueError) with true. cbv iota.
  rewrite list_insert_insert_eq. unfold bind.
  erewrite lift_w_eq by (eapply f_close_ok; by apply list_lookup_insert_eq).
  cbn [fd_name fd_pos]. rewrite list_insert_insert_eq.
  erewrite lift_w_eq by (eapply f_name_ok; by apply list_lookup_insert_eq).
  cbn [fd_name].
  erewrite lift_w_eq by (by eapply os_remove_ok).
  unfold raise. by rewrite <- app_assoc.
Qed.

Lemma compute_duration_fields (rec rec2 : record) :
  compute_duration rec = Ret rec2 ->
  r_o rec2 = r_o rec /\ r_size rec2 = r_size rec /\ r_frameRate rec2 = r_frameRate rec
  /\ r_nchannels rec2 = r_nchannels rec /\ r_sampleFormat rec2 = r_sampleFormat rec.
Proof.
  unfold compute_duration.
  destruct (get_sample_size (r_sampleFormat rec)); [|done].
  destruct (_ =? 0); [done|]. intros [= <-]. by destruct rec.
Qed.

(** In byte mode the synchronizer leaves a byte string in the record and
    its length in [size]. *)
Lemma synchronize_audio_bytes (rec rec2 : record) (n sr : Z) (sf : option Z) :
  synchronize_audio rec n sr sf "byte" = Ret rec2 ->
  exists out,
    r_o rec2 = PBytes out /\ r_size rec2 = Z.of_nat (length out) /\
    r_frameRate rec2 = sr /\ r_nchannels rec2 = n /\ r_sampleFormat rec2 = sf.
Proof.
  unfold synchronize_audio. change (startswith_b "byte") with true. cbv iota.
  destruct (sample_form (r_sampleFormat rec)) as [form| |]; [|done|done]. cbn [obind].
  destruct (payload_buffer (r_o rec)) as [buf| |]; [|done|done]. cbn [obind].
  destruct (np_frombuffer buf form) as [arr| |]; [|done|done]. cbn [obind].
  destruct (match arr with
            | Arr1 dt xs => adjust_channels xs dt rec n
            | Arr2 _ _ => Raise TypeError
            end) as [[data rec1]| |]; [|done|done]. cbn [obind].
  destruct (convert_rate data sr (r_frameRate rec1)) as [data'| |]; [|done|done].
  cbn [obind].
  destruct (sample_form sf) as [form'| |]; [|done|done]. cbn [obind].
  destruct (astype _ form') as [out| |]; [|done|done]. cbn [obind].
  cbn [set_o r_o payload_len obind].
  intros Hd. apply compute_duration_fields in Hd as (Ho & Hs & Hr & Hn & Hf).
  exists (tobytes out). rewrite Ho, Hs, Hr, Hn, Hf. by destruct rec1.
Qed.

Lemma try_cached_miss (fuel : nat) (ps : nat -> string) (m : master) (path : string)
    (sf : option Z) (sn sr : Z) (safe : bool) (s : hstate) :
  mem_string path (m_cache m) = false ->
  try_cached fuel ps m path sf sn sr safe s = (Raise DecodeError, s).
Proof. intros H. unfold try_cached. by rewrite H. Qed.

Lemma try_cached_corrupt (fuel : nat) (ps : nat -> string) (m : master) (path : string)
    (sf : option Z) (sn sr : Z) (safe : bool) (s1 : hstate)
    (f : nat) (n : string) (pos : nat) (c : list byte)
    (F : gmap string (list byte)) (D : list fdesc)
    (rb ob : string -> bool) (np : nat) (tr : list event) (rec : record) :
  mem_string path (m_cache m) = true ->
  open_entry fuel ps path s1 = (Ret f, mk_hstate (mk_world F D rb ob np tr) rec) ->
  D !! f = Some (mk_fdesc n pos false) ->
  F !! n = Some c ->
  0 <= CACHE_INFO m ->
  length (take_z (CACHE_INFO m) c) <> 32%nat ->
  rb n = false ->
  try_cached fuel ps m path sf sn sr safe s1 =
    (Raise DecodeError,
     mk_hstate
       (mk_world (delete n F)
                 (<[f := mk_fdesc n (length (take_z (CACHE_INFO m) c)) true]> D)
                 rb ob np (tr ++ [EvClose n; EvRemove n]))
       rec).
Proof.
  intros Hmem Hopen Hd Hc Hci Hlen Hrb. unfold try_cached. rewrite Hmem.
  unfold bind at 1. rewrite Hopen.
  unfold bind at 1. by erewrite read_header_bad.
Qed.

Lemma try_cached_reuse (fuel : nat) (ps : nat -> string) (m : master) (path : string)
    (sf : option Z) (sn sr : Z) (safe : bool) (s1 : hstate)
    (f : nat) (n : string) (pos : nat) (c : list byte) (h : header)
    (F : gmap string (list byte)) (D : list fdesc)
    (rb ob : string -> bool) (np : nat) (tr : list event) (rec : record) :
  mem_string path (m_cache m) = true ->
  open_entry fuel ps path s1 = (Ret f, mk_hstate (mk_world F D rb ob np tr) rec) ->
  D !! f = Some (mk_fdesc n pos false) ->
  F !! n = Some c ->
  decode_header (take_z (CACHE_INFO m) c) = Ret h ->
  format_matches h sf sn sr = true \/ safe = false ->
  try_cached fuel ps m path sf sn sr safe s1 =
    (Ret tt,
     mk_hstate
       (mk_world F (<[f := mk_fdesc n (length (take_z (CACHE_INFO m) c)) false]> D)
                 rb ob np tr)
       (with_header h rec)).
Proof.
  intros Hmem Hopen Hd Hc Hdec Hcase. unfold try_cached. rewrite Hmem.
  unfold bind at 1. rewrite Hopen.
  unfold bind at 1. erewrite read_header_ok by eauto.
  unfold bind, upd_rec. cbn [hw hrec].
  fold (format_matches h sf sn sr). fold (with_header h rec).
  destruct (format_matches h sf sn sr); [done|].
  destruct Hcase as [ ? | -> ]; done.
Qed.

Lemma try_cached_resync (fuel : nat) (ps : nat -> string) (m : master) (path : string)
    (sf : option Z) (sn sr : Z) (s1 : hstate)
    (f : nat) (n : string) (pos : nat) (c : list byte) (h : header)
    (F : gmap string (list byte)) (D : list fdesc)
    (rb ob : string -> bool) (np : nat) (tr : list event) (rec rec2 : record)
    (out : list byte) :
  mem_string path (m_cache m) = true ->
  open_entry fuel ps path s1 = (Ret f, mk_hstate (mk_world F D rb ob np tr) rec) ->
  D !! f = Some (mk_fdesc n pos false) ->
  F !! n = Some c ->
  decode_header (take_z (CACHE_INFO m) c) = Ret h ->
  format_matches h sf sn sr = false ->
  synchronize_audio
    (set_o (PBytes (drop (length (take_z (CACHE_INFO m) c)) c)) (with_header h rec))
    sn sr sf "byte" = Ret rec2 ->
  r_o rec2 = PBytes out ->
  header_in_range (entry_header rec2) ->
  try_cached fuel ps m path sf sn sr true s1 =
    (Ret tt,
     mk_hstate
       (mk_world (<[n := header_bytes (entry_header rec2) ++ out]> F)
                 (<[f := mk_fdesc n (Z.to_nat (CACHE_INFO m)) false]> D)
                 rb ob np tr)
       (set_o (PHandle f) rec2)).
Proof.
  intros Hmem Hopen Hd Hc Hdec Hcase Hsync Hout Hr.
  assert (Hfd : (f < length D)%nat) by (eapply lookup_lt_Some; eauto).
  assert (Hci : 0 <= CACHE_INFO m).
  { destruct (decode_header_cases (take_z (CACHE_INFO m) c)) as [[Hl _]|[_ Hf]];
      [|congruence].
    destruct (Z.le_gt_cases 0 (CACHE_INFO m)); [done|].
    rewrite take_z_take in Hl. replace (Z.to_nat (CACHE_INFO m)) with 0%nat in Hl by lia.
    by rewrite take_0 in Hl. }
  unfold try_cached. rewrite Hmem.
  unfold bind at 1. rewrite Hopen.
  unfold bind at 1. erewrite read_header_ok by eauto.
  unfold bind at 1. unfold upd_rec at 1. cbv beta iota.
  unfold bind at 1. unfold upd_rec at 1. cbv beta iota.
  unfold bind at 1. unfold upd_rec at 1. cbv beta iota.
  unfold bind at 1. unfold upd_rec at 1. cbv beta iota.
  cbn [hw hrec].
  fold (format_matches h sf sn sr). fold (with_header h rec). rewrite Hcase.
  unfold bind at 1.
  erewrite lift_w_eq;
    [|eapply (f_read_ok _ _ _ _ _ _ f n _ c None);
      [by apply list_lookup_insert_eq|done]].
  cbv zeta. rewrite list_insert_insert_eq.
  unfold bind at 1. unfold upd_rec at 1. cbv beta iota. cbn [hw hrec].
  unfold bind at 1. unfold get_rec at 1. cbv beta iota. cbn [hw hrec].
  unfold bind at 1. unfold lift_outcome at 1. rewrite Hsync.
  unfold bind at 1. unfold put_rec at 1. cbv beta iota. cbn [hw hrec].
  unfold bind at 1.
  erewrite lift_w_eq;
    [|eapply (write_entry_handle fuel m rec2 out);
      [done|done|done|by apply list_lookup_insert_eq|done]].
  unfold upd_rec. cbn [hw hrec]. by rewrite list_insert_insert_eq.
Qed.

End ResolverFacts.

(** *** The relocation loop *)

Lemma lookup_pre {A} (l : list A) (a b : A) : (l ++ [a; b]) !! length l = Some a.
Proof. by apply list_lookup_middle. Qed.

Lemma lookup_succ {A} (l : list A) (a b : A) : (l ++ [a; b]) !! S (length l) = Some b.
Proof.
  rewrite (cons_middle a l [b]), app_assoc. apply list_lookup_middle.
  rewrite length_app. simpl. lia.
Qed.

Lemma insert_pre {A} (l : list A) (a b x : A) :
  <[length l := x]> (l ++ [a; b]) = l ++ [x; b].
Proof.
  replace (length l) with (length l + 0)%nat at 1 by lia.
  by rewrite insert_app_r.
Qed.

Lemma insert_succ {A} (l : list A) (a b x : A) :
  <[S (length l) := x]> (l ++ [a; b]) = l ++ [a; x].
Proof.
  replace (S (length l)) with (length l + 1)%nat at 1 by lia.
  by rewrite insert_app_r.
Qed.

Lemma take_drop_length {A} (n : nat) (l : list A) :
  take n l ++ drop (length (take n l)) l = l.
Proof.
  rewrite length_take. destruct (decide (n <= length l)%nat).
  - rewrite Nat.min_l by done. apply take_drop.
  - rewrite Nat.min_r by lia. rewrite take_ge, drop_all by lia. apply app_nil_r.
Qed.

Section Relocation.
Variables (rb ob : string -> bool) (np : nat) (tr : list event).
Variables (path new_path : string) (c : list byte) (D0 : list fdesc).
Hypothesis Hdiff : path <> new_path.

(** Copying in chunks: with enough fuel the new file ends up holding what
    it held followed by the rest of the source; otherwise fuel runs out. *)
Lemma copy_entry_run (chunk : Z) (fuel : nat) :
  0 < chunk ->
  forall (F : gmap string (list byte)) (cn : list byte) (ppos : nat),
    F !! path = Some c -> F !! new_path = Some cn ->
    let data := take_z chunk (drop ppos c) in
    let r := copy_entry fuel (length D0) (S (length D0)) chunk data
               (mk_world F
                  (D0 ++ [mk_fdesc path (ppos + length data) false;
                          mk_fdesc new_path (length cn) false])
                  rb ob np tr) in
    (r = (Ret tt,
          mk_world (<[new_path := cn ++ drop ppos c]> F)
            (D0 ++ [mk_fdesc path (ppos + length (drop ppos c)) false;
                    mk_fdesc new_path (length (cn ++ drop ppos c)) false])
            rb ob np tr))
    \/ (fst r = OutOfFuel /\ (fuel < length (drop ppos c))%nat
        /\ length (fds (snd r)) = S (S (length D0))).
Proof.
  intros Hchunk. induction fuel as [|fuel IH]; intros F cn ppos Hp Hn; cbv zeta.
  - destruct (take_z chunk (drop ppos c)) as [|b data'] eqn:Edata.
    + left. cbn [copy_entry ret].
      assert (drop ppos c = []) as ->.
      { rewrite take_z_take in Edata.
        destruct (drop ppos c); [done|].
        destruct (Z.to_nat chunk) eqn:E; [lia|done]. }
      rewrite app_nil_r, insert_id by done. simpl. by rewrite !Nat.add_0_r.
    + right. split; [done|]. split.
      * rewrite take_z_take in Edata.
        destruct (drop ppos c); [by destruct (Z.to_nat chunk)|simpl; lia].
      * simpl. rewrite length_app. simpl. lia.
  - destruct (take_z chunk (drop ppos c)) as [|b data'] eqn:Edata.
    + left. cbn [copy_entry ret].
      assert (drop ppos c = []) as ->.
      { rewrite take_z_take in Edata.
        destruct (drop ppos c); [done|].
        destruct (Z.to_nat chunk) eqn:E; [lia|done]. }
      rewrite app_nil_r, insert_id by done. simpl. by rewrite !Nat.add_0_r.
    + set (data := b :: data') in *.
      assert (Hrest : data ++ drop (ppos + length data) c = drop ppos c).
      { rewrite <- Edata. rewrite !take_z_take. rewrite <- drop_drop.
        apply take_drop_length. }
      assert (Hstep :
        copy_entry (S fuel) (length D0) (S (length D0)) chunk data
          (mk_world F
             (D0 ++ [mk_fdesc path (ppos + length data) false;
                     mk_fdesc new_path (length cn) false]) rb ob np tr) =
        copy_entry fuel (length D0) (S (length D0)) chunk
          (take_z chunk (drop (ppos + length data) c))
          (mk_world (<[new_path := cn ++ data]> F)
             (D0 ++ [mk_fdesc path
                       (ppos + length data
                        + length (take_z chunk (drop (ppos + length data) c))) false;
                     mk_fdesc new_path (length (cn ++ data)) false]) rb ob np tr)).
      { unfold data at 1. cbn [copy_entry]. fold data.
        unfold bind at 1.
        erewrite f_write_ok; [|apply lookup_succ|exact Hn]. cbv beta iota.
        rewrite insert_succ, write_at_end.
        unfold bind at 1.
        erewrite f_read_ok; [|apply lookup_pre|by rewrite lookup_insert_ne].
        cbv zeta beta iota. destruct (chunk <? 0) eqn:E; [lia|].
        rewrite insert_pre. by rewrite length_app. }
      rewrite Hstep.
      specialize (IH (<[new_path := cn ++ data]> F) (cn ++ data) (ppos + length data)%nat).
      cbv zeta in IH.
      destruct IH as [IH|(IH1 & IH2 & IH3)];
        [by rewrite lookup_insert_ne | by rewrite lookup_insert_eq | |].
      * left. rewrite IH. rewrite insert_insert_eq, <- app_assoc, Hrest.
        assert (Hlen : (ppos + length data + length (drop (ppos + length data) c)
                        = ppos + length (drop ppos c))%nat).
        { rewrite <- Hrest. rewrite length_app. lia. }
        by rewrite Hlen.
      * right. split; [exact IH1|]. split; [|exact IH3].
        rewrite <- Hrest, length_app.
        assert (0 < length data)%nat by (unfold data; simpl; lia). lia.
Qed.

End Relocation.

Section RelocationLoop.
Variables (F : gmap string (list byte)) (rb ob : string -> bool).
Variables (ps : nat -> string) (path : string).

Lemma relocate_step (fuel inner : nat) (D : list fdesc) (np : nat) (tr : list event)
    (rec : record) :
  relocate (S fuel) inner ps path (mk_hstate (mk_world F D rb ob np tr) rec) =
    match relocate_body inner path (ps np)
            (mk_hstate (mk_world F D rb ob (S np) tr) rec) with
    | (Ret (Break f), s') => (Ret f, s')
    | (Ret NextIteration, s') => relocate fuel inner ps path s'
    | (Raise e, s') =>
        if is_OSError e then relocate fuel inner ps path s' else (Raise e, s')
    | (OutOfFuel, s') => (OutOfFuel, s')
    end.
Proof.
  cbn [relocate]. unfold bind at 1. unfold call_path_server at 1.
  cbn [hw hrec next_path set_next_path files fds rename_busy open_busy trace].
  unfold bind, try_except.
  destruct (relocate_body inner path (ps np) _) as [[[f|]|e|] s']; try done.
  destruct (is_OSError e); done.
Qed.

(** An existing candidate that passes the probe is opened and left behind. *)
Lemma relocate_body_existing (inner : nat) (new_path : string) (cx : list byte)
    (D : list fdesc) (np : nat) (tr : list event) (rec : record) :
  F !! new_path = Some cx -> rb new_path = false -> ob new_path = false ->
  relocate_body inner path new_path (mk_hstate (mk_world F D rb ob np tr) rec) =
    (Ret NextIteration,
     mk_hstate
       (mk_world F (D ++ [mk_fdesc new_path 0 false]) rb ob np
                 (tr ++ [EvOpen new_path RBplus]))
       (set_o (PHandle (length D)) rec)).
Proof.
  intros Hc Hrb Hob. unfold relocate_body. unfold bind at 1.
  unfold lift_w at 1, os_path_exists. cbn [hw hrec files]. rewrite Hc.
  unfold bind.
  erewrite lift_w_eq by (by eapply os_rename_self_ok).
  erewrite lift_w_eq by (by eapply py_open_rb_ok).
  done.
Qed.

(** A candidate that does not exist receives a copy of the entry, and the
    loop ends there, unless the copy runs out of fuel. *)
Lemma relocate_body_fresh (inner : nat) (new_path : string) (c : list byte)
    (D : list fdesc) (np : nat) (tr : list event) (rec : record) :
  F !! new_path = None -> F !! path = Some c ->
  ob path = false -> ob new_path = false ->
  relocate_body inner path new_path (mk_hstate (mk_world F D rb ob np tr) rec) =
    (Ret (Break (S (length D))),
     mk_hstate
       (mk_world (<[new_path := c]> F)
          (D ++ [mk_fdesc path (length c) true; mk_fdesc new_path (length c) false])
          rb ob np (tr ++ [EvOpen path RBplus; EvOpen new_path WBplus; EvClose path]))
       (set_o (PHandle (S (length D))) rec))
  \/ (fst (relocate_body inner path new_path
             (mk_hstate (mk_world F D rb ob np tr) rec)) = OutOfFuel
      /\ (inner < length c)%nat).
Proof.
  intros Hn Hp Hobp Hobn.
  assert (Hdiff : path <> new_path) by congruence.
  set (W1 := mk_world (<[new_path := []]> F)
               (D ++ [mk_fdesc path (0 + length (take_z 10000000 (drop 0 c))) false;
                      mk_fdesc new_path 0 false])
               rb ob np ((tr ++ [EvOpen path RBplus]) ++ [EvOpen new_path WBplus])).
  assert (Hbody :
    relocate_body inner path new_path (mk_hstate (mk_world F D rb ob np tr) rec) =
    match copy_entry inner (length D) (S (length D)) 10000000
            (take_z 10000000 (drop 0 c)) W1 with
    | (Ret _, w') =>
        match f_close (length D) w' with
        | (Ret _, w'') =>
            (Ret (Break (S (length D))),
             mk_hstate w'' (set_o (PHandle (S (length D))) rec))
        | (Raise e, w'') => (Raise e, mk_hstate w'' (set_o (PHandle (S (length D))) rec))
        | (OutOfFuel, w'') => (OutOfFuel, mk_hstate w'' (set_o (PHandle (S (length D))) rec))
        end
    | (Raise e, w') =>
        match f_close (length D) w' with
        | (Ret _, w'') => (Raise e, mk_hstate w'' (set_o (PHandle (S (length D))) rec))
        | (Raise e', w'') => (Raise e', mk_hstate w'' (set_o (PHandle (S (length D))) rec))
        | (OutOfFuel, w'') => (OutOfFuel, mk_hstate w'' (set_o (PHandle (S (length D))) rec))
        end
    | (OutOfFuel, w') =>
        match f_close (length D) w' with
        | (Ret _, w'') => (OutOfFuel, mk_hstate w'' (set_o (PHandle (S (length D))) rec))
        | (Raise e', w'') => (Raise e', mk_hstate w'' (set_o (PHandle (S (length D))) rec))
        | (OutOfFuel, w'') => (OutOfFuel, mk_hstate w'' (set_o (PHandle (S (length D))) rec))
        end
    end).
  { unfold relocate_body. unfold bind at 1.
    unfold lift_w at 1, os_path_exists. cbn [hw hrec files]. rewrite Hn.
    unfold bind at 1.
    erewrite lift_w_eq by (by eapply py_open_rb_ok).
    unfold bind at 1. unfold finally.
    unfold bind at 1.
    erewrite lift_w_eq by (by eapply py_open_wb_ok).
    rewrite length_app. cbn [length]. rewrite Nat.add_1_r.
    rewrite <- (app_assoc D). cbn [app].
    unfold bind at 1. unfold upd_rec at 1. cbv beta iota. cbn [hw hrec].
    unfold bind at 1.
    erewrite lift_w_eq;
      [|eapply (f_read_ok _ _ _ _ _ _ (length D) path 0 c (Some 10000000));
        [apply lookup_pre|by rewrite lookup_insert_ne]].
    cbv zeta. change (10000000 <? 0) with false. cbv iota.
    rewrite insert_pre.
    unfold bind at 1. unfold lift_w at 1. cbn [hw hrec]. fold W1.
    destruct (copy_entry inner (length D) (S (length D)) 10000000
                (take_z 10000000 (drop 0 c)) W1) as [[[]|e|] w'];
      unfold lift_w, ret; cbn [hw hrec];
      destruct (f_close (length D) w') as [[[]|e'|] w'']; done. }
  rewrite Hbody.
  destruct (copy_entry_run rb ob np ((tr ++ [EvOpen path RBplus]) ++ [EvOpen new_path WBplus])
              path new_path c D Hdiff 10000000 inner ltac:(lia)
              (<[new_path := []]> F) [] 0%nat)
    as [Hrun|(Hout & Hlt & Hlen)];
    [by rewrite lookup_insert_ne|by rewrite lookup_insert_eq| |].
  - left. cbv zeta in Hrun. change (length (@nil byte)) with 0%nat in Hrun.
    fold W1 in Hrun. rewrite Hrun.
    erewrite f_close_ok by apply lookup_pre.
    cbn [fd_name fd_pos]. rewrite insert_pre, insert_insert_eq.
    rewrite drop_0. cbn [app]. rewrite Nat.add_0_l.
    by rewrite <- !app_assoc.
  - right. split; [|by rewrite drop_0 in Hlt].
    cbv zeta in Hout, Hlen. change (length (@nil byte)) with 0%nat in Hout, Hlen.
    fold W1 in Hout, Hlen.
    destruct (copy_entry inner (length D) (S (length D)) 10000000
                (take_z 10000000 (drop 0 c)) W1) as [[[]|e|] w'] eqn:Ecopy;
      simpl in Hout; try done.
    simpl in Hlen.
    destruct (lookup_lt_is_Some_2 (fds w') (length D)) as [d Hd]; [lia|].
    destruct w' as [F' D' rb' ob' np' tr']. simpl in Hd.
    by erewrite f_close_ok.
Qed.

Lemma relocate_body_rename_busy (inner : nat) (new_path : string) (cx : list byte)
    (D : list fdesc) (np : nat) (tr : list event) (rec : record) :
  F !! new_path = Some cx -> rb new_path = true ->
  relocate_body inner path new_path (mk_hstate (mk_world F D rb ob np tr) rec) =
    (Raise OSError, mk_hstate (mk_world F D rb ob np tr) rec).
Proof.
  intros Hn Hrb. unfold relocate_body. unfold bind at 1.
  erewrite lift_w_eq by apply os_path_exists_eq. rewrite Hn.
  unfold bind at 1.
  by erewrite lift_w_eq by (by eapply os_rename_self_busy).
Qed.

Lemma relocate_body_open_busy (inner : nat) (new_path : string) (cx : list byte)
    (D : list fdesc) (np : nat) (tr : list event) (rec : record) :
  F !! new_path = Some cx -> rb new_path = false -> ob new_path = true ->
  relocate_body inner path new_path (mk_hstate (mk_world F D rb ob np tr) rec) =
    (Raise OSError, mk_hstate (mk_world F D rb ob np tr) rec).
Proof.
  intros Hn Hrb Hob. unfold relocate_body. unfold bind at 1.
  erewrite lift_w_eq by apply os_path_exists_eq. rewrite Hn.
  unfold bind at 1.
  erewrite lift_w_eq by (by eapply os_rename_self_ok).
  unfold bind at 1.
  by erewrite lift_w_eq by (by eapply py_open_busy).
Qed.

Lemma relocate_body_source_busy (inner : nat) (new_path : string)
    (D : list fdesc) (np : nat) (tr : list event) (rec : record) :
  F !! new_path = None -> ob path = true ->
  relocate_body inner path new_path (mk_hstate (mk_world F D rb ob np tr) rec) =
    (Raise OSError, mk_hstate (mk_world F D rb ob np tr) rec).
Proof.
  intros Hn Hob. unfold relocate_body. unfold bind at 1.
  erewrite lift_w_eq by apply os_path_exists_eq. rewrite Hn.
  unfold bind at 1.
  by erewrite lift_w_eq by (by eapply py_open_busy).
Qed.

Lemma relocate_body_source_missing (inner : nat) (new_path : string)
    (D : list fdesc) (np : nat) (tr : list event) (rec : record) :
  F !! new_path = None -> F !! path = None ->
  relocate_body inner path new_path (mk_hstate (mk_world F D rb ob np tr) rec) =
    (Raise OSError, mk_hstate (mk_world F D rb ob np tr) rec).
Proof.
  intros Hn Hp. unfold relocate_body. unfold bind at 1.
  erewrite lift_w_eq by apply os_path_exists_eq. rewrite Hn.
  unfold bind at 1.
  by erewrite lift_w_eq by (by eapply py_open_rb_missing).
Qed.

Lemma relocate_body_create_fails (inner : nat) (new_path : string) (c : list byte)
    (D : list fdesc) (np : nat) (tr : list event) (rec : record) :
  F !! new_path = None -> F !! path = Some c -> ob path = false -> ob new_path = true ->
  relocate_body inner path new_path (mk_hstate (mk_world F D rb ob np tr) rec) =
    (Raise OSError,
     mk_hstate
       (mk_world F (D ++ [mk_fdesc path 0 true]) rb ob np
                 (tr ++ [EvOpen path RBplus; EvClose path]))
       rec).
Proof.
  intros Hn Hp Hobp Hobn. unfold relocate_body. unfold bind at 1.
  erewrite lift_w_eq by apply os_path_exists_eq. rewrite Hn.
  unfold bind at 1.
  erewrite lift_w_eq by (by eapply py_open_rb_ok).
  unfold bind at 1. unfold finally. unfold bind at 1.
  erewrite lift_w_eq by (by eapply py_open_busy).
  cbv iota.
  erewrite lift_w_eq by (eapply f_close_ok; apply lookup_last).
  cbn [fd_name fd_pos]. by rewrite insert_last, <- app_assoc.
Qed.

(** Every pass through the loop body either ends the loop on a candidate
    that did not exist, or leaves all files as they were. *)
Lemma relocate_body_cases (inner : nat) (new_path : string)
    (D : list fdesc) (np : nat) (tr : list event) (rec : record) :
  let r := relocate_body inner path new_path (mk_hstate (mk_world F D rb ob np tr) rec) in
  (exists c, F !! new_path = None /\ F !! path = Some c /\
             ob path = false /\ ob new_path = false /\
             r = (Ret (Break (S (length D))),
                  relocated F rb ob path new_path c D np tr rec))
  \/ ((fst r = Ret NextIteration \/ fst r = Raise OSError) /\
      exists D' tr' rec',
        snd r = mk_hstate (mk_world F D' rb ob np tr') rec' /\ same_meta rec' rec)
  \/ (fst r = OutOfFuel /\ exists c, F !! path = Some c /\ (inner < length c)%nat).
Proof.
  cbv zeta.
  destruct (F !! new_path) as [cx|] eqn:Hn.
  - (* the candidate exists *)
    right. left.
    destruct (rb new_path) eqn:Hrb.
    { erewrite relocate_body_rename_busy by done. simpl. split; [eauto|]. by eexists _, _, _. }
    destruct (ob new_path) eqn:Hob.
    { erewrite relocate_body_open_busy by done. simpl. split; [eauto|]. by eexists _, _, _. }
    erewrite relocate_body_existing by done. simpl. split; [eauto|].
    by eexists _, _, _.
  - (* the candidate does not exist *)
    destruct (ob path) eqn:Hobp.
    { right. left. erewrite relocate_body_source_busy by done. simpl. split; [eauto|]. by eexists _, _, _. }
    destruct (F !! path) as [c|] eqn:Hp.
    2:{ right. left. erewrite relocate_body_source_missing by done. simpl. split; [eauto|]. by eexists _, _, _. }
    destruct (ob new_path) eqn:Hobn.
    { right. left. erewrite relocate_body_create_fails by done. simpl. split; [eauto|]. by eexists _, _, _. }
    destruct (relocate_body_fresh inner new_path c D np tr rec Hn Hp Hobp Hobn)
      as [Hr|[Hr Hlt]].
    + left. exists c. by rewrite Hr.
    + right. right. eauto.
Qed.

(** The only way out of the loop: some candidate did not exist and now
    holds a copy of the entry. *)
Lemma relocate_exit (inner fuel : nat) :
  forall (D : list fdesc) (np : nat) (tr : list event) (rec : record)
         (f : nat) (s' : hstate),
    relocate fuel inner ps path (mk_hstate (mk_world F D rb ob np tr) rec) = (Ret f, s') ->
    exists (i : nat) (c : list byte) D' tr' rec',
      F !! ps (np + i)%nat = None /\ F !! path = Some c /\
      f = S (length D') /\ same_meta rec' rec /\
      s' = relocated F rb ob path (ps (np + i)%nat) c D' (S (np + i)) tr' rec'.
Proof.
  induction fuel as [|fuel IH]; intros D np tr rec f s' Hrun; [done|].
  rewrite relocate_step in Hrun.
  destruct (relocate_body_cases inner (ps np) D (S np) tr rec)
    as [(c & Hn & Hp & _ & _ & Hr)|[([Hr|Hr] & D' & tr' & rec' & Hs & Hm)|[Hr _]]];
    cbv zeta in Hr.
  - rewrite Hr in Hrun. injection Hrun as <- <-.
    exists 0%nat, c, D, tr, rec. rewrite Nat.add_0_r. done.
  - destruct (relocate_body inner path (ps np) _) as [r s1]. simpl in Hr, Hs. subst r s1.
    apply IH in Hrun as (i & c & D2 & tr2 & rec2 & Hn & Hp & Hf & Hm2 & Hs).
    exists (S i), c, D2, tr2, rec2.
    replace (np + S i)%nat with (S np + i)%nat by lia.
    repeat split; try done. unfold same_meta in *. congruence.
  - destruct (relocate_body inner path (ps np) _) as [r s1]. simpl in Hr, Hs. subst r s1.
    change (is_OSError OSError) with true in Hrun. cbv iota in Hrun.
    apply IH in Hrun as (i & c & D2 & tr2 & rec2 & Hn & Hp & Hf & Hm2 & Hs).
    exists (S i), c, D2, tr2, rec2.
    replace (np + S i)%nat with (S np + i)%nat by lia.
    repeat split; try done. unfold same_meta in *. congruence.
  - destruct (relocate_body inner path (ps np) _) as [r s1]. simpl in Hr. by subst r.
Qed.

(** The loop does end when the path service comes up with a candidate
    that does not exist and can be created. *)
Lemma relocate_total (inner : nat) (c : list byte) (fuel : nat) :
  F !! path = Some c -> ob path = false -> (length c <= inner)%nat ->
  forall (i : nat) (D : list fdesc) (np : nat) (tr : list event) (rec : record),
    (i < fuel)%nat ->
    F !! ps (np + i)%nat = None -> ob (ps (np + i)%nat) = false ->
    exists f s',
      relocate fuel inner ps path (mk_hstate (mk_world F D rb ob np tr) rec) = (Ret f, s').
Proof.
  intros Hp Hobp Hinner.
  induction fuel as [|fuel IH]; intros i D np tr rec Hi Hn Hobn; [lia|].
  rewrite relocate_step.
  destruct (relocate_body_cases inner (ps np) D (S np) tr rec)
    as [(c' & _ & _ & _ & _ & Hr)
       |[([Hr|Hr] & D' & tr' & rec' & Hs & _)|(Hr & c' & Hp' & Hlt)]];
    cbv zeta in Hr.
  - rewrite Hr. eauto.
  - destruct (relocate_body inner path (ps np) _) as [r s1] eqn:Eb.
    simpl in Hr, Hs. subst r s1.
    destruct i as [|i].
    + (* this candidate is the free one: the body cannot have gone on *)
      rewrite Nat.add_0_r in Hn, Hobn.
      destruct (relocate_body_fresh inner (ps np) c D (S np) tr rec Hn Hp Hobp Hobn)
        as [Hf|[_ Hlt]]; [|lia].
      rewrite Hf in Eb. done.
    + apply (IH i); [lia| |];
        by replace (S np + i)%nat with (np + S i)%nat by lia.
  - destruct (relocate_body inner path (ps np) _) as [r s1] eqn:Eb.
    simpl in Hr, Hs. subst r s1.
    change (is_OSError OSError) with true. cbv iota.
    destruct i as [|i].
    + rewrite Nat.add_0_r in Hn, Hobn.
      destruct (relocate_body_fresh inner (ps np) c D (S np) tr rec Hn Hp Hobp Hobn)
        as [Hf|[_ Hlt]]; [|lia].
      rewrite Hf in Eb. done.
    + apply (IH i); [lia| |];
        by replace (S np + i)%nat with (np + S i)%nat by lia.
  - rewrite Hp in Hp'. injection Hp' as <-. lia.
Qed.

End RelocationLoop.

(** *** Contention *)

Lemma open_entry_contended (fuel : nat) (ps : nat -> string) (path : string)
    (F : gmap string (list byte)) (D : list fdesc) (rb ob : string -> bool)
    (np : nat) (tr : list event) (rec : record) :
  rb path = true ->
  open_entry fuel ps path (mk_hstate (mk_world F D rb ob np tr) rec) =
    relocate fuel fuel ps path (mk_hstate (mk_world F D rb ob np tr) rec).
Proof.
  intros Hrb. unfold open_entry, try_except. unfold bind at 1.
  by erewrite lift_w_eq by (by eapply os_rename_self_busy).
Qed.

(** C9: the retry loop never ends on a candidate that already exists.  A
    candidate that exists, passes the self-rename probe and is opened is
    left behind and the loop asks for the next one; and whenever the loop
    does end, it ends on a candidate that did not exist, which by then
    holds a copy of the original entry. *)
Theorem relocation_never_adopts (F : gmap string (list byte)) (rb ob : string -> bool)
    (ps : nat -> string) (path : string) (inner fuel : nat)
    (D : list fdesc) (np : nat) (tr : list event) (rec : record) :
  (forall cx,
     F !! ps np = Some cx -> rb (ps np) = false -> ob (ps np) = false ->
     relocate (S fuel) inner ps path (mk_hstate (mk_world F D rb ob np tr) rec) =
     relocate fuel inner ps path
       (mk_hstate
          (mk_world F (D ++ [mk_fdesc (ps np) 0 false]) rb ob (S np)
                    (tr ++ [EvOpen (ps np) RBplus]))
          (set_o (PHandle (length D)) rec)))
  /\
  (forall f s',
     relocate fuel inner ps path (mk_hstate (mk_world F D rb ob np tr) rec) = (Ret f, s') ->
     exists (i : nat) (c : list byte) D' tr' rec',
       F !! ps (np + i)%nat = None /\ F !! path = Some c /\
       f = S (length D') /\ same_meta rec' rec /\
       s' = relocated F rb ob path (ps (np + i)%nat) c D' (S (np + i)) tr' rec').
Proof.
  split.
  - intros cx Hc Hrb Hob. rewrite relocate_step.
    by erewrite relocate_body_existing.
  - intros f s'. apply relocate_exit.
Qed.

Lemma relocation_never_adopts_witness :
  relocate 2 2 demo_paths "a.bin"
    (mk_hstate (mk_world contended_files [] busy_a never 1 []) blank_record) =
  relocate 1 2 demo_paths "a.bin"
    (mk_hstate
       (mk_world contended_files [mk_fdesc "b.bin" 0 false] busy_a never 2
                 [EvOpen "b.bin" RBplus])
       (set_o (PHandle 0) blank_record))
  /\
  exists (i : nat) (c : list byte) D' tr' rec',
    contended_files !! demo_paths (1 + i) = None /\
    contended_files !! "a.bin" = Some c /\
    2%nat = S (length D') /\ same_meta rec' blank_record /\
    snd (relocate 2 2 demo_paths "a.bin"
           (mk_hstate (mk_world contended_files [] busy_a never 1 []) blank_record)) =
    relocated contended_files busy_a never "a.bin" (demo_paths (1 + i)) c D'
              (S (1 + i)) tr' rec'.
Proof.
  destruct (relocation_never_adopts contended_files busy_a never demo_paths "a.bin"
              2 1 [] 1 [] blank_record) as [Hskip _].
  destruct (relocation_never_adopts contended_files busy_a never demo_paths "a.bin"
              2 2 [] 1 [] blank_record) as [_ Hexit].
  split.
  - apply (Hskip (ramp 3)); vm_compute; reflexivity.
  - apply (Hexit 2%nat). vm_compute. reflexivity.
Defined.

(** *** Whole runs of the resolver *)

Lemma name_for_meta (m : master) (a b : record) (file : string) :
  r_is_series a = r_is_series b -> r_name a = r_name b ->
  name_for m a file = name_for m b file.
Proof. intros H1 H2. unfold name_for. by rewrite H1, H2. Qed.

Section Runs.
Context {L : AudioLib}.
Variables (fuel : nat) (ps : nat -> string) (m : master).
Variables (sfo sno sro : option Z).

Lemma handle_unfold (dec : option payload) (safe : bool)
    (F : gmap string (list byte)) (D : list fdesc) (rb ob : string -> bool)
    (np : nat) (tr : list event) (rec : record) :
  handle_cached_record fuel ps m dec sfo sno sro safe
      (mk_hstate (mk_world F D rb ob np tr) rec) =
    match try_except
            (try_cached fuel ps m (ps np) (target_format m sfo)
               (target_nchannels m sno) (target_rate m sro) safe)
            is_DecodeError (rebuild fuel m (ps np) dec)
            (mk_hstate (mk_world F D rb ob (S np) tr) rec) with
    | (Ret _, s') => finish m s'
    | (Raise e, s') => (Raise e, s')
    | (OutOfFuel, s') => (OutOfFuel, s')
    end.
Proof. reflexivity. Qed.

(** A miss: the path is not in the cache list, the decoder supplies bytes. *)
Lemma handle_miss_run (safe : bool) (p : list byte)
    (F : gmap string (list byte)) (D : list fdesc) (rb ob : string -> bool)
    (np : nat) (tr : list event) (rec rec2 : record) (nm : option string) :
  let path := ps np in
  let rec1 := set_size (Z.of_nat (length p) + CACHE_INFO m) (set_o (PBytes p) rec) in
  mem_string path (m_cache m) = false ->
  header_in_range (entry_header rec1) ->
  0 <= CACHE_INFO m ->
  path <> EmptyString ->
  ob path = false ->
  compute_duration (set_o (PHandle (length D)) rec1) = Ret rec2 ->
  name_for m rec path = Ret nm ->
  handle_cached_record fuel ps m (Some (PBytes p)) sfo sno sro safe
      (mk_hstate (mk_world F D rb ob np tr) rec) =
    (Ret (set_name nm rec2),
     mk_hstate
       (mk_world (<[path := header_bytes (entry_header rec1) ++ p]> F)
                 (D ++ [mk_fdesc path (Z.to_nat (CACHE_INFO m)) false]) rb ob (S np)
                 (tr ++ [EvDecoder; EvOpen path WBplus]))
       (set_name nm rec2)).
Proof.
  intros path rec1 Hmem Hr Hci Hne Hob Hdur Hnm.
  rewrite handle_unfold. unfold try_except.
  rewrite try_cached_miss by done.
  change (is_DecodeError DecodeError) with true. cbv iota.
  fold path. rewrite rebuild_bytes by done. fold rec1.
  eapply finish_ok; [done|apply lookup_last|done|].
  cbn [fd_name]. rewrite <- Hnm. by apply name_for_meta.
Qed.

(** The entry was opened, and its header does not decode. *)
Lemma handle_corrupt_run (safe : bool) (p : list byte)
    (F : gmap string (list byte)) (D : list fdesc) (rb ob : string -> bool)
    (np : nat) (tr : list event) (rec : record)
    (f : nat) (n : string) (pos : nat) (c : list byte)
    (F1 : gmap string (list byte)) (D1 : list fdesc) (rb1 ob1 : string -> bool)
    (np1 : nat) (tr1 : list event) (rec1 rec3 : record) (nm : option string) :
  let path := ps np in
  let rec2 := set_size (Z.of_nat (length p) + CACHE_INFO m) (set_o (PBytes p) rec1) in
  mem_string path (m_cache m) = true ->
  open_entry fuel ps path (mk_hstate (mk_world F D rb ob (S np) tr) rec) =
    (Ret f, mk_hstate (mk_world F1 D1 rb1 ob1 np1 tr1) rec1) ->
  D1 !! f = Some (mk_fdesc n pos false) ->
  F1 !! n = Some c ->
  length (take_z (CACHE_INFO m) c) <> 32%nat ->
  rb1 n = false ->
  0 <= CACHE_INFO m ->
  header_in_range (entry_header rec2) ->
  path <> EmptyString ->
  ob1 path = false ->
  compute_duration (set_o (PHandle (length D1)) rec2) = Ret rec3 ->
  name_for m rec1 path = Ret nm ->
  handle_cached_record fuel ps m (Some (PBytes p)) sfo sno sro safe
      (mk_hstate (mk_world F D rb ob np tr) rec) =
    (Ret (set_name nm rec3),
     mk_hstate
       (mk_world (<[path := header_bytes (entry_header rec2) ++ p]> (delete n F1))
          (<[f := mk_fdesc n (length (take_z (CACHE_INFO m) c)) true]> D1
             ++ [mk_fdesc path (Z.to_nat (CACHE_INFO m)) false])
          rb1 ob1 np1
          (tr1 ++ [EvClose n; EvRemove n; EvDecoder; EvOpen path WBplus]))
       (set_name nm rec3)).
Proof.
  intros path rec2 Hmem Hopen Hd Hc Hlen Hrb Hci Hr Hne Hob Hdur Hnm.
  rewrite handle_unfold. unfold try_except. fold path.
  erewrite try_cached_corrupt by eauto.
  change (is_DecodeError DecodeError) with true. cbv iota.
  rewrite rebuild_bytes by done. fold rec2.
  rewrite length_insert, <- app_assoc. cbn [app].
  eapply finish_ok; [done| |done|].
  - rewrite <- (length_insert D1 f (mk_fdesc n (length (take_z (CACHE_INFO m) c)) true)).
    apply lookup_last.
  - cbn [fd_name]. rewrite <- Hnm. by apply name_for_meta.
Qed.

(** The entry was opened, its header decodes, and nothing is rewritten:
    the formats match, or safe loading is off. *)
Lemma handle_reuse_run (dec : option payload) (safe : bool)
    (F : gmap string (list byte)) (D : list fdesc) (rb ob : string -> bool)
    (np : nat) (tr : list event) (rec : record)
    (f : nat) (n : string) (pos : nat) (c : list byte) (h : header)
    (F1 : gmap string (list byte)) (D1 : list fdesc) (rb1 ob1 : string -> bool)
    (np1 : nat) (tr1 : list event) (rec1 rec3 : record) (nm : option string) :
  let path := ps np in
  mem_string path (m_cache m) = true ->
  open_entry fuel ps path (mk_hstate (mk_world F D rb ob (S np) tr) rec) =
    (Ret f, mk_hstate (mk_world F1 D1 rb1 ob1 np1 tr1) rec1) ->
  r_o rec1 = PHandle f ->
  D1 !! f = Some (mk_fdesc n pos false) ->
  F1 !! n = Some c ->
  decode_header (take_z (CACHE_INFO m) c) = Ret h ->
  format_matches h (target_format m sfo) (target_nchannels m sno) (target_rate m sro)
    = true \/ safe = false ->
  compute_duration (with_header h rec1) = Ret rec3 ->
  name_for m rec1 n = Ret nm ->
  handle_cached_record fuel ps m dec sfo sno sro safe
      (mk_hstate (mk_world F D rb ob np tr) rec) =
    (Ret (set_name nm rec3),
     mk_hstate
       (mk_world F1 (<[f := mk_fdesc n (length (take_z (CACHE_INFO m) c)) false]> D1)
                 rb1 ob1 np1 tr1)
       (set_name nm rec3)).
Proof.
  intros path Hmem Hopen Ho Hd Hc Hdec Hcase Hdur Hnm.
  assert (Hfd : (f < length D1)%nat) by (eapply lookup_lt_Some; eauto).
  rewrite handle_unfold. unfold try_except. fold path.
  erewrite try_cached_reuse by eauto.
  eapply finish_ok; [by destruct rec1|by apply list_lookup_insert_eq|done|].
  cbn [fd_name]. rewrite <- Hnm. apply name_for_meta; by destruct rec1.
Qed.

(** The entry was opened, its header decodes, the formats differ and safe
    loading is on: the payload is synchronized and the entry rewritten. *)
Lemma handle_resync_run (dec : option payload)
    (F : gmap string (list byte)) (D : list fdesc) (rb ob : string -> bool)
    (np : nat) (tr : list event) (rec : record)
    (f : nat) (n : string) (pos : nat) (c : list byte) (h : header)
    (F1 : gmap string (list byte)) (D1 : list fdesc) (rb1 ob1 : string -> bool)
    (np1 : nat) (tr1 : list event) (rec1 rec2 rec3 : record) (out : list byte)
    (nm : option string) :
  let path := ps np in
  mem_string path (m_cache m) = true ->
  open_entry fuel ps path (mk_hstate (mk_world F D rb ob (S np) tr) rec) =
    (Ret f, mk_hstate (mk_world F1 D1 rb1 ob1 np1 tr1) rec1) ->
  D1 !! f = Some (mk_fdesc n pos false) ->
  F1 !! n = Some c ->
  decode_header (take_z (CACHE_INFO m) c) = Ret h ->
  format_matches h (target_format m sfo) (target_nchannels m sno) (target_rate m sro)
    = false ->
  synchronize_audio
    (set_o (PBytes (drop (length (take_z (CACHE_INFO m) c)) c)) (with_header h rec1))
    (target_nchannels m sno) (target_rate m sro) (target_format m sfo) "byte"
    = Ret rec2 ->
  r_o rec2 = PBytes out ->
  header_in_range (entry_header rec2) ->
  compute_duration (set_o (PHandle f) rec2) = Ret rec3 ->
  name_for m rec2 n = Ret nm ->
  handle_cached_record fuel ps m dec sfo sno sro true
      (mk_hstate (mk_world F D rb ob np tr) rec) =
    (Ret (set_name nm rec3),
     mk_hstate
       (mk_world (<[n := header_bytes (entry_header rec2) ++ out]> F1)
                 (<[f := mk_fdesc n (Z.to_nat (CACHE_INFO m)) false]> D1)
                 rb1 ob1 np1 tr1)
       (set_name nm rec3)).
Proof.
  intros path Hmem Hopen Hd Hc Hdec Hcase Hsync Hout Hr Hdur Hnm.
  assert (Hfd : (f < length D1)%nat) by (eapply lookup_lt_Some; eauto).
  rewrite handle_unfold. unfold try_except. fold path.
  erewrite try_cached_resync by eauto.
  eapply finish_ok; [done|by apply list_lookup_insert_eq|done|].
  cbn [fd_name]. rewrite <- Hnm. by apply name_for_meta.
Qed.

End Runs.

Lemma same_meta_fields (a b : record) :
  same_meta a b ->
  r_size a = r_size b /\ r_frameRate a = r_frameRate b /\ r_nchannels a = r_nchannels b
  /\ r_sampleFormat a = r_sampleFormat b /\ r_is_series a = r_is_series b
  /\ r_name a = r_name b.
Proof. unfold same_meta. destruct a, b. simpl. intros [=]. by subst. Qed.

Lemma header_in_range_check (h : header) :
  forallb in_u8 (header_fields h) = true -> header_in_range h.
Proof.
  unfold header_in_range. rewrite forallb_forall, Forall_forall.
  intros H v Hv. apply list_elem_of_In, H in Hv.
  unfold in_u8, two64 in Hv. apply andb_prop in Hv as [H1 H2]. lia.
Qed.

Lemma same_meta_with_header (a b : record) (h : header) (o : payload) :
  same_meta a b -> set_o o (with_header h a) = set_o o (with_header h b).
Proof. unfold same_meta. destruct a, b. simpl. intros [=]. by subst. Qed.

Lemma adjust_channels_meta {L : AudioLib} (xs : list sample) (dt : dtype)
    (rec rec1 : record) (n : Z) (a : ndarray) :
  adjust_channels xs dt rec n = Ret (a, rec1) ->
  r_is_series rec1 = r_is_series rec /\ r_name rec1 = r_name rec.
Proof.
  unfold adjust_channels. destruct (r_nchannels rec =? 1).
  - destruct (n >? r_nchannels rec); intros [= _ <-]; by destruct rec.
  - destruct (deinterleave _ _ _) as [streams| |]; [|done|done]. cbn [obind].
    destruct (np_append_axis0 _ _) as [a'| |]; [|done|done]. cbn [obind].
    by intros [= _ <-].
Qed.

(** A record that the synchronizer returns has a computable duration and
    is still the same kind of record, with the same name. *)
Lemma synchronize_audio_inv {L : AudioLib} (rec rec2 : record) (n sr : Z)
    (sf : option Z) (mode : string) :
  synchronize_audio rec n sr sf mode = Ret rec2 ->
  r_is_series rec2 = r_is_series rec /\ r_name rec2 = r_name rec /\
  exists w,
    get_sample_size (r_sampleFormat rec2) = Some w /\
    r_frameRate rec2 * r_nchannels rec2 * w <> 0.
Proof.
  unfold synchronize_audio.
  destruct (sample_form (r_sampleFormat rec)) as [form| |]; [|done|done]. cbn [obind].
  destruct (payload_buffer (r_o rec)) as [buf| |]; [|done|done]. cbn [obind].
  destruct (np_frombuffer buf form) as [arr| |]; [|done|done]. cbn [obind].
  destruct (match arr with
            | Arr1 dt xs => adjust_channels xs dt rec n
            | Arr2 _ _ => Raise TypeError
            end) as [[data rec1]| |] eqn:Eadj; [|done|done]. cbn [obind].
  assert (Hmeta : r_is_series rec1 = r_is_series rec /\ r_name rec1 = r_name rec).
  { destruct arr as [dt xs|]; [|done]. by eapply adjust_channels_meta. }
  destruct Hmeta as [Hs Hn].
  destruct (convert_rate data sr (r_frameRate rec1)) as [data'| |]; [|done|done].
  cbn [obind].
  destruct (sample_form sf) as [form'| |]; [|done|done]. cbn [obind].
  destruct (astype _ form') as [out| |]; [|done|done]. cbn [obind].
  destruct (payload_len _) as [len| |]; [|done|done]. cbn [obind].
  intros Hd. unfold compute_duration in Hd.
  destruct (get_sample_size _) as [w|] eqn:Ew; [|done].
  destruct (_ =? 0) eqn:E; [done|]. injection Hd as <-.
  apply Z.eqb_neq in E.
  destruct rec1, (startswith_b mode); simpl in *; subst; eauto.
Qed.

Section Contention.
Context {L : AudioLib}.

(** C8 (as the code has it): when the self-rename probe on the candidate
    path fails and the original entry is readable, the opening step settles
    on a path other than the candidate, one that did not exist before, and
    the file there holds the original entry byte for byte while the
    original is untouched; it does settle as soon as the path service
    yields a path that does not exist and can be created.  What the whole
    call returns then depends on the copied header.  When it decodes and
    nothing has to be rewritten, the returned handle is on the new path and
    the copy is intact.  When it decodes, the formats differ and safe
    loading is on, the returned handle is on the new path, but the file
    there has been rewritten with a new header and the synchronized
    payload; the original is untouched.  When it does not decode, the copy
    is closed and removed and the decoder's bytes are written to the
    candidate path itself: the returned handle is on the original path and
    no relocated file is left. *)
Theorem contention_relocates (fuel : nat) (ps : nat -> string) (path : string)
    (c : list byte) (F : gmap string (list byte)) (D : list fdesc)
    (rb ob : string -> bool) (np : nat) (tr : list event) (rec : record) :
  F !! path = Some c -> ob path = false -> rb path = true ->
  (forall f s',
     open_entry fuel ps path (mk_hstate (mk_world F D rb ob np tr) rec) = (Ret f, s') ->
     exists new_path,
       new_path <> path /\ F !! new_path = None /\
       fds (hw s') !! f = Some (mk_fdesc new_path (length c) false) /\
       r_o (hrec s') = PHandle f /\
       files (hw s') !! new_path = Some c /\
       files (hw s') !! path = Some c)
  /\
  (forall i,
     (i < fuel)%nat -> (length c <= fuel)%nat ->
     F !! ps (np + i)%nat = None -> ob (ps (np + i)%nat) = false ->
     exists f s',
       open_entry fuel ps path (mk_hstate (mk_world F D rb ob np tr) rec) = (Ret f, s'))
  /\
  (forall i m dec sfo sno sro safe h w,
     path = ps np ->
     (i < fuel)%nat -> (length c <= fuel)%nat ->
     F !! ps (S np + i)%nat = None -> ob (ps (S np + i)%nat) = false ->
     mem_string path (m_cache m) = true ->
     decode_header (take_z (CACHE_INFO m) c) = Ret h ->
     format_matches h (target_format m sfo) (target_nchannels m sno)
       (target_rate m sro) = true \/ safe = false ->
     get_sample_size (nonzero_or_none (sampleFormatId h)) = Some w ->
     hframeRate h * channelCount h * w <> 0 ->
     (forall k, exists nm, name_for m rec (ps k) = Ret nm) ->
     exists r s' f new_path pos,
       handle_cached_record fuel ps m dec sfo sno sro safe
         (mk_hstate (mk_world F D rb ob np tr) rec) = (Ret r, s') /\
       r_o r = PHandle f /\
       fds (hw s') !! f = Some (mk_fdesc new_path pos false) /\
       new_path <> path /\ F !! new_path = None /\
       files (hw s') !! new_path = Some c /\
       files (hw s') !! path = Some c)
  /\
  (forall i m dec sfo sno sro h rec2,
     path = ps np ->
     (i < fuel)%nat -> (length c <= fuel)%nat ->
     F !! ps (S np + i)%nat = None -> ob (ps (S np + i)%nat) = false ->
     mem_string path (m_cache m) = true ->
     decode_header (take_z (CACHE_INFO m) c) = Ret h ->
     format_matches h (target_format m sfo) (target_nchannels m sno)
       (target_rate m sro) = false ->
     synchronize_audio
       (set_o (PBytes (drop (length (take_z (CACHE_INFO m) c)) c)) (with_header h rec))
       (target_nchannels m sno) (target_rate m sro) (target_format m sfo) "byte"
       = Ret rec2 ->
     header_in_range (entry_header rec2) ->
     (forall k, exists nm, name_for m rec (ps k) = Ret nm) ->
     exists r s' f new_path pos out,
       handle_cached_record fuel ps m dec sfo sno sro true
         (mk_hstate (mk_world F D rb ob np tr) rec) = (Ret r, s') /\
       r_o r = PHandle f /\
       fds (hw s') !! f = Some (mk_fdesc new_path pos false) /\
       new_path <> path /\ F !! new_path = None /\
       r_o rec2 = PBytes out /\
       files (hw s') !! new_path = Some (header_bytes (entry_header rec2) ++ out) /\
       files (hw s') !! path = Some c)
  /\
  (forall i m sfo sno sro safe p w nm,
     path = ps np ->
     (i < fuel)%nat -> (length c <= fuel)%nat ->
     F !! ps (S np + i)%nat = None -> ob (ps (S np + i)%nat) = false ->
     mem_string path (m_cache m) = true ->
     0 <= CACHE_INFO m ->
     length (take_z (CACHE_INFO m) c) <> 32%nat ->
     (forall q, F !! q = None -> rb q = false) ->
     let hdr := entry_header (set_size (Z.of_nat (length p) + CACHE_INFO m) rec) in
     header_in_range hdr ->
     path <> EmptyString ->
     get_sample_size (r_sampleFormat rec) = Some w ->
     r_frameRate rec * r_nchannels rec * w <> 0 ->
     name_for m rec path = Ret nm ->
     exists r s' f pos,
       handle_cached_record fuel ps m (Some (PBytes p)) sfo sno sro safe
         (mk_hstate (mk_world F D rb ob np tr) rec) = (Ret r, s') /\
       r_o r = PHandle f /\
       fds (hw s') !! f = Some (mk_fdesc path pos false) /\
       files (hw s') = <[path := header_bytes hdr ++ p]> F).
Proof.
  intros Hp Hob Hrb. split; [|split; [|split; [|split]]].
  - intros f s' Hrun. rewrite open_entry_contended in Hrun by done.
    apply relocate_exit in Hrun as (i & c' & D' & tr' & rec' & Hn & Hp' & -> & _ & ->).
    rewrite Hp in Hp'. injection Hp' as <-.
    exists (ps (np + i)%nat). unfold relocated. cbn [hw hrec fds files r_o set_o].
    assert (ps (np + i)%nat <> path) by congruence.
    repeat split; try done.
    + apply lookup_succ.
    + apply lookup_insert_eq.
    + by rewrite lookup_insert_ne.
  - intros i Hi Hlen Hn Hobn. rewrite open_entry_contended by done.
    by eapply (relocate_total F rb ob ps path fuel c fuel).
  - intros i m dec sfo sno sro safe h w -> Hi Hlen Hn Hobn Hmem Hdec Hcase Hw Hden Hname.
    destruct (relocate_total F rb ob ps (ps np) fuel c fuel Hp Hob Hlen i D (S np) tr rec
                Hi Hn Hobn) as (f & s1 & Hrun).
    pose proof Hrun as Hexit.
    apply relocate_exit in Hexit as (j & c' & D' & tr' & rec' & Hn' & Hp' & -> & Hm & ->).
    rewrite Hp in Hp'. injection Hp' as <-.
    rewrite <- open_entry_contended in Hrun by done.
    apply same_meta_fields in Hm as (_ & _ & _ & _ & Hs' & Hnm').
    destruct (Hname (S np + j)%nat) as [nm Hnm].
    assert (Hne : ps (S np + j)%nat <> ps np) by congruence.
    eexists _, _, (S (length D')), (ps (S np + j)%nat), _. split.
    + eapply (handle_reuse_run fuel ps m sfo sno sro dec safe);
        [exact Hmem|exact Hrun|done|apply lookup_succ|apply lookup_insert_eq
        |exact Hdec|exact Hcase| |].
      * apply (compute_duration_ok _ w); [exact Hw|exact Hden].
      * rewrite <- Hnm. apply name_for_meta; done.
    + cbn [hw hrec fds files]. repeat split.
      * by rewrite list_lookup_insert_eq
          by (rewrite length_app; simpl; lia).
      * exact Hne.
      * exact Hn'.
      * apply lookup_insert_eq.
      * by rewrite lookup_insert_ne.
  - intros i m dec sfo sno sro h rec2 -> Hi Hlen Hn Hobn Hmem Hdec Hcase Hsync Hr Hname.
    destruct (relocate_total F rb ob ps (ps np) fuel c fuel Hp Hob Hlen i D (S np) tr rec
                Hi Hn Hobn) as (f & s1 & Hrun).
    pose proof Hrun as Hexit.
    apply relocate_exit in Hexit as (j & c' & D' & tr' & rec' & Hn' & Hp' & -> & Hm & ->).
    rewrite Hp in Hp'. injection Hp' as <-.
    rewrite <- open_entry_contended in Hrun by done.
    destruct (synchronize_audio_bytes _ _ _ _ _ Hsync) as (out & Ho & _).
    destruct (synchronize_audio_inv _ _ _ _ _ _ Hsync) as (Hs2 & Hn2 & w & Hw & Hden).
    destruct (Hname (S np + j)%nat) as [nm Hnm].
    assert (Hne : ps (S np + j)%nat <> ps np) by congruence.
    assert (Hin : set_o (PBytes (drop (length (take_z (CACHE_INFO m) c)) c))
                    (with_header h (set_o (PHandle (S (length D'))) rec')) =
                  set_o (PBytes (drop (length (take_z (CACHE_INFO m) c)) c))
                    (with_header h rec)).
    { apply same_meta_with_header. unfold same_meta in *. rewrite <- Hm. by destruct rec'. }
    eexists _, _, (S (length D')), (ps (S np + j)%nat), _, out. split.
    + eapply (handle_resync_run fuel ps m sfo sno sro dec);
        [exact Hmem|exact Hrun|apply lookup_succ|apply lookup_insert_eq
        |exact Hdec|exact Hcase| |exact Ho|exact Hr| |].
      * rewrite Hin. exact Hsync.
      * apply (compute_duration_ok _ w); [by destruct rec2|by destruct rec2].
      * rewrite <- Hnm. apply name_for_meta.
        -- rewrite Hs2. by destruct rec.
        -- rewrite Hn2. by destruct rec.
    + cbn [hw hrec fds files]. repeat split.
      * by rewrite list_lookup_insert_eq
          by (rewrite length_app; simpl; lia).
      * exact Hne.
      * exact Hn'.
      * exact Ho.
      * apply lookup_insert_eq.
      * rewrite lookup_insert_ne by done. by rewrite lookup_insert_ne.
  - intros i m sfo sno sro safe p w nm -> Hi Hlen Hn Hobn Hmem Hci Hbad Hfree hdr Hr Hne
      Hw Hden Hnm.
    destruct (relocate_total F rb ob ps (ps np) fuel c fuel Hp Hob Hlen i D (S np) tr rec
                Hi Hn Hobn) as (f & s1 & Hrun).
    pose proof Hrun as Hexit.
    apply relocate_exit in Hexit as (j & c' & D' & tr' & rec' & Hn' & Hp' & -> & Hm & ->).
    rewrite Hp in Hp'. injection Hp' as <-.
    rewrite <- open_entry_contended in Hrun by done.
    pose proof (same_meta_fields _ _ Hm) as (Hsz & Hfr & Hnc & Hsf & Hs' & Hnm').
    assert (Hhdr : entry_header
                     (set_size (Z.of_nat (length p) + CACHE_INFO m)
                        (set_o (PBytes p) (set_o (PHandle (S (length D'))) rec'))) = hdr).
    { unfold hdr, entry_header. destruct rec', rec. simpl in *. by subst. }
    eexists _, _, _, _. split.
    + eapply (handle_corrupt_run fuel ps m sfo sno sro safe p);
        [exact Hmem|exact Hrun|apply lookup_succ|apply lookup_insert_eq
        |exact Hbad|by apply Hfree|exact Hci| |exact Hne|exact Hob| |].
      * by rewrite Hhdr.
      * apply (compute_duration_ok _ w).
        -- destruct rec', rec. simpl in *. by subst.
        -- destruct rec', rec. simpl in *. by subst.
      * rewrite <- Hnm. apply name_for_meta; done.
    + cbn [hw hrec fds files]. rewrite Hhdr.
      split; [by destruct rec'|]. split.
      * rewrite lookup_app_r by (by rewrite length_insert).
        by rewrite length_insert, Nat.sub_diag.
      * by rewrite delete_insert_id.
Qed.

End Contention.

Lemma contention_relocates_witness :
  (exists f s',
     open_entry 40 demo_paths "a.bin"
       (mk_hstate (mk_world contended_files [] busy_a never 1 []) mono_record)
     = (Ret f, s'))
  /\
  (exists r s' f new_path pos,
     handle_cached_record (L := pa_lib) 40 demo_paths demo_master None None None None true
       (mk_hstate (mk_world contended_files [] busy_a never 0 []) mono_record)
     = (Ret r, s') /\
     r_o r = PHandle f /\
     fds (hw s') !! f = Some (mk_fdesc new_path pos false) /\
     new_path <> "a.bin" /\ contended_files !! new_path = None /\
     files (hw s') !! new_path = Some mono_entry /\
     files (hw s') !! "a.bin" = Some mono_entry)
  /\
  (exists r s' f pos,
     handle_cached_record (L := pa_lib) 40 demo_paths demo_master
       (Some (PBytes (ramp 8))) None None None true
       (mk_hstate (mk_world {["a.bin" := ramp 5]} [] busy_a never 0 []) mono_record)
     = (Ret r, s') /\
     r_o r = PHandle f /\
     fds (hw s') !! f = Some (mk_fdesc "a.bin" pos false) /\
     files (hw s') =
       <["a.bin" :=
           header_bytes
             (entry_header
                (set_size (Z.of_nat (length (ramp 8)) + CACHE_INFO demo_master) mono_record))
           ++ ramp 8]> {["a.bin" := ramp 5]}).
Proof.
  split; [|split].
  - destruct (contention_relocates (L := pa_lib) 40 demo_paths "a.bin" mono_entry
                contended_files [] busy_a never 1 [] mono_record)
      as (_ & Htotal & _); [reflexivity|reflexivity|reflexivity|].
    apply (Htotal 1%nat); [lia|vm_compute; lia|reflexivity|reflexivity].
  - destruct (contention_relocates (L := pa_lib) 40 demo_paths "a.bin" mono_entry
                contended_files [] busy_a never 0 [] mono_record)
      as (_ & _ & Hrun & _); [reflexivity|reflexivity|reflexivity|].
    apply (Hrun 1%nat demo_master None None None None true (mk_header 40 8000 8 1) 2).
    + reflexivity.
    + lia.
    + vm_compute. lia.
    + reflexivity.
    + reflexivity.
    + reflexivity.
    + vm_compute. reflexivity.
    + left. vm_compute. reflexivity.
    + reflexivity.
    + simpl. lia.
    + intros q. eexists. reflexivity.
  - destruct (contention_relocates (L := pa_lib) 40 demo_paths "a.bin" (ramp 5)
                {["a.bin" := ramp 5]} [] busy_a never 0 [] mono_record)
      as (_ & _ & _ & _ & Hbad); [reflexivity|reflexivity|reflexivity|].
    apply (Hbad 0%nat demo_master None None None true (ramp 8) 2 None).
    + reflexivity.
    + lia.
    + vm_compute. lia.
    + reflexivity.
    + reflexivity.
    + reflexivity.
    + simpl. lia.
    + vm_compute. lia.
    + intros q Hq. unfold busy_a. destruct (String.eqb_spec q "a.bin"); [|reflexivity].
      subst q. vm_compute in Hq. discriminate Hq.
    + apply header_in_range_check. vm_compute. reflexivity.
    + discriminate.
    + reflexivity.
    + simpl. lia.
    + reflexivity.
Defined.

(** C8 as worded fails: the probe on the candidate fails, the entry is
    readable, yet the path the call resolves to is the candidate itself.
    The five bytes of the entry are copied to the next path, do not decode
    as a header, the copy is removed, and the decoder's bytes go to the
    candidate path, on which the returned handle is open; no file other
    than the candidate is left. *)
Lemma contention_returns_candidate :
  let s := mk_hstate (mk_world {["a.bin" := ramp 5]} [] busy_a never 0 []) mono_record in
  let r := handle_cached_record (L := pa_lib) 40 demo_paths demo_master
             (Some (PBytes (ramp 8))) None None None true s in
  fst (os_rename_self "a.bin" (hw s)) = Raise OSError /\
  fst (f_read 0 None (snd (py_open "a.bin" RBplus (hw s)))) = Ret (ramp 5) /\
  exists rec',
    fst r = Ret rec' /\
    r_o rec' = PHandle 2 /\
    fds (hw (snd r)) !! 2%nat = Some (mk_fdesc "a.bin" 32 false) /\
    files (hw (snd r)) !! "b.bin" = None /\
    files (hw (snd r)) !! "c.bin" = None /\
    files (hw (snd r)) !! "a.bin" =
      Some (header_bytes (mk_header 40 8000 8 1) ++ ramp 8).
Proof.
  split; [vm_compute; reflexivity|]. split; [vm_compute; reflexivity|].
  eexists. split; [vm_compute; reflexivity|].
  repeat split; vm_compute; reflexivity.
Qed.

Section Recovery.
Context {L : AudioLib}.


(** C2 (as the code has it): on a miss the size of the record and the
    first header field are the payload length plus CACHE_INFO; after a safe
    resynchronization they are the payload length alone; on reuse the size
    of the record is the first header field as it is stored. *)
Theorem record_size_by_path (fuel : nat) (ps : nat -> string) (m : master)
    (sfo sno sro : option Z) :
  (forall safe p F D rb ob np tr rec rec2 nm,
     let path := ps np in
     let rec1 := set_size (Z.of_nat (length p) + CACHE_INFO m) (set_o (PBytes p) rec) in
     mem_string path (m_cache m) = false ->
     header_in_range (entry_header rec1) ->
     0 <= CACHE_INFO m ->
     path <> EmptyString ->
     ob path = false ->
     compute_duration (set_o (PHandle (length D)) rec1) = Ret rec2 ->
     name_for m rec path = Ret nm ->
     exists r s' hdr,
       handle_cached_record fuel ps m (Some (PBytes p)) sfo sno sro safe
         (mk_hstate (mk_world F D rb ob np tr) rec) = (Ret r, s') /\
       files (hw s') !! path = Some (header_bytes hdr ++ p) /\
       r_size r = Z.of_nat (length p) + CACHE_INFO m /\
       byteSize hdr = Z.of_nat (length p) + CACHE_INFO m)
  /\
  (forall dec F D rb ob np tr rec f n pos c h F1 D1 rb1 ob1 np1 tr1 rec1 rec2 rec3 nm,
     let path := ps np in
     mem_string path (m_cache m) = true ->
     open_entry fuel ps path (mk_hstate (mk_world F D rb ob (S np) tr) rec) =
       (Ret f, mk_hstate (mk_world F1 D1 rb1 ob1 np1 tr1) rec1) ->
     D1 !! f = Some (mk_fdesc n pos false) ->
     F1 !! n = Some c ->
     decode_header (take_z (CACHE_INFO m) c) = Ret h ->
     format_matches h (target_format m sfo) (target_nchannels m sno)
       (target_rate m sro) = false ->
     synchronize_audio
       (set_o (PBytes (drop (length (take_z (CACHE_INFO m) c)) c)) (with_header h rec1))
       (target_nchannels m sno) (target_rate m sro) (target_format m sfo) "byte"
       = Ret rec2 ->
     header_in_range (entry_header rec2) ->
     compute_duration (set_o (PHandle f) rec2) = Ret rec3 ->
     name_for m rec2 n = Ret nm ->
     exists r s' hdr out,
       handle_cached_record fuel ps m dec sfo sno sro true
         (mk_hstate (mk_world F D rb ob np tr) rec) = (Ret r, s') /\
       files (hw s') !! n = Some (header_bytes hdr ++ out) /\
       r_size r = Z.of_nat (length out) /\
       byteSize hdr = Z.of_nat (length out))
  /\
  (forall dec safe F D rb ob np tr rec f n pos c h F1 D1 rb1 ob1 np1 tr1 rec1 rec3 nm,
     let path := ps np in
     mem_string path (m_cache m) = true ->
     open_entry fuel ps path (mk_hstate (mk_world F D rb ob (S np) tr) rec) =
       (Ret f, mk_hstate (mk_world F1 D1 rb1 ob1 np1 tr1) rec1) ->
     r_o rec1 = PHandle f ->
     D1 !! f = Some (mk_fdesc n pos false) ->
     F1 !! n = Some c ->
     decode_header (take_z (CACHE_INFO m) c) = Ret h ->
     format_matches h (target_format m sfo) (target_nchannels m sno)
       (target_rate m sro) = true \/ safe = false ->
     compute_duration (with_header h rec1) = Ret rec3 ->
     name_for m rec1 n = Ret nm ->
     exists r s',
       handle_cached_record fuel ps m dec sfo sno sro safe
         (mk_hstate (mk_world F D rb ob np tr) rec) = (Ret r, s') /\
       files (hw s') = F1 /\
       r_size r = byteSize h).
Proof.
  split; [|split].
  - intros safe p F D rb ob np tr rec rec2 nm path rec1 Hmem Hr Hci Hne Hob Hdur Hnm.
    eexists _, _, (entry_header rec1). split.
    + by eapply handle_miss_run.
    + cbn [hw files]. split; [apply lookup_insert_eq|].
      apply compute_duration_fields in Hdur as (_ & Hs & _).
      by destruct rec2, rec.
  - intros dec F D rb ob np tr rec f n pos c h F1 D1 rb1 ob1 np1 tr1 rec1 rec2 rec3 nm
      path Hmem Hopen Hd Hc Hdec Hcase Hsync Hr Hdur Hnm.
    destruct (synchronize_audio_bytes _ _ _ _ _ Hsync) as (out & Ho & Hsz & _).
    eexists _, _, (entry_header rec2), out. split.
    + by eapply handle_resync_run.
    + cbn [hw files]. split; [apply lookup_insert_eq|].
      apply compute_duration_fields in Hdur as (_ & Hs & _).
      destruct rec3, rec2. simpl in *. by subst.
  - intros dec safe F D rb ob np tr rec f n pos c h F1 D1 rb1 ob1 np1 tr1 rec1 rec3 nm
      path Hmem Hopen Ho Hd Hc Hdec Hcase Hdur Hnm.
    eexists _, _. split.
    + by eapply handle_reuse_run.
    + cbn [hw files]. split; [done|].
      apply compute_duration_fields in Hdur as (_ & Hs & _).
      destruct rec3, rec1. simpl in *. by subst.
Qed.

End Recovery.


(** C2 as worded fails: on a miss with a payload of 6 bytes the record
    says 38, and so does the header. *)
Lemma miss_size_counts_header :
  exists r s',
    handle_cached_record (L := pa_lib) 1 demo_paths miss_master
      (Some (PBytes (ramp 6))) None None None true
      (mk_hstate empty_world mono_record) = (Ret r, s') /\
    files (hw s') !! "a.bin" = Some (header_bytes (mk_header 38 8000 8 1) ++ ramp 6) /\
    r_size r = 38 /\
    r_size r <> Z.of_nat (length (ramp 6)).
Proof.
  eexists _, _. split; [vm_compute; reflexivity|].
  split; [vm_compute; reflexivity|]. split; [reflexivity|]. vm_compute. discriminate.
Qed.

Lemma record_size_by_path_witness :
  (exists r s' hdr,
     handle_cached_record (L := pa_lib) 1 demo_paths miss_master
       (Some (PBytes (ramp 6))) None None None true
       (mk_hstate empty_world mono_record) = (Ret r, s') /\
     files (hw s') !! "a.bin" = Some (header_bytes hdr ++ ramp 6) /\
     r_size r = 6 + 32 /\
     byteSize hdr = 6 + 32)
  /\
  (exists r s' hdr out,
     handle_cached_record (L := pa_lib) 1 demo_paths demo_master
       None None (Some 2) None true
       (mk_hstate (one_file_world "a.bin" mono_entry) blank_record) = (Ret r, s') /\
     files (hw s') !! "a.bin" = Some (header_bytes hdr ++ out) /\
     r_size r = Z.of_nat (length out) /\
     byteSize hdr = Z.of_nat (length out))
  /\
  (exists r s',
     handle_cached_record (L := pa_lib) 1 demo_paths demo_master
       None None None None true
       (mk_hstate (one_file_world "a.bin" mono_entry) blank_record) = (Ret r, s') /\
     files (hw s') = {["a.bin" := mono_entry]} /\
     r_size r = 40).
Proof.
  split; [|split].
  - destruct (record_size_by_path (L := pa_lib) 1 demo_paths miss_master None None None)
      as (Hmiss & _ & _).
    apply (Hmiss true (ramp 6) (∅ : gmap string (list byte)) [] never never 0%nat []
             mono_record
             (mk_record (PHandle 0) 38 8000 1 (Some 8) (Some (38, 16000)) false None)
             None).
    + reflexivity.
    + apply header_in_range_check. vm_compute. reflexivity.
    + simpl. lia.
    + discriminate.
    + reflexivity.
    + vm_compute. reflexivity.
    + reflexivity.
  - destruct (record_size_by_path (L := pa_lib) 1 demo_paths demo_master
                None (Some 2) None) as (_ & Hsync & _).
    apply (Hsync None ({["a.bin" := mono_entry]} : gmap string (list byte))
             [] never never 0%nat [] blank_record
             0%nat "a.bin" 0%nat mono_entry (mk_header 40 8000 8 1)
             ({["a.bin" := mono_entry]} : gmap string (list byte))
             [mk_fdesc "a.bin" 0 false] never never 1%nat
             [EvOpen "a.bin" RBplus] (set_o (PHandle 0) blank_record)
             (mk_record (PBytes (interleave_bytes_demo)) 16 8000 2 (Some 8)
                        (Some (16, 32000)) false None)
             (mk_record (PHandle 0) 16 8000 2 (Some 8) (Some (16, 32000)) false None)
             None).
    + reflexivity.
    + vm_compute. reflexivity.
    + reflexivity.
    + reflexivity.
    + vm_compute. reflexivity.
    + vm_compute. reflexivity.
    + vm_compute. reflexivity.
    + apply header_in_range_check. vm_compute. reflexivity.
    + vm_compute. reflexivity.
    + reflexivity.
  - destruct (record_size_by_path (L := pa_lib) 1 demo_paths demo_master
                None None None) as (_ & _ & Hreuse).
    apply (Hreuse None true ({["a.bin" := mono_entry]} : gmap string (list byte))
             [] never never 0%nat [] blank_record
             0%nat "a.bin" 0%nat mono_entry (mk_header 40 8000 8 1)
             ({["a.bin" := mono_entry]} : gmap string (list byte))
             [mk_fdesc "a.bin" 0 false] never never 1%nat
             [EvOpen "a.bin" RBplus] (set_o (PHandle 0) blank_record)
             (mk_record (PHandle 0) 40 8000 1 (Some 8) (Some (40, 16000)) false None)
             None).
    + reflexivity.
    + vm_compute. reflexivity.
    + reflexivity.
    + reflexivity.
    + reflexivity.
    + vm_compute. reflexivity.
    + left. vm_compute. reflexivity.
    + vm_compute. reflexivity.
    + reflexivity.
Defined.


Section UnspecifiedFormat.
Context {L : AudioLib}.
Variables (fuel : nat) (ps : nat -> string) (m : master).
Variables (sfo sno sro : option Z).




End UnspecifiedFormat.



(** ** Further properties of sync.py *)

Lemma compute_duration_inv {L : AudioLib} (rec rec2 : record) :
  compute_duration rec = Ret rec2 ->
  exists w,
    get_sample_size (r_sampleFormat rec) = Some w /\
    r_frameRate rec * r_nchannels rec * w <> 0 /\
    rec2 = set_duration (Some (r_size rec, r_frameRate rec * r_nchannels rec * w)) rec.
Proof.
  unfold compute_duration.
  destruct (get_sample_size (r_sampleFormat rec)) as [w|]; [|done].
  destruct (_ =? 0) eqn:E; [done|]. intros [= <-].
  exists w. apply Z.eqb_neq in E. done.
Qed.

Lemma np_append_wrong_arity (dt : dtype) (args : list (list sample)) :
  length args <> 2%nat -> np_append_axis0 dt args = Raise TypeError.
Proof. destruct args as [|a [|b [|c t]]]; simpl; done. Qed.

Section SyncMore.
Context {L : AudioLib}.

(** X1: Whatever the output mode, a record that [synchronize_audio] returns
    carries the three targets, the length of its payload as [size], and a
    duration made of that size and of the non-zero product of rate,
    channel count and the sample width of the target format. *)
Theorem synchronize_audio_post (rec rec' : record) (n sr : Z) (sf : option Z)
    (mode : string) :
  synchronize_audio rec n sr sf mode = Ret rec' ->
  r_nchannels rec' = n /\ r_frameRate rec' = sr /\ r_sampleFormat rec' = sf /\
  payload_len (r_o rec') = Ret (r_size rec') /\
  (if startswith_b mode
   then exists out, r_o rec' = PBytes out
   else exists a, r_o rec' = PArray a) /\
  exists w,
    get_sample_size sf = Some w /\ sr * n * w <> 0 /\
    r_duration rec' = Some (r_size rec', sr * n * w).
Proof.
  unfold synchronize_audio.
  destruct (sample_form (r_sampleFormat rec)) as [form| |]; [|done|done]. cbn [obind].
  destruct (payload_buffer (r_o rec)) as [buf| |]; [|done|done]. cbn [obind].
  destruct (np_frombuffer buf form) as [arr| |]; [|done|done]. cbn [obind].
  destruct (match arr with
            | Arr1 dt xs => adjust_channels xs dt rec n
            | Arr2 _ _ => Raise TypeError
            end) as [[data rec1]| |]; [|done|done]. cbn [obind].
  destruct (convert_rate data sr (r_frameRate rec1)) as [data'| |]; [|done|done].
  cbn [obind].
  destruct (sample_form sf) as [form'| |]; [|done|done]. cbn [obind].
  destruct (astype _ form') as [out| |]; [|done|done]. cbn [obind].
  destruct (startswith_b mode); cbn [set_o r_o payload_len obind];
    intros Hd; apply compute_duration_inv in Hd as (w & Hw & Hden & ->);
    destruct rec1; simpl in *; repeat split; eauto.
Qed.

(** X2: A source of more than one channel can only be brought to two
    channels: for every other target count [np.append] is handed a number
    of arrays other than two, and the call ends in a TypeError. *)
Theorem multichannel_needs_two_targets (rec : record) (p : list byte) (dt : dtype)
    (k : nat) (n sr : Z) (sf : option Z) (mode : string) :
  r_o rec = PBytes p ->
  sample_form (r_sampleFormat rec) = Ret dt ->
  dtype_valid dt = true ->
  length p = (k * Z.to_nat (dt_width dt))%nat ->
  1 < r_nchannels rec ->
  n <> 2 ->
  synchronize_audio rec n sr sf mode = Raise TypeError.
Proof.
  intros Ho Hform Hv Hl Hsrc Hn.
  unfold synchronize_audio. rewrite Hform, Ho. cbn [payload_buffer obind].
  rewrite (np_frombuffer_whole p dt k) by done. cbn [obind].
  unfold adjust_channels. destruct (r_nchannels rec =? 1) eqn:E; [lia|].
  rewrite deinterleave_positive by lia. cbn [obind].
  rewrite np_append_wrong_arity; [done|].
  unfold py_range. rewrite length_map, length_seq. lia.
Qed.

(** X3: In array mode nothing is interleaved and [size] is the extent of the
    first axis: a mono buffer brought to [k > 1] channels at its own rate
    and format comes back as [k] rows, each the mono stream, with
    [size = k]. *)
Theorem mono_upmix_array_mode (rec : record) (p : list byte) (dt : dtype) (N : nat)
    (k : Z) (mode : string) :
  startswith_b mode = false ->
  r_o rec = PBytes p ->
  r_nchannels rec = 1 ->
  1 < k ->
  sample_form (r_sampleFormat rec) = Ret dt ->
  dtype_valid dt = true ->
  length p = (N * Z.to_nat (dt_width dt))%nat ->
  r_frameRate rec <> 0 ->
  exists rec',
    synchronize_audio rec k (r_frameRate rec) (r_sampleFormat rec) mode = Ret rec' /\
    r_o rec' = PArray (Arr2 dt (replicate (Z.to_nat k)
                                  (chunks (Z.to_nat (dt_width dt)) p))) /\
    r_size rec' = k /\
    r_nchannels rec' = k.
Proof.
  intros Hmode Ho H1 Hk Hform Hv Hl Hrate.
  pose proof (dtype_valid_pos dt Hv) as Hw.
  pose proof (sample_form_width _ _ Hform) as Hsz.
  unfold synchronize_audio. rewrite Hform, Ho, Hmode. cbn [payload_buffer obind].
  rewrite (np_frombuffer_whole p dt N) by done. cbn [obind].
  rewrite adjust_channels_upmix by done. cbn [obind].
  rewrite convert_rate_same. cbn [obind andb]. cbv iota.
  destruct rec as [o sz rate nch fmt dur ser nm]. simpl in Ho, H1, Hform, Hsz, Hrate.
  subst o nch.
  cbn [np_vstack_copies set_sampleFormat set_nchannels r_nchannels r_o r_size
       r_frameRate r_sampleFormat r_duration r_is_series r_name].
  unfold np_vstack_copies.
  rewrite (astype_same (Arr2 dt _) dt) by done. cbn [obind].
  cbn [set_o r_o payload_len obind arr_len set_size set_frameRate r_nchannels r_size
       r_frameRate r_sampleFormat r_duration r_is_series r_name].
  erewrite compute_duration_ok; [|exact Hsz|simpl; nia].
  eexists. split; [reflexivity|]. simpl.
  rewrite length_replicate. repeat split; try done. lia.
Qed.

End SyncMore.

Lemma synchronize_audio_post_witness :
  r_nchannels (mk_record (PBytes interleave_bytes_demo) 16 8000 2 (Some 8)
                 (Some (16, 32000)) false None) = 2 /\
  exists w,
    get_sample_size (AudioLib := pa_lib) (Some 8) = Some w /\ 8000 * 2 * w <> 0 /\
    r_duration (mk_record (PBytes interleave_bytes_demo) 16 8000 2 (Some 8)
                  (Some (16, 32000)) false None) = Some (16, 8000 * 2 * w).
Proof.
  destruct (synchronize_audio_post (L := pa_lib) mono_record
              (mk_record (PBytes interleave_bytes_demo) 16 8000 2 (Some 8)
                 (Some (16, 32000)) false None) 2 8000 (Some 8) "byte")
    as (Hn & _ & _ & _ & _ & Hw).
  - vm_compute. reflexivity.
  - split; [exact Hn|exact Hw].
Defined.

Lemma multichannel_needs_two_targets_witness :
  synchronize_audio (L := pa_lib)
    (mk_record (PBytes (ramp 12)) 12 8000 3 (Some 8) None false None)
    1 8000 (Some 8) "byte" = Raise TypeError.
Proof.
  apply (multichannel_needs_two_targets (L := pa_lib)
           (mk_record (PBytes (ramp 12)) 12 8000 3 (Some 8) None false None)
           (ramp 12) (mk_dtype false 2) 6 1 8000 (Some 8) "byte").
  - reflexivity.
  - reflexivity.
  - reflexivity.
  - reflexivity.
  - simpl. lia.
  - lia.
Defined.

Lemma mono_upmix_array_mode_witness :
  exists rec',
    synchronize_audio (L := pa_lib) mono_record 2 8000 (Some 8) "ndarray" = Ret rec' /\
    r_o rec' = PArray (Arr2 (mk_dtype false 2) (replicate 2 (chunks 2 (ramp 8)))) /\
    r_size rec' = 2 /\
    r_nchannels rec' = 2.
Proof.
  apply (mono_upmix_array_mode (L := pa_lib) mono_record (ramp 8) (mk_dtype false 2)
           4 2 "ndarray").
  - reflexivity.
  - reflexivity.
  - reflexivity.
  - lia.
  - reflexivity.
  - reflexivity.
  - reflexivity.
  - simpl. lia.
Defined.

Section SyncRate.
Context {L : AudioLib}.

Lemma resample_rest_copies (dt : dtype) (xs x : list sample) (sr fr : Z) (j : nat) :
  resample dt xs sr fr = Ret x ->
  forall acc,
    resample_rest dt sr fr (length x) acc (replicate j xs) = Ret (acc ++ replicate j x).
Proof.
  intros Hx. induction j as [|j IH]; intros acc.
  - simpl. by rewrite app_nil_r.
  - cbn [replicate resample_rest]. rewrite Hx. cbn [obind].
    rewrite Nat.eqb_refl, IH, <- app_assoc. done.
Qed.

Lemma convert_rate_copies (dt : dtype) (xs x : list sample) (sr fr : Z) (k : nat) :
  sr <> fr -> fr <> 0 -> (2 <= k)%nat ->
  resample dt xs sr fr = Ret x ->
  convert_rate (Arr2 dt (replicate k xs)) sr fr = Ret (Arr2 float32 (replicate k x)).
Proof.
  intros Hne Hfr Hk Hx. unfold convert_rate.
  destruct (sr =? fr) eqn:E1; [lia|]. destruct (fr =? 0) eqn:E2; [lia|].
  destruct k as [|[|k]]; [lia|lia|].
  cbn [replicate]. rewrite Hx. cbn [obind].
  change (xs :: replicate k xs) with (replicate (S k) xs).
  rewrite resample_rest_copies by done. done.
Qed.

(** X4: Upmix with rate conversion: the mono stream is stacked [k] times, each
    row is resampled on its own, and since the rows are equal the stacking
    never fails and all [k] rows of the result are the one resampled
    stream, converted element by element to the target dtype. *)
Theorem mono_upmix_resampled (rec : record) (p : list byte) (dt form : dtype)
    (N : nat) (k sr : Z) (sf : option Z) (x : list sample) (mode : string) :
  startswith_b mode = false ->
  r_o rec = PBytes p ->
  r_nchannels rec = 1 ->
  1 < k ->
  sample_form (r_sampleFormat rec) = Ret dt ->
  dtype_valid dt = true ->
  length p = (N * Z.to_nat (dt_width dt))%nat ->
  sr <> r_frameRate rec -> r_frameRate rec <> 0 -> sr <> 0 ->
  resample dt (chunks (Z.to_nat (dt_width dt)) p) sr (r_frameRate rec) = Ret x ->
  sample_form sf = Ret form ->
  dtype_valid form = true ->
  exists rec',
    synchronize_audio rec k sr sf mode = Ret rec' /\
    r_o rec' =
      PArray (Arr2 form (replicate (Z.to_nat k)
                (if dtype_eqb float32 form then x else map (cast float32 form) x))) /\
    r_frameRate rec' = sr /\ r_nchannels rec' = k /\ r_sampleFormat rec' = sf.
Proof.
  intros Hmode Ho H1 Hk Hform Hv Hl Hne Hfr Hsr Hx Hform' Hv'.
  pose proof (dtype_valid_pos form Hv') as Hw'.
  pose proof (sample_form_width _ _ Hform') as Hsz'.
  unfold synchronize_audio. rewrite Hform, Ho, Hmode. cbn [payload_buffer obind].
  rewrite (np_frombuffer_whole p dt N) by done. cbn [obind].
  rewrite adjust_channels_upmix by done. cbn [obind].
  unfold np_vstack_copies.
  destruct rec as [o sz rate nch fmt dur ser nm]. simpl in Ho, H1, Hform, Hne, Hfr, Hx.
  subst o nch.
  cbn [set_nchannels r_frameRate r_nchannels r_o r_size r_sampleFormat r_duration
       r_is_series r_name].
  rewrite (convert_rate_copies dt _ x) by (done || lia). cbn [obind andb]. cbv iota.
  cbn [set_sampleFormat set_nchannels r_nchannels r_o r_size r_frameRate
       r_sampleFormat r_duration r_is_series r_name].
  rewrite Hform'. cbn [obind].
  unfold astype. rewrite Hv'. cbn [arr_dtype].
  destruct (dtype_eqb float32 form) eqn:Eq; cbn [obind];
    cbn [set_o r_o payload_len obind arr_len set_size set_frameRate r_nchannels r_size
         r_frameRate r_sampleFormat r_duration r_is_series r_name];
    (erewrite compute_duration_ok; [|exact Hsz'|simpl; nia]);
    eexists; (split; [reflexivity|]); simpl; repeat split; try done.
  by rewrite fmap_replicate.
Qed.

End SyncRate.

Lemma mono_upmix_resampled_witness :
  exists rec',
    synchronize_audio (L := pa_lib) mono_record 2 16000 (Some 8) "ndarray" = Ret rec' /\
    r_o rec' =
      PArray (Arr2 (mk_dtype false 2)
                (replicate 2 (map (cast (AudioLib := pa_lib) float32 (mk_dtype false 2))
                                [[Byte.x00; Byte.x01]; [Byte.x00; Byte.x01];
                                 [Byte.x02; Byte.x03]; [Byte.x02; Byte.x03];
                                 [Byte.x04; Byte.x05]; [Byte.x04; Byte.x05];
                                 [Byte.x06; Byte.x07]; [Byte.x06; Byte.x07]]))) /\
    r_frameRate rec' = 16000 /\ r_nchannels rec' = 2 /\ r_sampleFormat rec' = Some 8.
Proof.
  apply (mono_upmix_resampled (L := pa_lib) mono_record (ramp 8) (mk_dtype false 2)
           (mk_dtype false 2) 4 2 16000 (Some 8) _ "ndarray").
  - reflexivity.
  - reflexivity.
  - reflexivity.
  - lia.
  - reflexivity.
  - reflexivity.
  - reflexivity.
  - simpl. lia.
  - simpl. lia.
  - lia.
  - vm_compute. reflexivity.
  - reflexivity.
  - reflexivity.
Defined.

(** ** Further properties of the header codec *)

Lemma byte_of_Z_of_byte (b : byte) : byte_of_Z (Z_of_byte b) = b.
Proof.
  unfold byte_of_Z. pose proof (Z_of_byte_range b) as Hr.
  rewrite Z.mod_small by lia. unfold Z_of_byte. rewrite N2Z.id.
  by rewrite Byte.of_to_N.
Qed.

Lemma byte_of_Z_low (b : byte) (v : Z) : byte_of_Z (Z_of_byte b + 256 * v) = b.
Proof.
  unfold byte_of_Z. pose proof (Z_of_byte_range b) as Hr.
  replace (Z_of_byte b + 256 * v) with (Z_of_byte b + v * 256) by lia.
  rewrite Z.mod_add by lia.
  rewrite Z.mod_small by lia. unfold Z_of_byte. rewrite N2Z.id.
  by rewrite Byte.of_to_N.
Qed.

Lemma le_bytes_le_value (bs : list byte) : le_bytes (length bs) (le_value bs) = bs.
Proof.
  induction bs as [|b bs IH]; [done|].
  cbn [length le_value le_bytes]. rewrite byte_of_Z_low. f_equal.
  pose proof (Z_of_byte_range b) as Hr.
  replace (Z_of_byte b + 256 * le_value bs) with (Z_of_byte b + le_value bs * 256) by lia.
  rewrite Z.div_add by lia.
  rewrite (Z.div_small (Z_of_byte b)) by lia. by rewrite Z.add_0_l.
Qed.

Lemma le_value_range (bs : list byte) : 0 <= le_value bs < 256 ^ Z.of_nat (length bs).
Proof.
  induction bs as [|b bs IH]; [simpl; lia|].
  cbn [length le_value]. pose proof (Z_of_byte_range b) as Hr.
  rewrite Nat2Z.inj_succ, Z.pow_succ_r by lia. nia.
Qed.

(** X5: The decoder is the inverse of the encoder on every 32-byte string: such
    a string decodes to a header whose four fields are within the unsigned
    64-bit range, and that header encodes to the very same bytes.  With the
    round trip in the other direction, headers with fields in range and
    32-byte strings correspond one to one. *)
Theorem header_decode_encode (buf : list byte) :
  length buf = 32%nat ->
  exists h,
    decode_header buf = Ret h /\ header_in_range h /\ encode_header h = Ret buf.
Proof.
  intros Hl.
  pose proof (chunks_widths 8 4 buf ltac:(lia) Hl) as Hw.
  pose proof (length_chunks 8 4 buf ltac:(lia) Hl) as Hc.
  pose proof (concat_chunks 8 buf ltac:(lia)) as Hcat.
  unfold decode_header, np_frombuffer_u8. rewrite Hl.
  change (Z.of_nat 32 mod Z.of_nat u8_width =? 0) with true. cbv iota. cbn [obind].
  change u8_width with 8%nat.
  destruct (chunks 8 buf) as [|a [|b [|c [|d [|e t]]]]]; simpl in Hc; try lia.
  apply Forall_cons in Hw as [Ha Hw]. apply Forall_cons in Hw as [Hb Hw].
  apply Forall_cons in Hw as [Hc' Hw]. apply Forall_cons in Hw as [Hd _].
  cbn [map].
  assert (Hrange : forall x : list byte, length x = 8%nat -> 0 <= le_value x < 2 ^ 64).
  { intros x Hx. pose proof (le_value_range x) as H. rewrite Hx in H.
    change (256 ^ Z.of_nat 8) with (2 ^ 64) in H. exact H. }
  eexists. split; [reflexivity|]. split.
  - unfold header_in_range, header_fields. cbn [byteSize hframeRate sampleFormatId channelCount].
    repeat constructor; by apply Hrange.
  - unfold encode_header, header_fields.
    cbn [byteSize hframeRate sampleFormatId channelCount].
    rewrite np_asarray_u8_ok by (repeat constructor; by apply Hrange).
    change u8_width with 8%nat. cbn [map concat].
    rewrite <- Ha at 1. rewrite <- Hb at 1. rewrite <- Hc' at 1. rewrite <- Hd at 1.
    rewrite !le_bytes_le_value. rewrite <- Hcat. done.
Qed.

Lemma header_decode_encode_witness :
  exists h,
    decode_header (ramp 32) = Ret h /\ header_in_range h /\ encode_header h = Ret (ramp 32).
Proof.
  apply (header_decode_encode (ramp 32)). reflexivity.
Defined.

(** ** Further properties of the binary writer *)

Lemma write_at_split (pos : nat) (bs c : list byte) :
  write_at pos bs c =
    (take pos c ++ replicate (pos - length c) Byte.x00) ++ bs ++ drop (pos + length bs) c.
Proof. unfold write_at. by rewrite <- app_assoc. Qed.

Lemma length_write_prefix (pos : nat) (c : list byte) :
  length (take pos c ++ replicate (pos - length c) Byte.x00) = pos.
Proof. rewrite length_app, length_take, length_replicate. lia. Qed.

Lemma length_write_at (pos : nat) (bs c : list byte) :
  length (write_at pos bs c) = Nat.max (pos + length bs) (length c).
Proof.
  rewrite write_at_split, length_app, length_write_prefix, length_app, length_drop. lia.
Qed.

(** Two writes one after the other are one write of the concatenation. *)
Lemma write_at_app (pos : nat) (a b c : list byte) :
  write_at (pos + length a) b (write_at pos a c) = write_at pos (a ++ b) c.
Proof.
  rewrite (write_at_split pos a c), (write_at_split pos (a ++ b) c).
  set (P := take pos c ++ replicate (pos - length c) Byte.x00).
  assert (HP : length P = pos) by apply length_write_prefix.
  unfold write_at.
  rewrite (app_assoc P a).
  rewrite take_app_length' by (rewrite length_app; lia).
  replace (pos + length a - length ((P ++ a) ++ drop (pos + length a) c))%nat
    with 0%nat by (rewrite !length_app; lia).
  rewrite drop_app_add' by (rewrite length_app; lia).
  rewrite drop_drop, length_app. cbn [replicate app].
  rewrite <- !app_assoc. do 3 f_equal. f_equal. lia.
Qed.

Lemma write_at_nil (pos : nat) (c : list byte) :
  (pos <= length c)%nat -> write_at pos [] c = c.
Proof.
  intros H. unfold write_at. replace (pos - length c)%nat with 0%nat by lia.
  cbn [replicate app length]. rewrite Nat.add_0_r. apply take_drop.
Qed.

Section WriterFacts.
Variables (F : gmap string (list byte)) (D : list fdesc).
Variables (rb ob : string -> bool) (np : nat) (tr : list event).
Variables (fd : nat) (n : string) (pos : nat) (c : list byte).
Hypothesis Hfd : D !! fd = Some (mk_fdesc n pos false).
Hypothesis Hc : F !! n = Some c.

Lemma when_flush_ok (b : bool) :
  when b (f_flush fd) (mk_world F D rb ob np tr) = (Ret tt, mk_world F D rb ob np tr).
Proof. destruct b; [by eapply f_flush_ok|done]. Qed.

(** Line 65-66: the header values, if any, go out as one write. *)
Lemma write_head_run (head : list Z) :
  Forall (fun v => 0 <= v < 2 ^ 64) head ->
  (pos <= length c)%nat ->
  let hb := concat (map (le_bytes u8_width) head) in
  match head with
  | [] => ret 0
  | _ :: _ => (let! bs := lift_outcome (np_asarray_u8 head) in f_write fd bs)%M
  end (mk_world F D rb ob np tr) =
    (Ret (Z.of_nat (length hb)),
     mk_world (<[n := write_at pos hb c]> F)
              (<[fd := mk_fdesc n (pos + length hb) false]> D) rb ob np tr).
Proof.
  intros Hr Hpos hb. destruct head as [|v head'].
  - subst hb. cbn [map concat length]. rewrite write_at_nil by done.
    rewrite insert_id by done. rewrite Nat.add_0_r, list_insert_id by done. done.
  - unfold bind, lift_outcome. rewrite np_asarray_u8_ok by done. fold hb.
    by erewrite f_write_ok.
Qed.

End WriterFacts.

Lemma length_header_bytes (head : list Z) :
  Z.of_nat (length (concat (map (le_bytes u8_width) head))) = 8 * Z.of_nat (length head).
Proof.
  induction head as [|v head IH]; [done|].
  cbn [map concat length]. rewrite length_app, length_le_bytes. unfold u8_width in *. lia.
Qed.

(** One run of the writer through an open handle, without seeking or
    truncating. *)
Lemma write_in_place_run (fuel : nat) (head : list Z) (out : list byte)
    (fname : option string) (mode : fmode) (pf af so : bool) (chunk : Z)
    (F : gmap string (list byte)) (D : list fdesc) (rb ob : string -> bool)
    (np : nat) (tr : list event) (fd : nat) (n : string) (pos : nat) (c : list byte) :
  Forall (fun v => 0 <= v < 2 ^ 64) head ->
  D !! fd = Some (mk_fdesc n pos false) ->
  F !! n = Some c ->
  (pos <= length c)%nat ->
  let hb := concat (map (le_bytes u8_width) head) in
  write_to_cached_file fuel
      (mk_wargs head (PBytes out) fname mode (Some fd) false None None pf af so chunk)
      (mk_world F D rb ob np tr) =
    (Ret (fd, if so then Some (8 * Z.of_nat (length head) + Z.of_nat (length out))
              else None),
     mk_world (<[n := write_at pos (hb ++ out) c]> F)
              (<[fd := mk_fdesc n (pos + length hb + length out) false]> D) rb ob np tr).
Proof.
  intros Hr Hfd Hc Hpos hb.
  assert (Hlt : (fd < length D)%nat) by (eapply lookup_lt_Some; eauto).
  unfold write_to_cached_file.
  unfold bind at 1.
  cbn [write_target w_buffered_random ret w_pre_seek w_pre_truncate w_pre_flush w_head
       w_data w_after_seek w_after_flush w_size_on_output w_data_chunk seek_opt].
  unfold bind at 1. unfold ret at 1. cbv beta iota.
  unfold bind at 1. cbn [when]. unfold ret at 1. cbv beta iota.
  unfold bind at 1. erewrite when_flush_ok by eauto. cbv beta iota.
  unfold bind at 1. erewrite write_head_run by eauto. fold hb. cbv beta iota.
  rewrite <- length_header_bytes. fold hb.
  destruct out as [|b out'].
  - unfold bind at 1. unfold ret at 1. cbv beta iota.
    unfold bind at 1. unfold ret at 1. cbv beta iota.
    unfold bind at 1. erewrite when_flush_ok by (by apply list_lookup_insert_eq).
    cbv beta iota. unfold ret. rewrite app_nil_r. cbn [length].
    rewrite Nat.add_0_r, Z.add_0_r. done.
  - unfold bind at 1. unfold bind at 1.
    erewrite f_write_ok;
      [|by apply list_lookup_insert_eq|by apply lookup_insert_eq].
    cbv beta iota. unfold ret at 1. cbv beta iota.
    rewrite insert_insert_eq, list_insert_insert_eq, write_at_app.
    unfold bind at 1. unfold ret at 1. cbv beta iota.
    unfold bind at 1. erewrite when_flush_ok by (by apply list_lookup_insert_eq).
    cbv beta iota. unfold ret. done.
Qed.

(** C6 (as the code has it): the writer fails for want of a target exactly
    when neither an open handle nor a non-empty file name is supplied, and
    then it raises before touching anything.  A handle is used whenever it
    is supplied: a file name given next to it changes nothing, and for
    header values in range and a byte payload, without seek or truncate
    options, the bytes are written through the handle at its position, no
    file is opened and no other file or handle is touched.  A file name
    alone is opened with the given mode and, under the same conditions, the
    header values and the payload are written from the start of that
    file. *)
Theorem write_target_selection (fuel : nat) (a : wargs) (w : world) :
  (fst (write_target a w) = Raise ValueError <->
     w_buffered_random a = None /\ file_name_given (w_file_name a) = None) /\
  (w_buffered_random a = None /\ file_name_given (w_file_name a) = None ->
     write_to_cached_file fuel a w = (Raise ValueError, w)) /\
  (forall fd n,
     w_buffered_random a = Some fd ->
     write_target (with_file_name n a) w = (Ret fd, w) /\
     write_to_cached_file fuel (with_file_name n a) w = write_to_cached_file fuel a w) /\
  (forall n,
     w_buffered_random a = None -> file_name_given (w_file_name a) = Some n ->
     write_target a w = py_open n (w_file_mode a) w) /\
  (forall fd n pos c out,
     w_buffered_random a = Some fd ->
     w_pre_seek a = None -> w_pre_truncate a = false -> w_after_seek a = None ->
     Forall (fun v => 0 <= v < 2 ^ 64) (w_head a) ->
     w_data a = PBytes out ->
     fds w !! fd = Some (mk_fdesc n pos false) ->
     files w !! n = Some c ->
     (pos <= length c)%nat ->
     let hb := concat (map (le_bytes u8_width) (w_head a)) in
     let r := write_to_cached_file fuel a w in
     fst r = Ret (fd, if w_size_on_output a
                      then Some (8 * Z.of_nat (length (w_head a)) + Z.of_nat (length out))
                      else None) /\
     files (snd r) = <[n := write_at pos (hb ++ out) c]> (files w) /\
     fds (snd r) = <[fd := mk_fdesc n (pos + length hb + length out) false]> (fds w) /\
     trace (snd r) = trace w) /\
  (forall name c out,
     w_buffered_random a = None ->
     file_name_given (w_file_name a) = Some name ->
     w_pre_seek a = None -> w_pre_truncate a = false -> w_after_seek a = None ->
     Forall (fun v => 0 <= v < 2 ^ 64) (w_head a) ->
     w_data a = PBytes out ->
     open_busy w name = false ->
     match w_file_mode a with
     | RBplus => files w !! name = Some c
     | WBplus => c = []
     end ->
     let hb := concat (map (le_bytes u8_width) (w_head a)) in
     let r := write_to_cached_file fuel a w in
     fst r = Ret (length (fds w),
                  if w_size_on_output a
                  then Some (8 * Z.of_nat (length (w_head a)) + Z.of_nat (length out))
                  else None) /\
     files (snd r) = <[name := write_at 0 (hb ++ out) c]> (files w) /\
     fds (snd r) = fds w ++ [mk_fdesc name (length hb + length out) false] /\
     trace (snd r) = trace w ++ [EvOpen name (w_file_mode a)]).
Proof.
  split; [|split; [|split; [|split; [|split]]]].
  - unfold write_target. destruct (w_buffered_random a) as [fd|].
    + split; [done|]. by intros [? _].
    + destruct (file_name_given (w_file_name a)) as [n|].
      * split; [|by intros [_ ?]]. intros H.
        by apply py_open_not_ValueError in H.
      * done.
  - intros [Hb Hn]. unfold write_to_cached_file, write_target, bind.
    by rewrite Hb, Hn.
  - intros fd n Hb. unfold write_to_cached_file, write_target, bind.
    destruct a; simpl in *. by rewrite Hb.
  - intros n Hb Hn. unfold write_target. by rewrite Hb, Hn.
  - intros fd n pos c out Hb Hps Hpt Has Hr Hdata Hfd Hc Hpos hb r.
    destruct a as [head data fname mode br pt pse ase pf af so chunk].
    destruct w as [F D rb ob np tr]. simpl in *. subst br pt pse ase data.
    subst r.
    rewrite (write_in_place_run fuel head out fname mode pf af so chunk F D rb ob np tr
               fd n pos c) by done.
    done.
  - intros name c out Hb Hname Hps Hpt Has Hr Hdata Hob Hmode hb r.
    destruct a as [head data fname mode br pt pse ase pf af so chunk].
    destruct w as [F D rb ob np tr]. simpl in *. subst br pt pse ase data.
    set (F1 := match mode with WBplus => <[name := []]> F | RBplus => F end).
    assert (Hc1 : F1 !! name = Some c).
    { unfold F1. destruct mode; [done|]. subst c. apply lookup_insert_eq. }
    assert (Hopen :
      write_to_cached_file fuel
        (mk_wargs head (PBytes out) fname mode None false None None pf af so chunk)
        (mk_world F D rb ob np tr) =
      write_to_cached_file fuel
        (mk_wargs head (PBytes out) fname mode (Some (length D)) false None None
                  pf af so chunk)
        (mk_world F1 (D ++ [mk_fdesc name 0 false]) rb ob np
                  (tr ++ [EvOpen name mode]))).
    { unfold write_to_cached_file. unfold bind at 1. symmetry. unfold bind at 1.
      cbn [write_target w_buffered_random w_file_name w_file_mode ret].
      rewrite Hname. unfold F1. destruct mode.
      - by erewrite py_open_rb_ok by done.
      - by rewrite py_open_wb_ok by done. }
    subst r. rewrite Hopen.
    rewrite (write_in_place_run fuel head out fname mode pf af so chunk F1
               (D ++ [mk_fdesc name 0 false]) rb ob np (tr ++ [EvOpen name mode])
               (length D) name 0 c); [|done|apply lookup_last|exact Hc1|lia].
    fold hb. cbn [fst snd files fds trace Nat.add]. rewrite insert_last.
    split; [done|]. split; [|done].
    unfold F1. destruct mode; [done|]. by rewrite insert_insert_eq.
Qed.

Lemma write_target_selection_witness :
  write_to_cached_file 1
    (with_file_name "b.bin" (with_buffered_random 0 (default_wargs [1])))
    (open_file_world "a.bin" []) =
  write_to_cached_file 1 (with_buffered_random 0 (default_wargs [1]))
    (open_file_world "a.bin" [])
  /\
  (let a := mk_wargs [1] (PBytes (ramp 2)) (Some "b.bin"%string) WBplus (Some 0%nat)
                     false None None false false true 1000000 in
   let w := mk_world {["a.bin" := ramp 12]} [mk_fdesc "a.bin" 2 false] never never 0 [] in
   let hb := concat (map (le_bytes u8_width) (w_head a)) in
   let r := write_to_cached_file 1 a w in
   fst r = Ret (0%nat,
                if w_size_on_output a
                then Some (8 * Z.of_nat (length (w_head a)) + Z.of_nat (length (ramp 2)))
                else None) /\
   files (snd r) = <["a.bin" := write_at 2 (hb ++ ramp 2) (ramp 12)]> (files w) /\
   fds (snd r) = <[0%nat := mk_fdesc "a.bin" (2 + length hb + length (ramp 2)) false]> (fds w) /\
   trace (snd r) = trace w)
  /\
  (let a := mk_wargs [1] (PBytes (ramp 2)) (Some "b.bin"%string) WBplus None
                     false None None false false true 1000000 in
   let w := mk_world {["b.bin" := ramp 12]} [] never never 0 [] in
   let hb := concat (map (le_bytes u8_width) (w_head a)) in
   let r := write_to_cached_file 1 a w in
   fst r = Ret (length (fds w),
                if w_size_on_output a
                then Some (8 * Z.of_nat (length (w_head a)) + Z.of_nat (length (ramp 2)))
                else None) /\
   files (snd r) = <["b.bin" := write_at 0 (hb ++ ramp 2) []]> (files w) /\
   fds (snd r) = fds w ++ [mk_fdesc "b.bin" (length hb + length (ramp 2)) false] /\
   trace (snd r) = trace w ++ [EvOpen "b.bin" (w_file_mode a)]).
Proof.
  split; [|split].
  - destruct (write_target_selection 1 (with_buffered_random 0 (default_wargs [1]))
                (open_file_world "a.bin" [])) as (_ & _ & H & _).
    destruct (H 0%nat "b.bin") as [_ H2]; [reflexivity|]. exact H2.
  - destruct (write_target_selection 1
                (mk_wargs [1] (PBytes (ramp 2)) (Some "b.bin"%string) WBplus (Some 0%nat)
                          false None None false false true 1000000)
                (mk_world {["a.bin" := ramp 12]} [mk_fdesc "a.bin" 2 false]
                          never never 0 [])) as (_ & _ & _ & _ & H & _).
    apply (H 0%nat "a.bin"%string 2%nat (ramp 12) (ramp 2)).
    + reflexivity.
    + reflexivity.
    + reflexivity.
    + reflexivity.
    + repeat constructor; lia.
    + reflexivity.
    + reflexivity.
    + vm_compute. reflexivity.
    + simpl. lia.
  - destruct (write_target_selection 1
                (mk_wargs [1] (PBytes (ramp 2)) (Some "b.bin"%string) WBplus None
                          false None None false false true 1000000)
                (mk_world {["b.bin" := ramp 12]} [] never never 0 []))
      as (_ & _ & _ & _ & _ & H).
    apply (H "b.bin"%string [] (ramp 2)).
    + reflexivity.
    + reflexivity.
    + reflexivity.
    + reflexivity.
    + reflexivity.
    + repeat constructor; lia.
    + reflexivity.
    + reflexivity.
    + reflexivity.
Defined.

(** C6 as worded fails: with both a handle and a file name the call does
    not fail; it writes through the handle and never opens the named file. *)
Lemma both_targets_no_error :
  let a := with_file_name "b.bin" (with_buffered_random 0 (default_wargs [1])) in
  w_buffered_random a = Some 0%nat /\
  w_file_name a = Some "b.bin" /\
  exists w',
    write_to_cached_file 1 a (open_file_world "a.bin" []) = (Ret (0%nat, None), w') /\
    files w' !! "a.bin" = Some (le_bytes 8 1) /\
    files w' !! "b.bin" = None.
Proof.
  split; [reflexivity|]. split; [reflexivity|].
  eexists. split; [vm_compute; reflexivity|].
  split; vm_compute; reflexivity.
Qed.

(** X6: Written through an open handle without seeking or truncating, the
    header values and a byte payload land back to back at the handle's
    position, overwriting what was there and leaving the rest of the file in
    place; no other file is touched and nothing is opened or closed; the
    handle ends just behind the bytes written and the size reported is
    eight bytes for each header value plus the payload length.  A file name
    given as well is ignored. *)
Theorem write_in_place (fuel : nat) (head : list Z) (out : list byte)
    (fname : option string) (mode : fmode) (pf af so : bool) (chunk : Z)
    (F : gmap string (list byte)) (D : list fdesc) (rb ob : string -> bool)
    (np : nat) (tr : list event) (fd : nat) (n : string) (pos : nat) (c : list byte) :
  Forall (fun v => 0 <= v < 2 ^ 64) head ->
  D !! fd = Some (mk_fdesc n pos false) ->
  F !! n = Some c ->
  (pos <= length c)%nat ->
  let hb := concat (map (le_bytes u8_width) head) in
  let r := write_to_cached_file fuel
             (mk_wargs head (PBytes out) fname mode (Some fd) false None None pf af so
                       chunk)
             (mk_world F D rb ob np tr) in
  fst r = Ret (fd, if so then Some (8 * Z.of_nat (length head) + Z.of_nat (length out))
                   else None) /\
  files (snd r) !! n = Some (write_at pos (hb ++ out) c) /\
  (forall q, q <> n -> files (snd r) !! q = F !! q) /\
  fds (snd r) !! fd = Some (mk_fdesc n (pos + length hb + length out) false) /\
  (forall g, g <> fd -> fds (snd r) !! g = D !! g) /\
  trace (snd r) = tr.
Proof.
  intros Hr Hfd Hc Hpos hb r.
  assert (Hlt : (fd < length D)%nat) by (eapply lookup_lt_Some; eauto).
  subst r.
  rewrite (write_in_place_run fuel head out fname mode pf af so chunk F D rb ob np tr
             fd n pos c) by done.
  fold hb. cbn [fst snd files fds trace].
  split; [done|]. split; [apply lookup_insert_eq|].
  split; [intros q Hq; by rewrite lookup_insert_ne|].
  split; [by apply list_lookup_insert_eq|].
  split; [intros g Hg; by rewrite list_lookup_insert_ne|done].
Qed.

Lemma write_in_place_witness :
  let r := write_to_cached_file 0
             (mk_wargs [1] (PBytes (ramp 2)) None WBplus (Some 0%nat) false None None
                       false false true 1000000)
             (mk_world {["a.bin" := ramp 12]} [mk_fdesc "a.bin" 2 false] never never 0 []) in
  fst r = Ret (0%nat, Some (8 * Z.of_nat (length [1]) + Z.of_nat (length (ramp 2)))) /\
  files (snd r) !! "a.bin" =
    Some (write_at 2 (concat (map (le_bytes u8_width) [1]) ++ ramp 2) (ramp 12)) /\
  (forall q, q <> "a.bin"%string ->
             files (snd r) !! q = ({["a.bin" := ramp 12]} : gmap string (list byte)) !! q) /\
  fds (snd r) !! 0%nat =
    Some (mk_fdesc "a.bin"
            (2 + length (concat (map (le_bytes u8_width) [1])) + length (ramp 2)) false) /\
  (forall g, g <> 0%nat -> fds (snd r) !! g = [mk_fdesc "a.bin" 2 false] !! g) /\
  trace (snd r) = [].
Proof.
  apply (write_in_place 0 [1] (ramp 2) None WBplus false false true 1000000
           {["a.bin" := ramp 12]} [mk_fdesc "a.bin" 2 false] never never 0 [] 0
           "a.bin" 2 (ramp 12)).
  - repeat constructor; lia.
  - reflexivity.
  - vm_compute. reflexivity.
  - simpl. lia.
Defined.

Section Streaming.
Variables (rb ob : string -> bool) (np : nat) (tr : list event).
Variables (src dst : nat) (ns nd : string) (cs : list byte) (chunk : Z).
Hypothesis Hfd : src <> dst.
Hypothesis Hnames : ns <> nd.
Hypothesis Hchunk : 0 < chunk.

(** Lines 70-73: the first read and the loop.  Whatever the chunk size,
    the rest of the source is appended to the target at its position. *)
Lemma stream_run (fuel : nat) :
  forall (F : gmap string (list byte)) (D : list fdesc) (size : Z) (ps pd : nat)
         (cd : list byte),
    D !! src = Some (mk_fdesc ns ps false) ->
    D !! dst = Some (mk_fdesc nd pd false) ->
    F !! ns = Some cs -> F !! nd = Some cd ->
    (pd <= length cd)%nat ->
    (length (drop ps cs) <= fuel)%nat ->
    (let! buffer := f_read src (Some chunk) in
     copy_chunks fuel src dst chunk buffer size)%M (mk_world F D rb ob np tr) =
      (Ret (size + Z.of_nat (length (drop ps cs))),
       mk_world (<[nd := write_at pd (drop ps cs) cd]> F)
         (<[dst := mk_fdesc nd (pd + length (drop ps cs)) false]>
            (<[src := mk_fdesc ns (ps + length (drop ps cs)) false]> D))
         rb ob np tr).
Proof.
  induction fuel as [|fuel IH]; intros F D size ps pd cd Hs Hd Hcs Hcd Hpd Hfuel.
  - assert (Hrest : drop ps cs = []) by (destruct (drop ps cs); [done|simpl in Hfuel; lia]).
    unfold bind. erewrite f_read_ok by eauto. cbv zeta.
    destruct (chunk <? 0) eqn:E; [lia|]. rewrite Hrest.
    cbn [take_z length copy_chunks ret]. rewrite write_at_nil by done.
    rewrite insert_id by done. rewrite !Nat.add_0_r, Z.add_0_r.
    rewrite (list_insert_id _ dst); [done|].
    by rewrite list_lookup_insert_ne.
  - unfold bind at 1. erewrite f_read_ok by eauto. cbv zeta.
    destruct (chunk <? 0) eqn:E; [lia|].
    destruct (take_z chunk (drop ps cs)) as [|b buf'] eqn:Eb.
    + assert (Hrest : drop ps cs = []).
      { rewrite take_z_take in Eb. destruct (drop ps cs); [done|].
        destruct (Z.to_nat chunk) eqn:E'; [lia|done]. }
      rewrite Hrest. cbn [length copy_chunks ret]. rewrite write_at_nil by done.
      rewrite insert_id by done. rewrite !Nat.add_0_r, Z.add_0_r.
      rewrite (list_insert_id _ dst); [done|].
      by rewrite list_lookup_insert_ne.
    + set (buf := b :: buf') in *.
      assert (Hsplit : buf ++ drop (ps + length buf) cs = drop ps cs).
      { rewrite <- Eb. rewrite !take_z_take. rewrite <- drop_drop.
        apply take_drop_length. }
      assert (Hlen : (length buf + length (drop (ps + length buf) cs)
                      = length (drop ps cs))%nat).
      { rewrite <- Hsplit. by rewrite length_app. }
      assert (0 < length buf)%nat by (unfold buf; simpl; lia).
      assert (Hlts : (src < length D)%nat) by (eapply lookup_lt_Some; eauto).
      assert (Hltd : (dst < length D)%nat) by (eapply lookup_lt_Some; eauto).
      unfold buf at 1. cbn [copy_chunks]. fold buf.
      unfold bind at 1.
      erewrite f_write_ok;
        [|rewrite list_lookup_insert_ne by done; exact Hd|exact Hcd].
      cbv beta iota.
      erewrite IH;
        [|rewrite list_lookup_insert_ne by done; apply list_lookup_insert_eq; lia
         |apply list_lookup_insert_eq; rewrite length_insert; lia
         |by rewrite lookup_insert_ne
         |by rewrite lookup_insert_eq
         |rewrite length_write_at; lia
         |lia].
      rewrite insert_insert_eq, write_at_app, Hsplit.
      rewrite (list_insert_insert_ne _ src dst) by done.
      rewrite !list_insert_insert_eq.
      rewrite <- Hlen. by rewrite Nat2Z.inj_add, !Nat.add_assoc, Z.add_assoc.
Qed.

End Streaming.

(** X7: A payload given as an open file is streamed from that file's current
    position to its end: the target receives the header values followed by
    exactly those bytes, the size reported counts them, and the source
    handle is left at its end.  The outcome is the same for every positive
    chunk size. *)
Theorem write_streamed_payload (fuel : nat) (head : list Z) (src : nat)
    (fname : option string) (mode : fmode) (pf af so : bool) (chunk : Z)
    (F : gmap string (list byte)) (D : list fdesc) (rb ob : string -> bool)
    (np : nat) (tr : list event) (dst : nat) (nd ns : string) (pd ps : nat)
    (cd cs : list byte) :
  Forall (fun v => 0 <= v < 2 ^ 64) head ->
  src <> dst -> ns <> nd -> 0 < chunk ->
  D !! dst = Some (mk_fdesc nd pd false) ->
  D !! src = Some (mk_fdesc ns ps false) ->
  F !! nd = Some cd ->
  F !! ns = Some cs ->
  (pd <= length cd)%nat ->
  (length (drop ps cs) <= fuel)%nat ->
  let hb := concat (map (le_bytes u8_width) head) in
  let rest := drop ps cs in
  write_to_cached_file fuel
      (mk_wargs head (PHandle src) fname mode (Some dst) false None None pf af so chunk)
      (mk_world F D rb ob np tr) =
    (Ret (dst, if so then Some (8 * Z.of_nat (length head) + Z.of_nat (length rest))
               else None),
     mk_world (<[nd := write_at pd (hb ++ rest) cd]> F)
              (<[dst := mk_fdesc nd (pd + length hb + length rest) false]>
                 (<[src := mk_fdesc ns (ps + length rest) false]> D)) rb ob np tr).
Proof.
  intros Hr Hfd Hnames Hchunk Hd Hs Hcd Hcs Hpd Hfuel hb rest.
  assert (Hlts : (src < length D)%nat) by (eapply lookup_lt_Some; eauto).
  assert (Hltd : (dst < length D)%nat) by (eapply lookup_lt_Some; eauto).
  unfold write_to_cached_file.
  unfold bind at 1.
  cbn [write_target w_buffered_random ret w_pre_seek w_pre_truncate w_pre_flush w_head
       w_data w_after_seek w_after_flush w_size_on_output w_data_chunk seek_opt].
  unfold bind at 1. unfold ret at 1. cbv beta iota.
  unfold bind at 1. cbn [when]. unfold ret at 1. cbv beta iota.
  unfold bind at 1. erewrite when_flush_ok by eauto. cbv beta iota.
  unfold bind at 1. erewrite write_head_run by eauto. fold hb. cbv beta iota.
  rewrite <- length_header_bytes. fold hb.
  unfold bind at 1.
  erewrite (stream_run rb ob np tr src dst ns nd cs chunk Hfd Hnames Hchunk fuel);
    [|by rewrite list_lookup_insert_ne
     |by apply list_lookup_insert_eq
     |by rewrite lookup_insert_ne
     |by rewrite lookup_insert_eq
     |rewrite length_write_at; lia
     |done].
  fold rest. cbv beta iota.
  rewrite insert_insert_eq, write_at_app.
  rewrite (list_insert_insert_ne _ src dst) by done.
  rewrite list_insert_insert_eq.
  unfold bind at 1. unfold ret at 1. cbv beta iota.
  unfold bind at 1.
  erewrite when_flush_ok by (apply list_lookup_insert_eq; rewrite length_insert; lia).
  cbv beta iota. unfold ret. done.
Qed.

Lemma write_streamed_payload_witness :
  write_to_cached_file 8
      (mk_wargs [7] (PHandle 1%nat) None WBplus (Some 0%nat) false None None
                false false true 3)
      (mk_world (<["src.bin" := ramp 8]> {["dst.bin" := []]})
                [mk_fdesc "dst.bin" 0 false; mk_fdesc "src.bin" 1 false]
                never never 0 []) =
    (Ret (0%nat,
          Some (8 * Z.of_nat (length [7]) + Z.of_nat (length (drop 1 (ramp 8))))),
     mk_world
       (<["dst.bin" := write_at 0 (concat (map (le_bytes u8_width) [7]) ++ drop 1 (ramp 8)) []]>
          (<["src.bin" := ramp 8]> {["dst.bin" := []]}))
       (<[0%nat := mk_fdesc "dst.bin"
                     (0 + length (concat (map (le_bytes u8_width) [7]))
                      + length (drop 1 (ramp 8))) false]>
          (<[1%nat := mk_fdesc "src.bin" (1 + length (drop 1 (ramp 8))) false]>
             [mk_fdesc "dst.bin" 0 false; mk_fdesc "src.bin" 1 false]))
       never never 0 []).
Proof.
  apply (write_streamed_payload 8 [7] 1 None WBplus false false true 3
           (<["src.bin" := ramp 8]> {["dst.bin" := []]})
           [mk_fdesc "dst.bin" 0 false; mk_fdesc "src.bin" 1 false]
           never never 0 [] 0 "dst.bin" "src.bin" 0 1 [] (ramp 8)).
  - repeat constructor; lia.
  - lia.
  - discriminate.
  - lia.
  - reflexivity.
  - reflexivity.
  - vm_compute. reflexivity.
  - vm_compute. reflexivity.
  - simpl. lia.
  - simpl. lia.
Defined.

(** X8: Rewriting an entry through its handle is idempotent: the entry then
    holds the header followed by the payload, whatever it held before and
    wherever the handle stood, and a second call with the same arguments
    changes nothing. *)
Theorem entry_rewrite_idempotent (fuel : nat) (m : master) (rec : record)
    (out : list byte) (F : gmap string (list byte)) (D : list fdesc)
    (rb ob : string -> bool) (np : nat) (tr : list event) (fd : nat) (n : string)
    (pos : nat) (c : list byte) :
  r_o rec = PBytes out ->
  header_in_range (entry_header rec) ->
  0 <= CACHE_INFO m ->
  D !! fd = Some (mk_fdesc n pos false) ->
  F !! n = Some c ->
  let a := with_buffered_random fd (entry_wargs m rec) in
  let r := write_to_cached_file fuel a (mk_world F D rb ob np tr) in
  fst r = Ret (fd, None) /\
  files (snd r) !! n = Some (header_bytes (entry_header rec) ++ out) /\
  fds (snd r) !! fd = Some (mk_fdesc n (Z.to_nat (CACHE_INFO m)) false) /\
  write_to_cached_file fuel a (snd r) = r.
Proof.
  intros Ho Hr Hci Hd Hc a r.
  assert (Hlt : (fd < length D)%nat) by (eapply lookup_lt_Some; eauto).
  assert (Hrun : r =
    (Ret (fd, None),
     mk_world (<[n := header_bytes (entry_header rec) ++ out]> F)
              (<[fd := mk_fdesc n (Z.to_nat (CACHE_INFO m)) false]> D) rb ob np tr)).
  { subst r a. by eapply write_entry_handle. }
  rewrite Hrun. cbn [fst snd files fds].
  split; [done|]. split; [apply lookup_insert_eq|].
  split; [by apply list_lookup_insert_eq|].
  subst a. erewrite write_entry_handle;
    [|done|done|done|by apply list_lookup_insert_eq|apply lookup_insert_eq].
  by rewrite insert_insert_eq, list_insert_insert_eq.
Qed.

Lemma entry_rewrite_idempotent_witness :
  let a := with_buffered_random 0 (entry_wargs demo_master mono_record) in
  let r := write_to_cached_file 0 a (open_file_world "a.bin" (ramp 50)) in
  fst r = Ret (0%nat, None) /\
  files (snd r) !! "a.bin" = Some (header_bytes (entry_header mono_record) ++ ramp 8) /\
  fds (snd r) !! 0%nat = Some (mk_fdesc "a.bin" (Z.to_nat (CACHE_INFO demo_master)) false) /\
  write_to_cached_file 0 a (snd r) = r.
Proof.
  apply (entry_rewrite_idempotent 0 demo_master mono_record (ramp 8)
           {["a.bin" := ramp 50]} [mk_fdesc "a.bin" 0 false] never never 0 [] 0
           "a.bin" 0 (ramp 50)).
  - reflexivity.
  - apply header_in_range_check. vm_compute. reflexivity.
  - simpl. lia.
  - reflexivity.
  - vm_compute. reflexivity.
Defined.

(** ** Further properties of the resolver *)

Lemma length_header_bytes32 (h : header) : length (header_bytes h) = 32%nat.
Proof.
  unfold header_bytes, header_fields. cbn [map concat].
  by rewrite !length_app, !length_le_bytes.
Qed.

Lemma take_z_header (h : header) (p : list byte) :
  take_z 32 (header_bytes h ++ p) = header_bytes h.
Proof.
  rewrite take_z_take. apply take_app_length'. by rewrite length_header_bytes32.
Qed.

Lemma decode_header_bytes (h : header) :
  header_in_range h -> decode_header (header_bytes h) = Ret h.
Proof.
  intros Hr. unfold decode_header, header_bytes.
  rewrite np_frombuffer_u8_encoded by exact Hr. by destruct h.
Qed.

Lemma with_header_fields (h : header) (rec : record) :
  r_o (with_header h rec) = r_o rec /\
  r_size (with_header h rec) = byteSize h /\
  r_frameRate (with_header h rec) = hframeRate h /\
  r_nchannels (with_header h rec) = channelCount h /\
  r_sampleFormat (with_header h rec) = nonzero_or_none (sampleFormatId h) /\
  r_is_series (with_header h rec) = r_is_series rec /\
  r_name (with_header h rec) = r_name rec.
Proof. by destruct rec. Qed.

Section Hits.
Context {L : AudioLib}.

(** A well-formed entry that nobody else holds, reused as it is. *)
Lemma hit_run (fuel : nat) (ps : nat -> string) (m : master) (dec : option payload)
    (sfo sno sro : option Z) (safe : bool)
    (F : gmap string (list byte)) (D : list fdesc) (rb ob : string -> bool)
    (np : nat) (tr : list event) (rec rec3 : record) (h : header) (p : list byte)
    (nm : option string) :
  let path := ps np in
  mem_string path (m_cache m) = true ->
  F !! path = Some (header_bytes h ++ p) ->
  rb path = false -> ob path = false ->
  CACHE_INFO m = 32 ->
  header_in_range h ->
  format_matches h (target_format m sfo) (target_nchannels m sno) (target_rate m sro)
    = true \/ safe = false ->
  compute_duration (with_header h (set_o (PHandle (length D)) rec)) = Ret rec3 ->
  name_for m rec path = Ret nm ->
  handle_cached_record fuel ps m dec sfo sno sro safe
      (mk_hstate (mk_world F D rb ob np tr) rec) =
    (Ret (set_name nm rec3),
     mk_hstate
       (mk_world F (D ++ [mk_fdesc path 32 false]) rb ob (S np)
                 (tr ++ [EvOpen path RBplus]))
       (set_name nm rec3)).
Proof.
  intros path Hmem Hc Hrb Hob Hci Hr Hcase Hdur Hnm.
  erewrite (handle_reuse_run fuel ps m sfo sno sro dec safe F D rb ob np tr rec
              (length D) path 0 (header_bytes h ++ p) h);
    [|exact Hmem
     |by eapply open_entry_free
     |done
     |apply lookup_last
     |exact Hc
     |rewrite Hci, take_z_header; by apply decode_header_bytes
     |exact Hcase
     |exact Hdur
     |rewrite <- Hnm; by apply name_for_meta].
  rewrite Hci, take_z_header, length_header_bytes32, insert_last. done.
Qed.

(** X9: A hit on a well-formed entry whose format is the one asked for, or
    with safe loading off: the record takes size, rate, channel count and
    format from the header (a stored format 0 becoming [None]), no file is
    changed, the only file event is the opening of the entry (the decoder
    is not called), and the handle returned stands just behind the header,
    so that reading it yields the payload. *)
Theorem hit_returns_header (fuel : nat) (ps : nat -> string) (m : master)
    (dec : option payload) (sfo sno sro : option Z) (safe : bool)
    (F : gmap string (list byte)) (D : list fdesc) (rb ob : string -> bool)
    (np : nat) (tr : list event) (rec : record) (h : header) (p : list byte)
    (w : Z) (nm : option string) :
  mem_string (ps np) (m_cache m) = true ->
  F !! ps np = Some (header_bytes h ++ p) ->
  rb (ps np) = false -> ob (ps np) = false ->
  CACHE_INFO m = 32 ->
  header_in_range h ->
  format_matches h (target_format m sfo) (target_nchannels m sno) (target_rate m sro)
    = true \/ safe = false ->
  get_sample_size (nonzero_or_none (sampleFormatId h)) = Some w ->
  hframeRate h * channelCount h * w <> 0 ->
  name_for m rec (ps np) = Ret nm ->
  exists rec' s',
    handle_cached_record fuel ps m dec sfo sno sro safe
      (mk_hstate (mk_world F D rb ob np tr) rec) = (Ret rec', s') /\
    files (hw s') = F /\
    trace (hw s') = tr ++ [EvOpen (ps np) RBplus] /\
    r_o rec' = PHandle (length D) /\
    fst (f_read (length D) None (hw s')) = Ret p /\
    r_size rec' = byteSize h /\
    r_frameRate rec' = hframeRate h /\
    r_nchannels rec' = channelCount h /\
    r_sampleFormat rec' = nonzero_or_none (sampleFormatId h) /\
    r_duration rec' = Some (byteSize h, hframeRate h * channelCount h * w) /\
    r_name rec' = nm.
Proof.
  intros Hmem Hc Hrb Hob Hci Hr Hcase Hw Hden Hnm.
  eexists _, _. split.
  - eapply hit_run; try eassumption.
    apply compute_duration_ok with (w := w); by destruct rec.
  - cbn [hw files trace]. split; [done|]. split; [done|]. split; [by destruct rec|]. split.
    + erewrite f_read_ok; [|apply lookup_last|exact Hc]. cbn [fst].
      by rewrite drop_app_length' by (by rewrite length_header_bytes32).
    + by destruct rec.
Qed.

(** X10: An entry whose header does not decode, and no decoder to fall back on:
    the entry has been closed and removed by the time the size of the file
    behind the record's handle is asked for, so the call ends in OSError
    and the entry is gone. *)
Theorem corrupt_without_decoder (fuel : nat) (ps : nat -> string) (m : master)
    (sfo sno sro : option Z) (safe : bool)
    (F : gmap string (list byte)) (D : list fdesc) (rb ob : string -> bool)
    (np : nat) (tr : list event) (rec : record) (c : list byte) :
  mem_string (ps np) (m_cache m) = true ->
  F !! ps np = Some c ->
  rb (ps np) = false -> ob (ps np) = false ->
  0 <= CACHE_INFO m ->
  length (take_z (CACHE_INFO m) c) <> 32%nat ->
  exists s',
    handle_cached_record fuel ps m None sfo sno sro safe
      (mk_hstate (mk_world F D rb ob np tr) rec) = (Raise OSError, s') /\
    files (hw s') = delete (ps np) F /\
    trace (hw s') = tr ++ [EvOpen (ps np) RBplus; EvClose (ps np); EvRemove (ps np)].
Proof.
  intros Hmem Hc Hrb Hob Hci Hlen.
  rewrite handle_unfold. unfold try_except.
  erewrite (try_cached_corrupt fuel ps m (ps np) _ _ _ safe _ (length D) (ps np) 0 c);
    [|exact Hmem
     |by eapply open_entry_free
     |apply lookup_last
     |exact Hc
     |exact Hci
     |exact Hlen
     |exact Hrb].
  change (is_DecodeError DecodeError) with true. cbv iota.
  unfold rebuild. unfold bind at 1. unfold ret at 1. cbv beta iota.
  unfold bind at 1. unfold get_rec at 1. cbv beta iota. cbn [hrec hw set_o r_o].
  unfold bind at 1. unfold bind at 1.
  erewrite lift_w_eq;
    [|eapply f_name_ok; rewrite insert_last; apply lookup_last].
  cbn [fd_name].
  erewrite lift_w_eq
    by (unfold os_path_getsize; cbn [files]; by rewrite lookup_delete_eq).
  eexists. split; [reflexivity|]. cbn [hw files trace]. split; [done|].
  by rewrite <- app_assoc.
Qed.

(** X11: A miss without a decoder and without a payload in the record: the
    length of the payload cannot be taken, the call ends in TypeError, and
    nothing has been opened or written. *)
Theorem miss_without_payload (fuel : nat) (ps : nat -> string) (m : master)
    (sfo sno sro : option Z) (safe : bool) (w : world) (rec : record) :
  mem_string (ps (next_path w)) (m_cache m) = false ->
  r_o rec = PNone ->
  handle_cached_record fuel ps m None sfo sno sro safe (mk_hstate w rec) =
    (Raise TypeError, mk_hstate (set_next_path (S (next_path w)) w) rec).
Proof.
  intros Hmem Ho. destruct w as [F D rb ob np tr]. cbn [next_path] in Hmem.
  rewrite handle_unfold. unfold try_except.
  rewrite try_cached_miss by done.
  change (is_DecodeError DecodeError) with true. cbv iota.
  unfold rebuild, bind, ret, get_rec, lift_outcome. cbn [hrec hw]. rewrite Ho. done.
Qed.

(** X12: A miss without a decoder caches the payload the record already
    carries: the entry is the header followed by these bytes, the size
    recorded is their length plus the header width, and the decoder is
    never called. *)
Theorem miss_caches_own_payload (fuel : nat) (ps : nat -> string) (m : master)
    (sfo sno sro : option Z) (safe : bool) (p : list byte)
    (F : gmap string (list byte)) (D : list fdesc) (rb ob : string -> bool)
    (np : nat) (tr : list event) (rec : record) (w : Z) (nm : option string) :
  let rec1 := set_size (Z.of_nat (length p) + CACHE_INFO m) rec in
  mem_string (ps np) (m_cache m) = false ->
  r_o rec = PBytes p ->
  header_in_range (entry_header rec1) ->
  0 <= CACHE_INFO m ->
  ps np <> EmptyString ->
  ob (ps np) = false ->
  get_sample_size (r_sampleFormat rec) = Some w ->
  r_frameRate rec * r_nchannels rec * w <> 0 ->
  name_for m rec (ps np) = Ret nm ->
  exists rec' s',
    handle_cached_record fuel ps m None sfo sno sro safe
      (mk_hstate (mk_world F D rb ob np tr) rec) = (Ret rec', s') /\
    files (hw s') = <[ps np := header_bytes (entry_header rec1) ++ p]> F /\
    trace (hw s') = tr ++ [EvOpen (ps np) WBplus] /\
    r_o rec' = PHandle (length D) /\
    r_size rec' = Z.of_nat (length p) + CACHE_INFO m.
Proof.
  intros rec1 Hmem Ho Hr Hci Hne Hob Hw Hden Hnm.
  rewrite handle_unfold. unfold try_except.
  rewrite try_cached_miss by done.
  change (is_DecodeError DecodeError) with true. cbv iota.
  unfold rebuild. unfold bind at 1. unfold ret at 1. cbv beta iota.
  unfold bind at 1. unfold get_rec at 1. cbv beta iota. cbn [hrec hw].
  rewrite Ho. unfold bind at 1. unfold bind at 1. unfold lift_outcome at 1.
  cbn [payload_len]. cbv beta iota. unfold ret at 1. cbv beta iota.
  unfold bind at 1. unfold upd_rec at 1. cbv beta iota. cbn [hrec hw].
  unfold bind at 1. unfold get_rec at 1. cbv beta iota. cbn [hrec hw].
  fold rec1. unfold bind at 1.
  erewrite lift_w_eq;
    [|apply (write_entry_name fuel m rec1 p); [by destruct rec|done|done|done|done]].
  unfold upd_rec. cbn [hw hrec].
  erewrite finish_ok;
    [|reflexivity
     |apply lookup_last
     |apply compute_duration_ok with (w := w); by destruct rec
     |cbn [fd_name]; rewrite <- Hnm; apply name_for_meta; by destruct rec].
  eexists _, _. split; [reflexivity|]. cbn [hw files trace].
  repeat split; by destruct rec.
Qed.

End Hits.

Lemma hit_returns_header_witness :
  exists rec' s',
    handle_cached_record (L := pa_lib) 1 demo_paths demo_master None None None None true
      (mk_hstate (mk_world {["a.bin" := mono_entry]} [] never never 0 []) blank_record)
      = (Ret rec', s') /\
    files (hw s') = {["a.bin" := mono_entry]} /\
    trace (hw s') = [] ++ [EvOpen (demo_paths 0) RBplus] /\
    r_o rec' = PHandle (length (@nil fdesc)) /\
    fst (f_read (length (@nil fdesc)) None (hw s')) = Ret (ramp 8) /\
    r_size rec' = byteSize (mk_header 40 8000 8 1) /\
    r_frameRate rec' = hframeRate (mk_header 40 8000 8 1) /\
    r_nchannels rec' = channelCount (mk_header 40 8000 8 1) /\
    r_sampleFormat rec' = nonzero_or_none (sampleFormatId (mk_header 40 8000 8 1)) /\
    r_duration rec' =
      Some (byteSize (mk_header 40 8000 8 1),
            hframeRate (mk_header 40 8000 8 1) * channelCount (mk_header 40 8000 8 1) * 2) /\
    r_name rec' = None.
Proof.
  apply (hit_returns_header (L := pa_lib) 1 demo_paths demo_master None None None None
           true {["a.bin" := mono_entry]} [] never never 0 [] blank_record
           (mk_header 40 8000 8 1) (ramp 8) 2 None).
  - reflexivity.
  - vm_compute. reflexivity.
  - reflexivity.
  - reflexivity.
  - reflexivity.
  - apply header_in_range_check. vm_compute. reflexivity.
  - left. vm_compute. reflexivity.
  - reflexivity.
  - simpl. lia.
  - reflexivity.
Defined.

Lemma corrupt_without_decoder_witness :
  exists s',
    handle_cached_record (L := pa_lib) 1 demo_paths demo_master None None None None true
      (mk_hstate (mk_world {["a.bin" := ramp 5]} [] never never 0 []) blank_record)
      = (Raise OSError, s') /\
    files (hw s') = delete (demo_paths 0) {["a.bin" := ramp 5]} /\
    trace (hw s') =
      [] ++ [EvOpen (demo_paths 0) RBplus; EvClose (demo_paths 0); EvRemove (demo_paths 0)].
Proof.
  apply (corrupt_without_decoder (L := pa_lib) 1 demo_paths demo_master None None None
           true {["a.bin" := ramp 5]} [] never never 0 [] blank_record (ramp 5)).
  - reflexivity.
  - vm_compute. reflexivity.
  - reflexivity.
  - reflexivity.
  - simpl. lia.
  - vm_compute. lia.
Defined.

Lemma miss_without_payload_witness :
  handle_cached_record (L := pa_lib) 1 demo_paths miss_master None None None None true
      (mk_hstate empty_world blank_record) =
    (Raise TypeError,
     mk_hstate (set_next_path (S (next_path empty_world)) empty_world) blank_record).
Proof.
  apply (miss_without_payload (L := pa_lib) 1 demo_paths miss_master None None None true
           empty_world blank_record).
  - reflexivity.
  - reflexivity.
Defined.

Lemma miss_caches_own_payload_witness :
  exists rec' s',
    handle_cached_record (L := pa_lib) 1 demo_paths miss_master None None None None true
      (mk_hstate (mk_world ∅ [] never never 0 []) mono_record) = (Ret rec', s') /\
    files (hw s') =
      <[demo_paths 0 :=
          header_bytes
            (entry_header
               (set_size (Z.of_nat (length (ramp 8)) + CACHE_INFO miss_master) mono_record))
          ++ ramp 8]> ∅ /\
    trace (hw s') = [] ++ [EvOpen (demo_paths 0) WBplus] /\
    r_o rec' = PHandle (length (@nil fdesc)) /\
    r_size rec' = Z.of_nat (length (ramp 8)) + CACHE_INFO miss_master.
Proof.
  apply (miss_caches_own_payload (L := pa_lib) 1 demo_paths miss_master None None None
           true (ramp 8) ∅ [] never never 0 [] mono_record 2 None).
  - reflexivity.
  - reflexivity.
  - apply header_in_range_check. vm_compute. reflexivity.
  - simpl. lia.
  - discriminate.
  - reflexivity.
  - reflexivity.
  - simpl. lia.
  - reflexivity.
Defined.

Lemma nonzero_or_none_format (fmt : option Z) :
  fmt <> Some 0 -> nonzero_or_none (format_or_zero fmt) = fmt.
Proof.
  destruct fmt as [v|]; [|done]. intros Hne. unfold nonzero_or_none, format_or_zero.
  destruct (v =? 0) eqn:E; [|done]. apply Z.eqb_eq in E. by subst.
Qed.

Section RoundTrip.
Context {L : AudioLib}.

(** X13: What a miss writes, a later hit reads back.  After a miss has cached
    the decoder's bytes, a second call for the same path, with the path
    now in the cache list and either matching targets or safe loading off,
    leaves the files as they are and returns a record with the same size,
    rate, channel count, format and duration as the first call returned,
    and a handle from which the decoder's bytes are read. *)
Theorem miss_then_hit (fuel : nat) (ps : nat -> string) (m m2 : master)
    (dec2 : option payload) (sfo sno sro sfo2 sno2 sro2 : option Z) (safe1 safe2 : bool)
    (p : list byte) (F : gmap string (list byte)) (D : list fdesc)
    (rb ob : string -> bool) (np : nat) (tr : list event) (rec rec0 : record) (w : Z) :
  let path := ps np in
  let h := mk_header (Z.of_nat (length p) + 32) (r_frameRate rec)
                     (format_or_zero (r_sampleFormat rec)) (r_nchannels rec) in
  mem_string path (m_cache m) = false ->
  mem_string path (m_cache m2) = true ->
  ps (S np) = path ->
  CACHE_INFO m = 32 -> CACHE_INFO m2 = 32 ->
  header_in_range h ->
  path <> EmptyString -> ob path = false -> rb path = false ->
  r_sampleFormat rec <> Some 0 ->
  get_sample_size (r_sampleFormat rec) = Some w ->
  r_frameRate rec * r_nchannels rec * w <> 0 ->
  r_is_series rec = false -> r_is_series rec0 = false ->
  format_matches h (target_format m2 sfo2) (target_nchannels m2 sno2)
                 (target_rate m2 sro2) = true \/ safe2 = false ->
  exists r1 s1 r2 s2,
    handle_cached_record fuel ps m (Some (PBytes p)) sfo sno sro safe1
      (mk_hstate (mk_world F D rb ob np tr) rec) = (Ret r1, s1) /\
    handle_cached_record fuel ps m2 dec2 sfo2 sno2 sro2 safe2
      (mk_hstate (hw s1) rec0) = (Ret r2, s2) /\
    files (hw s2) = files (hw s1) /\
    r_size r2 = r_size r1 /\ r_frameRate r2 = r_frameRate r1 /\
    r_nchannels r2 = r_nchannels r1 /\ r_sampleFormat r2 = r_sampleFormat r1 /\
    r_duration r2 = r_duration r1 /\
    exists f2, r_o r2 = PHandle f2 /\ fst (f_read f2 None (hw s2)) = Ret p.
Proof.
  intros path h Hmem Hmem2 Hps Hci Hci2 Hr Hne Hob Hrb Hfmt Hw Hden Hser Hser0 Hcase.
  set (rec1 := set_size (Z.of_nat (length p) + CACHE_INFO m) (set_o (PBytes p) rec)).
  assert (Hh : entry_header rec1 = h).
  { unfold entry_header, rec1, h. rewrite Hci. by destruct rec. }
  eexists _, _, _, _. split.
  { eapply (handle_miss_run fuel ps m sfo sno sro safe1 p F D rb ob np tr rec).
    - exact Hmem.
    - fold rec1. by rewrite Hh.
    - lia.
    - exact Hne.
    - exact Hob.
    - apply compute_duration_ok with (w := w); by destruct rec.
    - unfold name_for. by rewrite Hser. }
  cbn [hw]. fold path rec1. rewrite Hh, Hci.
  split.
  { eapply (hit_run fuel ps m2 dec2 sfo2 sno2 sro2 safe2 _ _ rb ob (S np) _ rec0 _ h p).
    - by rewrite Hps.
    - rewrite Hps. apply lookup_insert_eq.
    - by rewrite Hps.
    - by rewrite Hps.
    - exact Hci2.
    - exact Hr.
    - exact Hcase.
    - apply compute_duration_ok with (w := w).
      + destruct rec0. simpl. by rewrite nonzero_or_none_format.
      + by destruct rec0.
    - unfold name_for. by rewrite Hser0. }
  cbn [hw files]. split; [done|].
  cbn [r_size r_frameRate r_nchannels r_sampleFormat r_duration r_o set_name
       set_duration with_header set_sampleFormat set_nchannels set_frameRate set_size
       set_o byteSize hframeRate channelCount sampleFormatId].
  unfold rec1, h.
  cbn [r_size r_frameRate r_nchannels r_sampleFormat r_duration r_o set_name
       set_duration with_header set_sampleFormat set_nchannels set_frameRate set_size
       set_o byteSize hframeRate channelCount sampleFormatId].
  rewrite nonzero_or_none_format by done. rewrite Hci.
  do 5 (split; [done|]).
  eexists. split; [reflexivity|].
  erewrite f_read_ok;
    [|apply lookup_last|rewrite Hps; apply lookup_insert_eq].
  cbn [fst]. by rewrite drop_app_length' by (by rewrite length_header_bytes32).
Qed.

End RoundTrip.

Lemma miss_then_hit_witness :
  exists r1 s1 r2 s2,
    handle_cached_record (L := pa_lib) 1 (fun _ => "a.bin"%string) miss_master
      (Some (PBytes (ramp 8))) None None None true
      (mk_hstate (mk_world ∅ [] never never 0 []) mono_record) = (Ret r1, s1) /\
    handle_cached_record (L := pa_lib) 1 (fun _ => "a.bin"%string) demo_master
      None None None None true (mk_hstate (hw s1) blank_record) = (Ret r2, s2) /\
    files (hw s2) = files (hw s1) /\
    r_size r2 = r_size r1 /\ r_frameRate r2 = r_frameRate r1 /\
    r_nchannels r2 = r_nchannels r1 /\ r_sampleFormat r2 = r_sampleFormat r1 /\
    r_duration r2 = r_duration r1 /\
    exists f2, r_o r2 = PHandle f2 /\ fst (f_read f2 None (hw s2)) = Ret (ramp 8).
Proof.
  apply (miss_then_hit (L := pa_lib) 1 (fun _ => "a.bin"%string) miss_master demo_master
           None None None None None None None true true (ramp 8) ∅ [] never never 0 []
           mono_record blank_record 2).
  - reflexivity.
  - reflexivity.
  - reflexivity.
  - reflexivity.
  - reflexivity.
  - apply header_in_range_check. vm_compute. reflexivity.
  - discriminate.
  - reflexivity.
  - reflexivity.
  - discriminate.
  - reflexivity.
  - simpl. lia.
  - reflexivity.
  - reflexivity.
  - left. vm_compute. reflexivity.
Defined.

(** ** Inputs the synchronizer rejects *)

Section SyncErrors.
Context {L : AudioLib}.

(** X14: A source format whose sample width is not 1, 2, 4 or 8 bytes (24-bit
    samples have width 3) gives a dtype string numpy does not know: the
    call ends in TypeError whatever the payload and the targets are. *)
Theorem unsupported_source_width (rec : record) (n sr : Z) (sf : option Z)
    (mode : string) (w : Z) :
  get_sample_size (r_sampleFormat rec) = Some w ->
  w <> 1 -> w <> 2 -> w <> 4 -> w <> 8 ->
  synchronize_audio rec n sr sf mode = Raise TypeError.
Proof.
  intros Hw H1 H2 H4 H8. unfold synchronize_audio, sample_form. rewrite Hw.
  cbn [obind].
  destruct (payload_buffer (r_o rec)) as [buf| |] eqn:Eb; cbn [obind].
  - unfold np_frombuffer, dtype_valid. cbn [dt_float dt_width existsb].
    repeat match goal with
           | |- context [w =? ?k] => destruct (Z.eqb_spec w k); [lia|]
           end.
    cbn [orb]. by destruct (match r_sampleFormat rec with Some _ => _ | None => _ end).
  - destruct (r_o rec); simpl in Eb; congruence.
  - destruct (r_o rec); simpl in Eb; congruence.
Qed.

(** X15: A byte payload that is not a whole number of source samples is
    rejected by [np.frombuffer] with ValueError, before any of the targets
    is looked at. *)
Theorem misaligned_payload_rejected (rec : record) (p : list byte) (dt : dtype)
    (n sr : Z) (sf : option Z) (mode : string) :
  r_o rec = PBytes p ->
  sample_form (r_sampleFormat rec) = Ret dt ->
  dtype_valid dt = true ->
  Z.of_nat (length p) mod dt_width dt <> 0 ->
  synchronize_audio rec n sr sf mode = Raise ValueError.
Proof.
  intros Ho Hform Hv Hmis. unfold synchronize_audio. rewrite Hform, Ho.
  cbn [obind payload_buffer]. unfold np_frombuffer. rewrite Hv.
  destruct (_ =? 0) eqn:E; [|done]. apply Z.eqb_eq in E. done.
Qed.

End SyncErrors.

Lemma unsupported_source_width_witness :
  synchronize_audio (L := pa_lib)
    (mk_record (PBytes (ramp 6)) 6 8000 1 (Some 4) None false None) 1 8000 (Some 4) "byte"
  = Raise TypeError.
Proof.
  apply (unsupported_source_width (L := pa_lib)
           (mk_record (PBytes (ramp 6)) 6 8000 1 (Some 4) None false None)
           1 8000 (Some 4) "byte" 3).
  - reflexivity.
  - lia.
  - lia.
  - lia.
  - lia.
Defined.

Lemma misaligned_payload_rejected_witness :
  synchronize_audio (L := pa_lib)
    (mk_record (PBytes (ramp 3)) 3 8000 1 (Some 8) None false None) 2 16000 (Some 1) "byte"
  = Raise ValueError.
Proof.
  apply (misaligned_payload_rejected (L := pa_lib)
           (mk_record (PBytes (ramp 3)) 3 8000 1 (Some 8) None false None)
           (ramp 3) (mk_dtype false 2) 2 16000 (Some 1) "byte").
  - reflexivity.
  - reflexivity.
  - reflexivity.
  - vm_compute. discriminate.
Defined.

(** ** What every successful call guarantees *)

Lemma bind_ret_inv {S A B} (m : M S A) (k : A -> M S B) (s s' : S) (b : B) :
  bind m k s = (Ret b, s') ->
  exists a s1, m s = (Ret a, s1) /\ k a s1 = (Ret b, s').
Proof.
  unfold bind. destruct (m s) as [[a|e|] s1]; intros H; [eauto|done|done].
Qed.

Lemma lift_w_rec {A} (m : M world A) (s s' : hstate) (r : outcome A) :
  lift_w m s = (r, s') -> hrec s' = hrec s.
Proof. unfold lift_w. destruct (m (hw s)). by intros [= _ <-]. Qed.

Lemma os_rename_self_missing (F : gmap string (list byte)) (D : list fdesc)
    (rb ob : string -> bool) (np : nat) (tr : list event) (p : string) :
  F !! p = None ->
  os_rename_self p (mk_world F D rb ob np tr) = (Raise OSError, mk_world F D rb ob np tr).
Proof. intros H. unfold os_rename_self. simpl. by rewrite H. Qed.

(** When the probe fails, for whichever reason, the retry loop starts from
    the state the call was made in. *)
Lemma open_entry_fallback (fuel : nat) (ps : nat -> string) (path : string)
    (F : gmap string (list byte)) (D : list fdesc) (rb ob : string -> bool)
    (np : nat) (tr : list event) (rec : record) :
  F !! path = None \/ rb path = true \/ ob path = true ->
  open_entry fuel ps path (mk_hstate (mk_world F D rb ob np tr) rec) =
    relocate fuel fuel ps path (mk_hstate (mk_world F D rb ob np tr) rec).
Proof.
  intros Hcase.
  destruct (rb path) eqn:Hrb; [by apply open_entry_contended|].
  destruct (F !! path) as [c|] eqn:Hc.
  - destruct Hcase as [?|[?|Hob]]; [done|done|].
    unfold open_entry, try_except. unfold bind at 1.
    erewrite lift_w_eq by (by eapply os_rename_self_ok).
    unfold bind at 1.
    by erewrite lift_w_eq by (by eapply py_open_busy).
  - unfold open_entry, try_except. unfold bind at 1.
    by erewrite lift_w_eq by (by eapply os_rename_self_missing).
Qed.

(** How the entry came to be opened: by the probe, or by the retry loop
    on a candidate that did not exist. *)
Lemma open_entry_cases (fuel : nat) (ps : nat -> string) (path : string)
    (F : gmap string (list byte)) (D : list fdesc) (rb ob : string -> bool)
    (np : nat) (tr : list event) (rec : record) (f : nat) (s' : hstate) :
  open_entry fuel ps path (mk_hstate (mk_world F D rb ob np tr) rec) = (Ret f, s') ->
  (exists c, F !! path = Some c /\ f = length D /\
     s' = mk_hstate
            (mk_world F (D ++ [mk_fdesc path 0 false]) rb ob np
                      (tr ++ [EvOpen path RBplus]))
            (set_o (PHandle (length D)) rec))
  \/ (exists (i : nat) (c : list byte) D' tr' rec',
        F !! ps (np + i)%nat = None /\ F !! path = Some c /\
        f = S (length D') /\ same_meta rec' rec /\
        s' = relocated F rb ob path (ps (np + i)%nat) c D' (S (np + i)) tr' rec').
Proof.
  intros Hrun.
  destruct (F !! path) as [c|] eqn:Hc;
    [destruct (rb path) eqn:Hrb; [|destruct (ob path) eqn:Hob]|].
  3:{ left. erewrite open_entry_free in Hrun by done. injection Hrun as <- <-. eauto. }
  all: right; rewrite open_entry_fallback in Hrun by auto;
    apply relocate_exit in Hrun as (i & c' & D' & tr' & rec' & Hn & Hp & Hf & Hm & Hs);
    rewrite Hc in Hp; first [discriminate Hp|injection Hp as <-];
    by exists i, c, D', tr', rec'.
Qed.

(** X16: Whenever the entry has been opened, by the probe or after any number
    of rounds of the retry loop, the record holds the handle returned, the
    handle is open on a file with exactly the bytes of the entry, that
    file is the entry itself or one that did not exist before, every file
    that existed still has its contents, and the other keys of the record
    are untouched. *)
Theorem open_entry_post (fuel : nat) (ps : nat -> string) (path : string)
    (F : gmap string (list byte)) (D : list fdesc) (rb ob : string -> bool)
    (np : nat) (tr : list event) (rec : record) (f : nat) (s' : hstate) :
  open_entry fuel ps path (mk_hstate (mk_world F D rb ob np tr) rec) = (Ret f, s') ->
  exists c n pos,
    F !! path = Some c /\
    fds (hw s') !! f = Some (mk_fdesc n pos false) /\
    files (hw s') !! n = Some c /\
    r_o (hrec s') = PHandle f /\
    same_meta (hrec s') rec /\
    (forall q cq, F !! q = Some cq -> files (hw s') !! q = Some cq) /\
    (n = path \/ F !! n = None).
Proof.
  intros Hrun.
  apply open_entry_cases in Hrun
    as [(c & Hc & -> & ->)|(i & c & D' & tr' & rec' & Hn & Hp & -> & Hm & ->)].
  - exists c, path, 0%nat. cbn [hw hrec fds files].
    split; [done|]. split; [apply lookup_last|]. split; [done|].
    split; [done|]. split; [by destruct rec|]. split; [done|by left].
  - exists c, (ps (np + i)%nat), (length c). unfold relocated. cbn [hw hrec fds files].
    split; [done|]. split; [apply lookup_succ|].
    split; [apply lookup_insert_eq|]. split; [done|].
    split; [unfold same_meta in *; rewrite <- Hm; by destruct rec'|].
    split; [|by right].
    intros q cq Hq. rewrite lookup_insert_ne; [done|congruence].
Qed.

Lemma open_entry_post_witness :
  let s' := snd (open_entry 40 demo_paths "a.bin"
                   (mk_hstate (mk_world contended_files [] busy_a never 1 []) mono_record)) in
  exists c n pos,
    contended_files !! "a.bin" = Some c /\
    fds (hw s') !! 2%nat = Some (mk_fdesc n pos false) /\
    files (hw s') !! n = Some c /\
    r_o (hrec s') = PHandle 2 /\
    same_meta (hrec s') mono_record /\
    (forall q cq, contended_files !! q = Some cq -> files (hw s') !! q = Some cq) /\
    (n = "a.bin"%string \/ contended_files !! n = None).
Proof.
  apply (open_entry_post 40 demo_paths "a.bin" contended_files [] busy_a never 1 []
           mono_record 2).
  vm_compute. reflexivity.
Defined.

Ltac step_lift :=
  match goal with
  | |- context [lift_w ?m ?s] =>
      let E := fresh "E" in
      destruct (lift_w m s) as [[?|?|] ?] eqn:E; apply lift_w_rec in E; cbn [hrec] in *
  end.

Lemma read_header_rec (m : master) (f : nat) (s s' : hstate) (r : outcome header) :
  read_header m f s = (r, s') -> hrec s' = hrec s.
Proof.
  unfold read_header, bind, try_except, lift_outcome, raise.
  repeat step_lift;
    try (intros [= _ <-]; congruence);
    destruct (decode_header _) as [hdr|err|]; try (intros [= _ <-]; congruence);
    destruct (is_ValueError err); intros [= _ <-]; congruence.
Qed.

Section Postcondition.
Context {L : AudioLib}.

Lemma try_cached_ret (fuel : nat) (ps : nat -> string) (m : master) (path : string)
    (sf : option Z) (sn sr : Z) (safe : bool) (s s' : hstate) (u : unit) :
  try_cached fuel ps m path sf sn sr safe s = (Ret u, s') ->
  exists f, r_o (hrec s') = PHandle f.
Proof.
  destruct u.
  unfold try_cached. destruct (mem_string path (m_cache m)); [|done].
  intros H. apply bind_ret_inv in H as (f & s1 & Hopen & H).
  destruct s as [[F D rb ob np tr] rec].
  assert (Ho : r_o (hrec s1) = PHandle f).
  { apply open_entry_cases in Hopen
      as [(c & _ & -> & ->)|(i & c & D' & tr' & rec' & _ & _ & -> & _ & ->)];
      by destruct rec. }
  apply bind_ret_inv in H as (h & s2 & Hrh & H).
  apply read_header_rec in Hrh.
  apply bind_ret_inv in H as ([] & s3 & [= <-] & H).
  apply bind_ret_inv in H as ([] & s4 & [= <-] & H).
  apply bind_ret_inv in H as ([] & s5 & [= <-] & H).
  apply bind_ret_inv in H as ([] & s6 & [= <-] & H).
  cbn [hw hrec] in H.
  destruct (_ && _ && _).
  { injection H as <-. exists f. cbn [hrec]. rewrite Hrh in *.
    by destruct (hrec s1). }
  destruct safe.
  2:{ injection H as <-. exists f. cbn [hrec]. rewrite Hrh in *.
      by destruct (hrec s1). }
  apply bind_ret_inv in H as (rest & s7 & _ & H).
  apply bind_ret_inv in H as ([] & s8 & _ & H).
  apply bind_ret_inv in H as (r1 & s9 & _ & H).
  apply bind_ret_inv in H as (r2 & s10 & _ & H).
  apply bind_ret_inv in H as ([] & s11 & _ & H).
  apply bind_ret_inv in H as ([f' o'] & s12 & _ & H).
  injection H as <-. by exists f'.
Qed.

Lemma rebuild_ret (fuel : nat) (m : master) (path : string) (dec : option payload)
    (s s' : hstate) (u : unit) :
  rebuild fuel m path dec s = (Ret u, s') ->
  exists f, r_o (hrec s') = PHandle f.
Proof.
  destruct u. unfold rebuild. intros H.
  apply bind_ret_inv in H as ([] & s1 & _ & H).
  apply bind_ret_inv in H as (r1 & s2 & _ & H).
  apply bind_ret_inv in H as (sz & s3 & _ & H).
  apply bind_ret_inv in H as ([] & s4 & _ & H).
  apply bind_ret_inv in H as (r2 & s5 & _ & H).
  apply bind_ret_inv in H as ([f' o'] & s6 & _ & H).
  injection H as <-. by exists f'.
Qed.

Lemma finish_ret (m : master) (s s' : hstate) (rec' : record) :
  finish m s = (Ret rec', s') ->
  hrec s' = rec' /\ r_o rec' = r_o (hrec s) /\
  exists w,
    get_sample_size (r_sampleFormat rec') = Some w /\
    r_frameRate rec' * r_nchannels rec' * w <> 0 /\
    r_duration rec' = Some (r_size rec', r_frameRate rec' * r_nchannels rec' * w).
Proof.
  unfold finish. intros H.
  apply bind_ret_inv in H as (r0 & s1 & [= <- <-] & H).
  apply bind_ret_inv in H as (r1 & s2 & Hd & H).
  unfold lift_outcome in Hd. injection Hd as Hd <-.
  apply compute_duration_inv in Hd as (w & Hw & Hden & ->).
  apply bind_ret_inv in H as ([] & s3 & [= <-] & H).
  apply bind_ret_inv in H as ([] & s4 & Hname & H).
  injection H as <- <-.
  assert (Hs4 : hrec s4 = set_duration
                  (Some (r_size (hrec s), r_frameRate (hrec s) * r_nchannels (hrec s) * w))
                  (hrec s)
                \/ exists nm, hrec s4 = set_name nm (set_duration
                  (Some (r_size (hrec s), r_frameRate (hrec s) * r_nchannels (hrec s) * w))
                  (hrec s))).
  { cbn [hw hrec set_duration r_is_series r_o] in Hname.
    destruct (r_is_series (hrec s)).
    - destruct (r_o (hrec s)); try done.
      apply bind_ret_inv in Hname as (n & s5 & Hn & Hname).
      apply lift_w_rec in Hn. cbn [hrec] in Hn.
      apply bind_ret_inv in Hname as (nm & s6 & Hnm & Hname).
      unfold lift_outcome in Hnm. injection Hnm as _ <-.
      injection Hname as <-. right. exists (Some nm). cbn [hrec]. by rewrite Hn.
    - injection Hname as <-. by left. }
  split; [done|].
  destruct Hs4 as [->|[nm ->]]; (split; [by destruct (hrec s)|]); exists w;
    by destruct (hrec s).
Qed.

(** X17: Whenever [handle_cached_record] returns, whichever way it went, the
    record returned is the shared record as it stands, its ['o'] is a
    file handle (never bytes, an array or [None]), and its duration is its
    size over rate times channel count times sample width, which is then
    known and non-zero. *)
Theorem handle_cached_record_post (fuel : nat) (ps : nat -> string) (m : master)
    (dec : option payload) (sfo sno sro : option Z) (safe : bool)
    (s s' : hstate) (rec' : record) :
  handle_cached_record fuel ps m dec sfo sno sro safe s = (Ret rec', s') ->
  hrec s' = rec' /\
  (exists f, r_o rec' = PHandle f) /\
  exists w,
    get_sample_size (r_sampleFormat rec') = Some w /\
    r_frameRate rec' * r_nchannels rec' * w <> 0 /\
    r_duration rec' = Some (r_size rec', r_frameRate rec' * r_nchannels rec' * w).
Proof.
  unfold handle_cached_record. intros H.
  apply bind_ret_inv in H as ([] & s1 & Hres & H).
  apply finish_ret in H as (Hrec & Ho & Hdur).
  split; [done|]. split; [|done]. rewrite Ho.
  unfold resolve in Hres.
  apply bind_ret_inv in Hres as (path & s0 & _ & Hres).
  unfold try_except in Hres.
  destruct (try_cached _ _ _ _ _ _ _ _ s0) as [[[]|e|] s2] eqn:Etc.
  - injection Hres as <-. by eapply try_cached_ret.
  - destruct (is_DecodeError e); [|done]. by eapply rebuild_ret.
  - done.
Qed.

End Postcondition.

Lemma handle_cached_record_post_witness :
  let r := handle_cached_record (L := pa_lib) 40 demo_paths demo_master None None
             (Some 2) None true
             (mk_hstate (mk_world contended_files [] busy_a never 0 []) mono_record) in
  exists rec',
    fst r = Ret rec' /\
    hrec (snd r) = rec' /\
    (exists f, r_o rec' = PHandle f) /\
    exists w,
      get_sample_size (AudioLib := pa_lib) (r_sampleFormat rec') = Some w /\
      r_frameRate rec' * r_nchannels rec' * w <> 0 /\
      r_duration rec' = Some (r_size rec', r_frameRate rec' * r_nchannels rec' * w).
Proof.
  eexists. split; [vm_compute; reflexivity|].
  apply (handle_cached_record_post (L := pa_lib) 40 demo_paths demo_master None None
           (Some 2) None true
           (mk_hstate (mk_world contended_files [] busy_a never 0 []) mono_record)).
  vm_compute. reflexivity.
Defined.

(** ** A cached mono entry brought to [k] channels in place *)

Section UpmixInPlace.
Context {L : AudioLib}.

(** The record a mono upmix in byte mode returns, key by key. *)
Lemma upmix_bytes_eq (rec : record) (p : list byte) (dt : dtype) (N : nat) (k : Z) :
  r_o rec = PBytes p ->
  r_nchannels rec = 1 ->
  1 < k ->
  sample_form (r_sampleFormat rec) = Ret dt ->
  dtype_valid dt = true ->
  length p = (N * Z.to_nat (dt_width dt))%nat ->
  r_frameRate rec <> 0 ->
  let out := concat (interleave (replicate (Z.to_nat k)
                                   (chunks (Z.to_nat (dt_width dt)) p))) in
  synchronize_audio rec k (r_frameRate rec) (r_sampleFormat rec) "byte" =
    Ret (mk_record (PBytes out) (Z.of_nat (length out)) (r_frameRate rec) k
           (r_sampleFormat rec)
           (Some (Z.of_nat (length out), r_frameRate rec * k * dt_width dt))
           (r_is_series rec) (r_name rec)).
Proof.
  intros Ho H1 Hk Hform Hv Hl Hrate out.
  pose proof (dtype_valid_pos dt Hv) as Hw.
  pose proof (sample_form_width _ _ Hform) as Hsz.
  unfold synchronize_audio. rewrite Hform, Ho. cbn [payload_buffer obind].
  rewrite (np_frombuffer_whole p dt N) by done. cbn [obind].
  change (startswith_b "byte") with true. cbv iota.
  rewrite adjust_channels_upmix by done. cbn [obind].
  rewrite convert_rate_same. cbn [obind].
  destruct rec as [o sz rate nch fmt dur ser nm]. simpl in Ho, H1, Hform, Hsz, Hrate.
  subst o nch.
  cbn [set_nchannels r_nchannels r_o r_size r_frameRate r_sampleFormat r_duration
       r_is_series r_name].
  destruct (k >? 1) eqn:Ek; [|lia]. cbn [andb]. cbv iota.
  cbn [np_vstack_copies shuffle2d_channels set_sampleFormat set_nchannels
       r_nchannels r_o r_size r_frameRate r_sampleFormat r_duration r_is_series
       r_name].
  unfold sample in *.
  rewrite (astype_same (Arr1 dt _) dt) by done. cbn [obind tobytes].
  cbn [set_o r_o payload_len obind set_size set_frameRate r_nchannels r_size
       r_frameRate r_sampleFormat r_duration r_is_series r_name].
  erewrite compute_duration_ok; [|exact Hsz|simpl; nia].
  reflexivity.
Qed.

Lemma length_upmix_bytes (p : list byte) (w N k : nat) :
  (0 < w)%nat -> (0 < k)%nat -> length p = (N * w)%nat ->
  length (concat (interleave (replicate k (chunks w p)))) = (k * length p)%nat.
Proof.
  intros Hw Hk Hl.
  assert (Hxw : Forall (fun y : list byte => length y = w) (chunks w p)).
  { by apply (chunks_widths w N). }
  assert (Hxl : length (chunks w p) = N) by (by apply length_chunks).
  rewrite (length_concat_uniform w).
  - rewrite (length_interleave _ N), length_replicate.
    + rewrite Hl. lia.
    + apply Forall_replicate. exact Hxl.
    + by destruct k; [lia|].
  - apply Forall_interleave, Forall_replicate, Hxw.
Qed.

(** X18: A cached one-channel entry asked for with [k > 1] channels, at its own
    rate and format and with safe loading on, is rewritten in place: the
    file then holds a header with channel count [k] and byte size [k]
    times the old payload length (the header's own width not counted),
    followed by the interleaved samples, each of whose [k] channels is the
    old payload; the record carries the same size and channel count. *)
Theorem cached_mono_entry_upmixed (fuel : nat) (ps : nat -> string) (m : master)
    (dec : option payload) (sfo sno sro : option Z)
    (F : gmap string (list byte)) (D : list fdesc) (rb ob : string -> bool)
    (np : nat) (tr : list event) (rec : record)
    (sz rate fmt k : Z) (p : list byte) (dt : dtype) (N : nat) :
  let path := ps np in
  let w := Z.to_nat (dt_width dt) in
  let out := concat (interleave (replicate (Z.to_nat k) (chunks w p))) in
  mem_string path (m_cache m) = true ->
  F !! path = Some (header_bytes (mk_header sz rate fmt 1) ++ p) ->
  rb path = false -> ob path = false ->
  CACHE_INFO m = 32 ->
  header_in_range (mk_header sz rate fmt 1) ->
  fmt <> 0 -> rate <> 0 -> 1 < k ->
  target_nchannels m sno = k ->
  target_rate m sro = rate ->
  target_format m sfo = Some fmt ->
  sample_form (Some fmt) = Ret dt ->
  dtype_valid dt = true ->
  length p = (N * w)%nat ->
  header_in_range (mk_header (k * Z.of_nat (length p)) rate fmt k) ->
  r_is_series rec = false ->
  exists rec' s',
    handle_cached_record fuel ps m dec sfo sno sro true
      (mk_hstate (mk_world F D rb ob np tr) rec) = (Ret rec', s') /\
    files (hw s') =
      <[path := header_bytes (mk_header (k * Z.of_nat (length p)) rate fmt k) ++ out]> F /\
    fds (hw s') !! length D = Some (mk_fdesc path 32 false) /\
    r_o rec' = PHandle (length D) /\
    r_size rec' = k * Z.of_nat (length p) /\
    r_nchannels rec' = k /\
    forall c, (c < Z.to_nat k)%nat ->
      every (Z.to_nat k) (drop c (chunks w out)) = chunks w p.
Proof.
  intros path w out Hmem Hc Hrb Hob Hci Hr Hfmt Hrate Hk Htn Htr Htf Hform Hv Hl Hr2 Hser.
  pose proof (dtype_valid_pos dt Hv) as Hw.
  pose proof (sample_form_width _ _ Hform) as Hsz.
  set (h := mk_header sz rate fmt 1) in *.
  assert (Hnz : nonzero_or_none fmt = Some fmt).
  { unfold nonzero_or_none. destruct (fmt =? 0) eqn:E; [lia|done]. }
  assert (Hlen : Z.of_nat (length out) = k * Z.of_nat (length p)).
  { unfold out. rewrite (length_upmix_bytes p w N) by (unfold w; lia || done). lia. }
  set (rec1 := set_o (PHandle (length D)) rec).
  set (src := set_o (PBytes p) (with_header h rec1)).
  assert (Hsync :
    synchronize_audio src k rate (Some fmt) "byte" =
      Ret (mk_record (PBytes out) (Z.of_nat (length out)) rate k (Some fmt)
             (Some (Z.of_nat (length out), rate * k * dt_width dt))
             (r_is_series rec) (r_name rec))).
  { pose proof (upmix_bytes_eq src p dt N k) as Hu.
    assert (Hsrc : r_frameRate src = rate /\ r_sampleFormat src = Some fmt /\
                   r_is_series src = r_is_series rec /\ r_name src = r_name rec).
    { unfold src, rec1, h. destruct rec. simpl. by rewrite Hnz. }
    destruct Hsrc as (E1 & E2 & E3 & E4). rewrite E1, E2, E3, E4 in Hu.
    apply Hu; try done. }
  eexists _, _. split.
  { eapply (handle_resync_run fuel ps m sfo sno sro dec F D rb ob np tr rec
              (length D) path 0 (header_bytes h ++ p) h).
    - exact Hmem.
    - by eapply open_entry_free.
    - apply lookup_last.
    - exact Hc.
    - rewrite Hci, take_z_header. by apply decode_header_bytes.
    - rewrite Htn, Htr, Htf. unfold format_matches, h. cbn [channelCount].
      destruct (1 =? k) eqn:E; [lia|done].
    - rewrite Hci, take_z_header, length_header_bytes32.
      rewrite drop_app_length' by (by rewrite length_header_bytes32).
      rewrite Htn, Htr, Htf. exact Hsync.
    - reflexivity.
    - unfold entry_header. cbn [r_size r_frameRate r_sampleFormat r_nchannels
                                 format_or_zero]. by rewrite Hlen.
    - apply compute_duration_ok with (w := dt_width dt); [exact Hsz|].
      cbn [r_frameRate r_nchannels set_o]. nia.
    - unfold name_for. cbn [r_is_series r_name]. rewrite Hser. reflexivity. }
  cbn [hw files fds]. unfold entry_header.
  cbn [r_size r_frameRate r_sampleFormat r_nchannels format_or_zero].
  rewrite Hlen, Hci. split; [done|].
  split; [rewrite insert_last; apply lookup_last|].
  split; [done|]. split; [done|]. split; [done|].
  intros c Hlt. unfold out.
  rewrite chunks_concat.
  - by apply channel_of_copies.
  - unfold w. lia.
  - apply Forall_interleave, Forall_replicate. apply (chunks_widths w N); [unfold w; lia|done].
Qed.

End UpmixInPlace.

Lemma cached_mono_entry_upmixed_witness :
  exists rec' s',
    handle_cached_record (L := pa_lib) 1 demo_paths demo_master None None (Some 2) None true
      (mk_hstate (mk_world {["a.bin" := mono_entry]} [] never never 0 []) blank_record)
      = (Ret rec', s') /\
    files (hw s') =
      <[demo_paths 0 :=
          header_bytes (mk_header (2 * Z.of_nat (length (ramp 8))) 8000 8 2)
          ++ concat (interleave (replicate (Z.to_nat 2) (chunks (Z.to_nat 2) (ramp 8))))]>
        {["a.bin" := mono_entry]} /\
    fds (hw s') !! length (@nil fdesc) = Some (mk_fdesc (demo_paths 0) 32 false) /\
    r_o rec' = PHandle (length (@nil fdesc)) /\
    r_size rec' = 2 * Z.of_nat (length (ramp 8)) /\
    r_nchannels rec' = 2 /\
    forall c, (c < Z.to_nat 2)%nat ->
      every (Z.to_nat 2)
        (drop c (chunks (Z.to_nat 2)
                   (concat (interleave (replicate (Z.to_nat 2)
                                          (chunks (Z.to_nat 2) (ramp 8)))))))
      = chunks (Z.to_nat 2) (ramp 8).
Proof.
  apply (cached_mono_entry_upmixed (L := pa_lib) 1 demo_paths demo_master None None
           (Some 2) None {["a.bin" := mono_entry]} [] never never 0 [] blank_record
           40 8000 8 2 (ramp 8) (mk_dtype false 2) 4).
  - reflexivity.
  - vm_compute. reflexivity.
  - reflexivity.
  - reflexivity.
  - reflexivity.
  - apply header_in_range_check. vm_compute. reflexivity.
  - lia.
  - lia.
  - lia.
  - reflexivity.
  - reflexivity.
  - reflexivity.
  - reflexivity.
  - reflexivity.
  - reflexivity.
  - apply header_in_range_check. vm_compute. reflexivity.
  - reflexivity.
Defined.

(** ** Opening the target by name *)

(** X19: Without a handle the target is opened by name, and the mode decides
    what becomes of the old content: with ['wb+'] the file holds the
    header values and the payload and nothing else, even though
    [pre_truncate] is off and whether or not the file existed; with ['rb+']
    they overwrite the beginning of the existing file and the rest stays.
    The handle returned is a new one, left open behind the bytes
    written. *)
Theorem write_by_name (fuel : nat) (head : list Z) (out : list byte)
    (name : string) (mode : fmode) (pf af so : bool) (chunk : Z)
    (F : gmap string (list byte)) (D : list fdesc) (rb ob : string -> bool)
    (np : nat) (tr : list event) (c : list byte) :
  Forall (fun v => 0 <= v < 2 ^ 64) head ->
  name <> EmptyString ->
  ob name = false ->
  match mode with RBplus => F !! name = Some c | WBplus => c = [] end ->
  let hb := concat (map (le_bytes u8_width) head) in
  write_to_cached_file fuel
      (mk_wargs head (PBytes out) (Some name) mode None false None None pf af so chunk)
      (mk_world F D rb ob np tr) =
    (Ret (length D, if so then Some (8 * Z.of_nat (length head) + Z.of_nat (length out))
                    else None),
     mk_world (<[name := write_at 0 (hb ++ out) c]> F)
              (D ++ [mk_fdesc name (length hb + length out) false]) rb ob np
              (tr ++ [EvOpen name mode])).
Proof.
  intros Hr Hne Hob Hc hb.
  set (F1 := match mode with WBplus => <[name := []]> F | RBplus => F end).
  assert (Hc1 : F1 !! name = Some c).
  { unfold F1. destruct mode; [done|]. subst c. apply lookup_insert_eq. }
  transitivity
    (write_to_cached_file fuel
       (mk_wargs head (PBytes out) (Some name) mode (Some (length D)) false None None
                 pf af so chunk)
       (mk_world F1 (D ++ [mk_fdesc name 0 false]) rb ob np (tr ++ [EvOpen name mode]))).
  - unfold write_to_cached_file. unfold bind at 1. symmetry. unfold bind at 1.
    cbn [write_target w_buffered_random w_file_name w_file_mode ret file_name_given].
    destruct name as [|a name']; [done|].
    unfold F1. destruct mode.
    + by erewrite py_open_rb_ok by done.
    + by rewrite py_open_wb_ok by done.
  - erewrite (write_in_place_run fuel head out (Some name) mode pf af so chunk F1
                (D ++ [mk_fdesc name 0 false]) rb ob np (tr ++ [EvOpen name mode])
                (length D) name 0 c);
      [|done|apply lookup_last|exact Hc1|lia].
    fold hb. rewrite insert_last. cbn [Nat.add].
    unfold F1. destruct mode; [done|]. by rewrite insert_insert_eq.
Qed.

Lemma write_by_name_witness :
  write_to_cached_file 0
      (mk_wargs [5] (PBytes (ramp 3)) (Some "a.bin"%string) RBplus None false None None
                false false true 1000000)
      (mk_world {["a.bin" := ramp 50]} [] never never 0 []) =
    (Ret (length (@nil fdesc),
          Some (8 * Z.of_nat (length [5]) + Z.of_nat (length (ramp 3)))),
     mk_world
       (<["a.bin" := write_at 0 (concat (map (le_bytes u8_width) [5]) ++ ramp 3) (ramp 50)]>
          {["a.bin" := ramp 50]})
       ([] ++ [mk_fdesc "a.bin"
                 (length (concat (map (le_bytes u8_width) [5])) + length (ramp 3)) false])
       never never 0 ([] ++ [EvOpen "a.bin" RBplus])).
Proof.
  apply (write_by_name 0 [5] (ramp 3) "a.bin" RBplus false false true 1000000
           {["a.bin" := ramp 50]} [] never never 0 [] (ramp 50)).
  - repeat constructor; lia.
  - discriminate.
  - reflexivity.
  - vm_compute. reflexivity.
Defined.

(** ** The name of a Series record *)

Lemma rfind_from_absent (c : ascii) (s : string) (i found : Z) :
  Forall (fun a => a <> c) (list_ascii_of_string s) ->
  rfind_from c s i found = found.
Proof.
  revert i found. induction s as [|a s IH]; intros i found Hs; [done|].
  cbn [list_ascii_of_string] in Hs. apply Forall_cons in Hs as [Ha Hs].
  cbn [rfind_from]. destruct (Ascii.eqb_spec a c); [done|]. by apply IH.
Qed.

(** X20: The name cut out of a file name starts behind the last separator only
    when that separator is not the first character: for a name whose only
    separator is its first character, the test [pre > 0] fails and the
    record name keeps the separator. *)
Theorem series_name_leading_separator (buffer_type rest : string) (sep : ascii)
    (post : nat) :
  sep = "/"%char \/ sep = "\"%char ->
  Forall (fun a => a <> "/"%char /\ a <> "\"%char) (list_ascii_of_string rest) ->
  String.index 0 buffer_type (String sep rest) = Some post ->
  series_name buffer_type (String sep rest) =
    Ret (match post with
         | O => EmptyString
         | S n => String sep (String.substring 0 n rest)
         end).
Proof.
  intros Hsep Hrest Hpost. unfold series_name. rewrite Hpost.
  assert (H1 : Forall (fun a => a <> "/"%char) (list_ascii_of_string rest))
    by (eapply Forall_impl; [exact Hrest|]; by intros a [? ?]).
  assert (H2 : Forall (fun a => a <> "\"%char) (list_ascii_of_string rest))
    by (eapply Forall_impl; [exact Hrest|]; by intros a [? ?]).
  assert (Hmax : Z.max (rfind "\" (String sep rest)) (rfind "/" (String sep rest)) = 0).
  { unfold rfind. cbn [rfind_from]. rewrite !rfind_from_absent by done.
    destruct Hsep as [-> | ->]; reflexivity. }
  rewrite Hmax. change (0 >? 0) with false. cbv iota.
  change (Z.to_nat 0) with 0%nat. rewrite Nat.sub_0_r.
  by destruct post.
Qed.

Lemma series_name_leading_separator_witness :
  series_name ".bin" (String "/"%char "take1.bin") =
    Ret (match 6%nat with
         | O => EmptyString
         | S n => String "/"%char (String.substring 0 n "take1.bin")
         end).
Proof.
  apply (series_name_leading_separator ".bin" "take1.bin" "/"%char 6).
  - left. reflexivity.
  - repeat constructor; discriminate.
  - reflexivity.
Defined.

(** ** When the retry loop cannot end *)

Section Spinning.
Variables (F : gmap string (list byte)) (rb ob : string -> bool).
Variables (ps : nat -> string) (path : string).

(** The loop is left only through a candidate that does not exist, with
    the entry readable and the candidate creatable; when no candidate to
    come qualifies, every round ends in [continue]. *)
Lemma relocate_spins (inner fuel : nat) :
  forall (D : list fdesc) (np : nat) (tr : list event) (rec : record),
    (forall i, F !! ps (np + i)%nat = None ->
               F !! path = None \/ ob path = true \/ ob (ps (np + i)%nat) = true) ->
    fst (relocate fuel inner ps path (mk_hstate (mk_world F D rb ob np tr) rec))
      = OutOfFuel.
Proof.
  induction fuel as [|fuel IH]; intros D np tr rec Hall; [done|].
  assert (Hnext : forall i, F !! ps (S np + i)%nat = None ->
            F !! path = None \/ ob path = true \/ ob (ps (S np + i)%nat) = true).
  { intros i. replace (S np + i)%nat with (np + S i)%nat by lia. apply Hall. }
  rewrite relocate_step.
  destruct (relocate_body_cases F rb ob path inner (ps np) D (S np) tr rec)
    as [(c & Hn & Hp & Hobp & Hobn & _)
       |[([Hr|Hr] & D' & tr' & rec' & Hs & _)|[Hr _]]];
    cbv zeta in *.
  - specialize (Hall 0%nat). rewrite Nat.add_0_r in Hall.
    destruct (Hall Hn) as [?|[?|?]]; congruence.
  - destruct (relocate_body inner path (ps np) _) as [r s1]. simpl in Hr, Hs. subst r s1.
    by apply IH.
  - destruct (relocate_body inner path (ps np) _) as [r s1]. simpl in Hr, Hs. subst r s1.
    change (is_OSError OSError) with true. cbv iota. by apply IH.
  - destruct (relocate_body inner path (ps np) _) as [r s1]. simpl in Hr. by subst r.
Qed.

(** X21: The retry loop does not end while the path service hands out paths
    that exist: each is probed, opened and left behind, and the next one is
    asked for.  However many rounds are allowed, they are used up. *)
Theorem relocate_spins_on_existing (inner fuel : nat) (D : list fdesc) (np : nat)
    (tr : list event) (rec : record) :
  (forall i, is_Some (F !! ps (np + i)%nat)) ->
  fst (relocate fuel inner ps path (mk_hstate (mk_world F D rb ob np tr) rec))
    = OutOfFuel.
Proof.
  intros Hall. apply relocate_spins. intros i Hn.
  destruct (Hall i) as [c Hc]. congruence.
Qed.

End Spinning.

Section NeverReturns.
Context {L : AudioLib}.

(** X22: A path that is in the cache list but whose file is missing, or cannot
    be opened, is never resolved: the probe fails, and in the retry loop
    every candidate either exists and is skipped or needs the entry to be
    opened for copying, which fails again.  The call neither returns nor
    raises, so it never gets to the decoder; however many rounds are
    allowed, they are used up. *)
Theorem unreadable_entry_never_returns (fuel : nat) (ps : nat -> string) (m : master)
    (dec : option payload) (sfo sno sro : option Z) (safe : bool)
    (F : gmap string (list byte)) (D : list fdesc) (rb ob : string -> bool)
    (np : nat) (tr : list event) (rec : record) :
  mem_string (ps np) (m_cache m) = true ->
  F !! ps np = None \/ ob (ps np) = true ->
  fst (handle_cached_record fuel ps m dec sfo sno sro safe
         (mk_hstate (mk_world F D rb ob np tr) rec)) = OutOfFuel.
Proof.
  intros Hmem Hcase. rewrite handle_unfold. unfold try_except, try_cached.
  rewrite Hmem. unfold bind at 1.
  rewrite open_entry_fallback by (destruct Hcase; auto).
  pose proof (relocate_spins F rb ob ps (ps np) fuel fuel D (S np) tr rec) as Hspin.
  destruct (relocate fuel fuel ps (ps np) _) as [r s1].
  simpl in Hspin. rewrite Hspin; [done|].
  intros i _. destruct Hcase; auto.
Qed.

End NeverReturns.

Lemma relocate_spins_on_existing_witness :
  fst (relocate 7 7 (fun _ => "b.bin"%string) "a.bin"
         (mk_hstate (mk_world contended_files [] busy_a never 1 []) mono_record))
    = OutOfFuel.
Proof.
  apply (relocate_spins_on_existing contended_files busy_a never
           (fun _ => "b.bin"%string) "a.bin" 7 7 [] 1 [] mono_record).
  intros i. exists (ramp 3). vm_compute. reflexivity.
Defined.

Lemma unreadable_entry_never_returns_witness :
  fst (handle_cached_record (L := pa_lib) 9 demo_paths demo_master
         (Some (PBytes (ramp 8))) None None None true
         (mk_hstate (mk_world ∅ [] never never 0 []) mono_record)) = OutOfFuel.
Proof.
  apply (unreadable_entry_never_returns (L := pa_lib) 9 demo_paths demo_master
           (Some (PBytes (ramp 8))) None None None true ∅ [] never never 0 []
           mono_record).
  - reflexivity.
  - left. reflexivity.
Defined.

(** ** A payload handed over as an open file *)

Lemma write_entry_stream (fuel : nat) (m : master) (rec : record) (src : nat)
    (F : gmap string (list byte)) (D : list fdesc) (rb ob : string -> bool)
    (np : nat) (tr : list event) (fd : nat) (n : string) (pos : nat) (c : list byte)
    (ns : string) (ps : nat) (cs : list byte) :
  r_o rec = PHandle src ->
  header_in_range (entry_header rec) ->
  0 <= CACHE_INFO m ->
  src <> fd -> ns <> n ->
  D !! fd = Some (mk_fdesc n pos false) ->
  D !! src = Some (mk_fdesc ns ps false) ->
  F !! n = Some c ->
  F !! ns = Some cs ->
  (length (drop ps cs) <= fuel)%nat ->
  write_to_cached_file fuel (with_buffered_random fd (entry_wargs m rec))
      (mk_world F D rb ob np tr) =
    (Ret (fd, None),
     mk_world (<[n := header_bytes (entry_header rec) ++ drop ps cs]> F)
              (<[fd := mk_fdesc n (Z.to_nat (CACHE_INFO m)) false]>
                 (<[src := mk_fdesc ns (ps + length (drop ps cs)) false]> D))
              rb ob np tr).
Proof.
  intros Ho Hr Hci Hne Hnn Hd Hs Hc Hcs Hfuel.
  assert (Hfd : (fd < length D)%nat) by (eapply lookup_lt_Some; eauto).
  assert (Hsrc : (src < length D)%nat) by (eapply lookup_lt_Some; eauto).
  unfold write_to_cached_file.
  unfold bind at 1. cbn [write_target with_buffered_random w_buffered_random ret].
  cbv beta iota.
  cbn [w_pre_seek w_pre_truncate w_pre_flush w_head w_data w_after_seek
       w_after_flush w_size_on_output w_data_chunk entry_wargs seek_opt when
       with_buffered_random].
  run_with f_seek_start.
  unfold bind at 1. erewrite f_truncate_ok;
    [|by apply list_lookup_insert_eq|eauto]. cbv beta iota.
  unfold bind at 1. erewrite f_flush_ok by (by apply list_lookup_insert_eq).
  cbv beta iota.
  unfold bind at 1. unfold bind at 1. unfold lift_outcome.
  change [r_size rec; r_frameRate rec; format_or_zero (r_sampleFormat rec);
          r_nchannels rec] with (header_fields (entry_header rec)).
  rewrite np_asarray_u8_ok by exact Hr. cbv beta iota.
  fold (header_bytes (entry_header rec)).
  set (hb := header_bytes (entry_header rec)).
  erewrite f_write_ok;
    [|by apply list_lookup_insert_eq|by apply lookup_insert_eq].
  cbv beta iota.
  change (truncate_to (Z.to_nat 0) c) with (@nil byte).
  change (write_at (Z.to_nat 0) hb []) with (hb ++ []).
  rewrite app_nil_r, insert_insert_eq, list_insert_insert_eq.
  change (Z.to_nat 0 + length hb)%nat with (length hb).
  rewrite Ho.
  unfold bind at 1.
  erewrite (stream_run rb ob np tr src fd ns n cs 1000000 Hne Hnn ltac:(lia) fuel);
    [|by rewrite list_lookup_insert_ne
     |by apply list_lookup_insert_eq
     |by rewrite lookup_insert_ne
     |by apply lookup_insert_eq
     |lia
     |done].
  cbv beta iota.
  rewrite insert_insert_eq, write_at_end.
  rewrite (list_insert_insert_ne _ src fd) by done.
  rewrite list_insert_insert_eq.
  unfold bind at 1.
  erewrite f_seek_start;
    [|apply list_lookup_insert_eq; rewrite length_insert; lia
     |apply lookup_insert_eq|done].
  cbv beta iota. rewrite list_insert_insert_eq.
  unfold bind at 1.
  erewrite f_flush_ok by (apply list_lookup_insert_eq; rewrite length_insert; lia).
  cbv beta iota. by unfold ret.
Qed.

Section HandlePayload.
Context {L : AudioLib}.

(** X23: On a miss whose decoder hands over an open file, the size recorded is
    the size of that file on disk, with nothing added for the header, and
    the entry is the header followed by what is read from the file's
    current position on.  (For a decoder that returns [n] bytes the size
    recorded is [n] plus the header width.) *)
Theorem miss_streams_handle_payload (fuel : nat) (ps : nat -> string) (m : master)
    (sfo sno sro : option Z) (safe : bool)
    (F : gmap string (list byte)) (D : list fdesc) (rb ob : string -> bool)
    (np : nat) (tr : list event) (rec : record)
    (src : nat) (ns : string) (pos : nat) (cs : list byte) (w : Z) (nm : option string) :
  let path := ps np in
  let rec1 := set_size (Z.of_nat (length cs)) rec in
  mem_string path (m_cache m) = false ->
  D !! src = Some (mk_fdesc ns pos false) ->
  F !! ns = Some cs ->
  ns <> path ->
  path <> EmptyString ->
  ob path = false ->
  0 <= CACHE_INFO m ->
  header_in_range (entry_header rec1) ->
  (length (drop pos cs) <= fuel)%nat ->
  get_sample_size (r_sampleFormat rec) = Some w ->
  r_frameRate rec * r_nchannels rec * w <> 0 ->
  name_for m rec path = Ret nm ->
  exists rec' s',
    handle_cached_record fuel ps m (Some (PHandle src)) sfo sno sro safe
      (mk_hstate (mk_world F D rb ob np tr) rec) = (Ret rec', s') /\
    files (hw s') = <[path := header_bytes (entry_header rec1) ++ drop pos cs]> F /\
    r_o rec' = PHandle (length D) /\
    r_size rec' = Z.of_nat (length cs).
Proof.
  intros path rec1 Hmem Hs Hcs Hnn Hne Hob Hci Hr Hfuel Hw Hden Hnm.
  assert (Hsrc : (src < length D)%nat) by (eapply lookup_lt_Some; eauto).
  set (rec2 := set_o (PHandle src) rec1).
  assert (Hwrite :
    write_to_cached_file fuel (with_file_name path (entry_wargs m rec2))
      (mk_world F D rb ob (S np) (tr ++ [EvDecoder])) =
    (Ret (length D, None),
     mk_world (<[path := header_bytes (entry_header rec1) ++ drop pos cs]> F)
       (<[src := mk_fdesc ns (pos + length (drop pos cs)) false]> D
          ++ [mk_fdesc path (Z.to_nat (CACHE_INFO m)) false])
       rb ob (S np) ((tr ++ [EvDecoder]) ++ [EvOpen path WBplus]))).
  { transitivity
      (write_to_cached_file fuel (with_buffered_random (length D) (entry_wargs m rec2))
         (mk_world (<[path := []]> F) (D ++ [mk_fdesc path 0 false]) rb ob (S np)
                   ((tr ++ [EvDecoder]) ++ [EvOpen path WBplus]))).
    - unfold write_to_cached_file. unfold bind at 1. symmetry. unfold bind at 1.
      cbn [write_target with_buffered_random with_file_name entry_wargs
           w_buffered_random w_file_name w_file_mode ret file_name_given].
      destruct path as [|a path']; [done|].
      rewrite py_open_wb_ok by done. reflexivity.
    - erewrite (write_entry_stream fuel m rec2 src _ _ rb ob (S np) _ (length D) path 0 []
                  ns pos cs);
        [|done
         |by destruct rec
         |done
         |lia
         |done
         |apply lookup_last
         |by rewrite lookup_app_l
         |apply lookup_insert_eq
         |by rewrite lookup_insert_ne
         |done].
      rewrite insert_insert_eq.
      rewrite insert_app_l by done.
      rewrite <- (length_insert D src (mk_fdesc ns (pos + length (drop pos cs)) false)).
      rewrite insert_last.
      replace (entry_header rec2) with (entry_header rec1) by (by destruct rec).
      done. }
  rewrite handle_unfold. unfold try_except.
  rewrite try_cached_miss by done.
  change (is_DecodeError DecodeError) with true. cbv iota.
  unfold rebuild. unfold bind at 1. unfold bind at 1.
  unfold call_decoder at 1. cbv beta iota. unfold upd_rec at 1. cbv beta iota.
  cbn [hw hrec log files fds rename_busy open_busy next_path trace].
  unfold bind at 1. unfold get_rec at 1. cbv beta iota. cbn [hrec hw set_o r_o].
  unfold bind at 1. unfold bind at 1.
  erewrite lift_w_eq by (by eapply f_name_ok). cbn [fd_name].
  erewrite lift_w_eq by (unfold os_path_getsize; cbn [files]; by rewrite Hcs).
  unfold bind at 1. unfold upd_rec at 1. cbv beta iota. cbn [hw hrec].
  unfold bind at 1. unfold get_rec at 1. cbv beta iota. cbn [hw hrec].
  replace (set_size (Z.of_nat (length cs)) (set_o (PHandle src) rec)) with rec2
    by (by destruct rec).
  unfold bind at 1.
  cbn [hw hrec log files fds rename_busy open_busy next_path trace].
  fold path. erewrite lift_w_eq by exact Hwrite.
  unfold upd_rec. cbn [hw hrec].
  erewrite finish_ok;
    [|reflexivity
     |rewrite <- (length_insert D src (mk_fdesc ns (pos + length (drop pos cs)) false));
      apply lookup_last
     |apply compute_duration_ok with (w := w); by destruct rec
     |cbn [fd_name]; rewrite <- Hnm; apply name_for_meta; by destruct rec].
  eexists _, _. split; [reflexivity|]. cbn [hw files].
  repeat split; by destruct rec.
Qed.

(** X24: After a miss that cached a decoder's bytes, the size in the record is
    the size of the entry file on disk when the header width constant is
    the 32 bytes a header takes. *)
Theorem miss_size_is_file_size (fuel : nat) (ps : nat -> string) (m : master)
    (sfo sno sro : option Z) (safe : bool) (p : list byte)
    (F : gmap string (list byte)) (D : list fdesc) (rb ob : string -> bool)
    (np : nat) (tr : list event) (rec : record) (w : Z) (nm : option string) :
  let rec1 := set_size (Z.of_nat (length p) + CACHE_INFO m) (set_o (PBytes p) rec) in
  mem_string (ps np) (m_cache m) = false ->
  CACHE_INFO m = 32 ->
  header_in_range (entry_header rec1) ->
  ps np <> EmptyString ->
  ob (ps np) = false ->
  get_sample_size (r_sampleFormat rec) = Some w ->
  r_frameRate rec * r_nchannels rec * w <> 0 ->
  name_for m rec (ps np) = Ret nm ->
  exists rec' s',
    handle_cached_record fuel ps m (Some (PBytes p)) sfo sno sro safe
      (mk_hstate (mk_world F D rb ob np tr) rec) = (Ret rec', s') /\
    fst (os_path_getsize (ps np) (hw s')) = Ret (r_size rec').
Proof.
  intros rec1 Hmem Hci Hr Hne Hob Hw Hden Hnm.
  eexists _, _. split.
  { eapply (handle_miss_run fuel ps m sfo sno sro safe p F D rb ob np tr rec);
      try done; [lia|].
    apply compute_duration_ok with (w := w); by destruct rec. }
  unfold os_path_getsize. cbn [hw files]. rewrite lookup_insert_eq. cbn [fst].
  rewrite length_app, length_header_bytes32, Hci. f_equal.
  destruct rec. simpl. lia.
Qed.

End HandlePayload.

Lemma miss_streams_handle_payload_witness :
  exists rec' s',
    handle_cached_record (L := pa_lib) 10 demo_paths miss_master (Some (PHandle 0))
      None None None true
      (mk_hstate (mk_world {["tmp.bin" := ramp 10]} [mk_fdesc "tmp.bin" 2 false]
                           never never 0 []) mono_record) = (Ret rec', s') /\
    files (hw s') =
      <[demo_paths 0 :=
          header_bytes (entry_header (set_size (Z.of_nat (length (ramp 10))) mono_record))
          ++ drop 2 (ramp 10)]> {["tmp.bin" := ramp 10]} /\
    r_o rec' = PHandle (length [mk_fdesc "tmp.bin" 2 false]) /\
    r_size rec' = Z.of_nat (length (ramp 10)).
Proof.
  apply (miss_streams_handle_payload (L := pa_lib) 10 demo_paths miss_master None None
           None true {["tmp.bin" := ramp 10]} [mk_fdesc "tmp.bin" 2 false] never never
           0 [] mono_record 0 "tmp.bin" 2 (ramp 10) 2 None).
  - reflexivity.
  - reflexivity.
  - vm_compute. reflexivity.
  - discriminate.
  - discriminate.
  - reflexivity.
  - simpl. lia.
  - apply header_in_range_check. vm_compute. reflexivity.
  - simpl. lia.
  - reflexivity.
  - simpl. lia.
  - reflexivity.
Defined.

Lemma miss_size_is_file_size_witness :
  exists rec' s',
    handle_cached_record (L := pa_lib) 1 demo_paths miss_master (Some (PBytes (ramp 6)))
      None None None true
      (mk_hstate (mk_world ∅ [] never never 0 []) mono_record) = (Ret rec', s') /\
    fst (os_path_getsize (demo_paths 0) (hw s')) = Ret (r_size rec').
Proof.
  apply (miss_size_is_file_size (L := pa_lib) 1 demo_paths miss_master None None None
           true (ramp 6) ∅ [] never never 0 [] mono_record 2 None).
  - reflexivity.
  - reflexivity.
  - apply header_in_range_check. vm_compute. reflexivity.
  - discriminate.
  - reflexivity.
  - reflexivity.
  - simpl. lia.
  - reflexivity.
Defined.
